(** * Pamela: scan / evaluate / execute loop, news budget and retry logic

    A shallow embedding of
      - [src/services/news/news-service.ts]           (module [News])
      - [src/services/autonomous-trading/strategies/NewsArbStrategy.ts]
                                                      (module [Strategy])
      - [src/services/autonomous-trading/opportunity-evaluator.ts]
                                                      (module [Evaluator])
      - [src/services/autonomous-trading/index.ts]    (module [Trading])
      - [trading-report.ts], the decisions kept by [recordScan]
                                                      (module [Report])

    The collaborators whose sources are not at hand (news-config.ts,
    market-keyword-extractor.ts, BaseStrategy.ts, the trade executor, the
    position and balance managers, the language model) are parameters of the
    sections or calls answered by the environment.

    Conventions.
      - A JS [number] is an exact rational ([Q]); rounding is not modelled.
        Where the source can produce [NaN] ([parseFloat]) the value is a
        [Js.number], which adds [NaN].
      - A JS string is a [string] of 8-bit characters; [toLowerCase] and the
        white-space class are the ASCII ones.
      - [async] methods are programs over the calls they make to their
        collaborators (clock, HTTP client, language model, trading backend,
        report sink): a finite tree of calls, [Prog], run against an arbitrary
        environment.  Every [await] in the source is sequential, so a program
        is a sequence of calls.
      - The mutable fields of a service object are a record threaded through
        its methods. *)

From Stdlib Require Import ZArith QArith Qround Lia ZifyNat Lqa List Bool Ascii String.
From stdpp Require Import base option list sorting strings gmap.

Set Default Proof Using "Type".
Local Open Scope Z_scope.

(** ** JavaScript built-ins used by the sources *)

Module Js.

(** [s.includes(t)] *)
Fixpoint includes (s t : string) : bool :=
  String.prefix t s ||
  match s with
  | EmptyString => false
  | String _ s' => includes s' t
  end.

(** ASCII [toLowerCase]. *)
Definition lowerChar (c : ascii) : ascii :=
  let n := nat_of_ascii c in
  if (65 <=? n)%nat && (n <=? 90)%nat then ascii_of_nat (n + 32) else c.

Fixpoint toLowerCase (s : string) : string :=
  match s with
  | EmptyString => EmptyString
  | String c s' => String (lowerChar c) (toLowerCase s')
  end.

(** A value is truthy as a string when it is present and not empty. *)
Definition truthy (s : option string) : bool :=
  match s with
  | Some (String _ _) => true
  | _ => false
  end.

(** [Math.min] on exact numbers. *)
Definition Math_min (x y : Q) : Q := if Qle_bool x y then x else y.

(** A number that may be [NaN], as [parseFloat] returns. *)
Inductive number : Type :=
| NaN
| Num (q : Q).

(** [x < y] on numbers: false as soon as one side is [NaN]. *)
Definition lt (x y : number) : bool :=
  match x, y with
  | Num a, Num b => negb (Qle_bool b a)
  | _, _ => false
  end.

(** Arithmetic on numbers: [NaN] is absorbing. *)
Definition sub (x y : number) : number :=
  match x, y with
  | Num a, Num b => Num (a - b)
  | _, _ => NaN
  end.

Definition mul (x y : number) : number :=
  match x, y with
  | Num a, Num b => Num (a * b)
  | _, _ => NaN
  end.

Definition add (x y : number) : number :=
  match x, y with
  | Num a, Num b => Num (a + b)
  | _, _ => NaN
  end.

(** [x || d] on numbers: [NaN] and [0] are falsy. *)
Definition orElse (x : number) (d : Q) : Q :=
  match x with
  | NaN => d
  | Num q => if Qeq_bool q 0 then d else q
  end.

(** A thrown [Error]: [String(e)] is its name when the message is empty. *)
Record Error : Type := mkError {
  name : string;
  message : string;
  status : option Z            (* [error.response.status] of an HTTP error *)
}.

(** [error?.message || String(error)] *)
Definition errorText (e : Error) : string :=
  match message e with
  | EmptyString => name e
  | m => m
  end.

(** The outcome of a call that may throw. *)
Inductive Res (X : Type) : Type :=
| Threw (e : Error)
| Returned (x : X).
Arguments Threw {X} e.
Arguments Returned {X} x.

End Js.

(** ** Wall-clock dates

    [new Date()] is read through its local calendar fields; the sources use
    [getDate], [getHours] and [toDateString] only. *)

Module Calendar.

Record Date : Type := mkDate {
  fullYear : nat;
  month : nat;                 (* [getMonth()], 0 .. 11 *)
  date : nat;                  (* [getDate()], the day of the month, 1 .. 31 *)
  hours : nat                  (* [getHours()], 0 .. 23 *)
}.

Definition getDate (d : Date) : nat := date d.
Definition getHours (d : Date) : nat := hours d.

(** Dates the formatter prints on four year digits. *)
Definition wf (d : Date) : Prop :=
  (fullYear d < 100 * 100 /\ month d < 12 /\ 1 <= date d <= 31 /\ hours d < 24)%nat.

(** Two dates on the same calendar day. *)
Definition sameDay (a b : Date) : Prop :=
  fullYear a = fullYear b /\ month a = month b /\ date a = date b.

(** [a] is on an earlier calendar day than [b]. *)
Definition earlierDay (a b : Date) : Prop :=
  (fullYear a < fullYear b
   \/ (fullYear a = fullYear b /\ month a < month b)
   \/ (fullYear a = fullYear b /\ month a = month b /\ date a < date b))%nat.

Definition monthName (m : nat) : string :=
  match m with
  | 0 => "Jan" | 1 => "Feb" | 2 => "Mar" | 3 => "Apr"
  | 4 => "May" | 5 => "Jun" | 6 => "Jul" | 7 => "Aug"
  | 8 => "Sep" | 9 => "Oct" | 10 => "Nov" | _ => "Dec"
  end%nat.

Definition dayName (w : nat) : string :=
  match w with
  | 0 => "Sun" | 1 => "Mon" | 2 => "Tue" | 3 => "Wed"
  | 4 => "Thu" | 5 => "Fri" | _ => "Sat"
  end%nat.

(** Day of the week of a Gregorian date, 0 = Sunday. *)
Definition monthOffset (m : nat) : nat :=
  nth m [0; 3; 2; 5; 0; 3; 5; 1; 4; 6; 2; 4]%nat 0%nat.

Definition getDay (d : Date) : nat :=
  let y := (if month d <? 2 then fullYear d - 1 else fullYear d)%nat in
  ((y + y / 4 - y / 100 + y / 400 + monthOffset (month d) + date d) mod 7)%nat.

Definition digit (n : nat) : ascii := ascii_of_nat (48 + n).

Definition pad2 (n : nat) : string :=
  String (digit (n / 10 mod 10)) (String (digit (n mod 10)) EmptyString).

Definition pad4 (n : nat) : string :=
  String (digit (n / 1000 mod 10)) (String (digit (n / 100 mod 10)) (pad2 n)).

(** [d.toDateString()], e.g. ["Thu Jan 15 2026"]. *)
Definition toDateString (d : Date) : string :=
  (dayName (getDay d) ++ " " ++ monthName (month d) ++ " "
     ++ pad2 (date d) ++ " " ++ pad4 (fullYear d))%string.

End Calendar.

(** ** Data exchanged between the components *)

Inductive Sentiment : Type := Positive | Negative | Neutral.

Inductive Outcome : Type := YES | NO.

(** An article as the news API returns it; any field may be missing.
    [publishedAt] stands for the [Date] that [new Date(article.publishedAt)]
    makes of the field, which is all the services do with it: the text of its
    [toISOString()], or [None] for an Invalid Date (the field is missing or
    is not a date). *)
Module Raw.
Record Article : Type := mkArticle {
  title : option string;
  description : option string;
  url : option string;
  sourceName : option string;
  publishedAt : option string
}.
End Raw.

Module Article.
Record t : Type := mk {
  title : string;
  description : string;
  url : option string;
  source : string;
  publishedAt : option string;
  sentiment : option Sentiment;
  relevanceScore : option Q;
  categories : option (list string)
}.

(** [{ ...article, relevanceScore: s }] *)
Definition withScore (a : t) (s : Q) : t :=
  mk (title a) (description a) (url a) (source a) (publishedAt a)
     (sentiment a) (Some s) (categories a).
End Article.

Module ConfirmedEvent.
Record t : Type := mk {
  event : string;
  detail : string;
  sources : list string
}.
End ConfirmedEvent.

(** A market of the Gamma API. *)
Module Market.
Record t : Type := mk {
  question : string;
  conditionId : string;
  outcomePrices : option string
}.
End Market.

Module MarketMatch.
Record t : Type := mk {
  conditionId : string;
  question : string;
  confirmedOutcome : Outcome;
  reasoning : string;
  currentPrice : Js.number
}.
End MarketMatch.

Module Opportunity.
Record t : Type := mk {
  marketId : string;
  question : string;
  outcome : Outcome;
  currentPrice : Js.number;
  predictedProbability : Q;
  confidence : Q;
  expectedValue : Js.number;
  newsSignals : list string;
  riskScore : Q
}.
End Opportunity.

Module Decision.
Record t : Type := mk {
  shouldTrade : bool;
  marketId : string;
  outcome : Outcome;
  size : Q;
  price : Js.number;
  confidence : Q;
  reasoning : string
}.
End Decision.

(** Answers of the trading backend. *)
Record BalanceCheck : Type := mkBalanceCheck {
  hasEnoughBalance : bool;
  usdcBalance : Q
}.

Record TradeResult : Type := mkTradeResult {
  success : bool;
  orderId : option string;
  error : option string
}.

(** Answer of [fetch] on the markets endpoint: a status that is not ok, or
    the body [response.json()] decodes.  [Fetched markets] is an array of
    market objects; a body that is falsy or whose [length] is 0 behaves as
    [Fetched []].  [Unmappable] is any other body, on which
    [markets.map(...)] throws a [TypeError]: a value that is not an array, or
    an array with a [null] element. *)
Inductive FetchResponse : Type :=
| NotOk (status : Z)
| Fetched (markets : list Market.t)
| Unmappable.

(** ** Calls to the collaborators

    Each constructor is one call a service makes to the outside; [resp] is
    the type of its answer.  Calls the sources guard with [try]/[catch], or
    that reject, answer with a [Js.Res]. *)

Inductive Event : Type :=
| NewDate                                        (* [new Date()] *)
| DateNow                                        (* [Date.now()], in ms *)
| SetTimeout (ms : Z)                            (* [await new Promise(r => setTimeout(r, ms))] *)
| HttpTopHeadlines (apiKey : string)             (* GET /v2/top-headlines, country us, pageSize 100 *)
| HttpEverything (apiKey q sortBy : string) (pageSize from : Z)
                                                 (* GET /v2/everything, language en *)
| UseModel (prompt : string)                     (* [runtime.useModel(TEXT_LARGE, ...)] *)
| FetchMarkets (limit : Z)                       (* GET gamma-api /markets, by volume *)
| GetOpenPositions                               (* [positionManager.getOpenPositions()] *)
| GetPositionCount                               (* [positionManager.getPositionCount()] *)
| RefreshPositions                               (* [positionManager.refreshPositions()] *)
| CheckBalance (amount : Q)                      (* [balanceManager.checkBalance(size)] *)
| ExecuteTrade (d : Decision.t)                  (* [tradeExecutor.executeTrade(decision)] *)
| HandleL2Deposit (amount : Q)                   (* [tradeExecutor.handleL2Deposit(size)] *)
| RecordScan (marketsScanned : Z) (opportunities : list Opportunity.t)
             (decisions : list Decision.t).      (* [reportService.recordScan(...)] *)

Definition resp (e : Event) : Type :=
  match e with
  | NewDate => Calendar.Date
  | DateNow => Z
  | SetTimeout _ => unit
  | HttpTopHeadlines _ => Js.Res (list Raw.Article)
  | HttpEverything _ _ _ _ _ => Js.Res (list Raw.Article)
  | UseModel _ => Js.Res string
  | FetchMarkets _ => Js.Res FetchResponse
  | GetOpenPositions => gmap string unit
  | GetPositionCount => Z
  | RefreshPositions => Js.Res unit
  | CheckBalance _ => Js.Res BalanceCheck
  | ExecuteTrade _ => Js.Res TradeResult
  | HandleL2Deposit _ => Js.Res bool
  | RecordScan _ _ _ => Js.Res unit
  end.

(** One call together with the answer it got. *)
Inductive Entry : Type :=
| entry (e : Event) (r : resp e).

Definition calledEvent (x : Entry) : Event :=
  match x with entry e _ => e end.

Definition Trace : Type := list Entry.

(** ** Programs over the collaborators *)

Module Prog.

Inductive t (R : Type) : Type :=
| Ret (r : R)
| Vis (e : Event) (k : resp e -> t R).
Arguments Ret {R} r.
Arguments Vis {R} e k.

Fixpoint bind {A B : Type} (p : t A) (f : A -> t B) : t B :=
  match p with
  | Ret a => f a
  | Vis e k => Vis e (fun x => bind (k x) f)
  end.

(** An environment answers each call from its own state [W]. *)
Definition Env (W : Type) : Type := forall e : Event, W -> resp e * W.

(** Run a program against an environment; the trace lists the calls made,
    in order, with their answers. *)
Fixpoint run {R W : Type} (env : Env W) (p : t R) (w : W) : R * Trace * W :=
  match p with
  | Ret r => (r, [], w)
  | Vis e k =>
      let '(x, w1) := env e w in
      let '(r, tr, w2) := run env (k x) w1 in
      (r, entry e x :: tr, w2)
  end.

End Prog.

(** ** Methods of a service object

    A method of an object whose mutable fields are [S]: it reads and writes
    the fields, calls collaborators, and either returns or throws.  Field
    updates made before a throw persist, as in JavaScript. *)

Definition M (S R : Type) : Type := S -> Prog.t (Js.Res R * S).

Module Method.
Section WithState.
Context {S : Type}.

Definition ret {R : Type} (r : R) : M S R :=
  fun s => Prog.Ret (Js.Returned r, s).

Definition throw {R : Type} (e : Js.Error) : M S R :=
  fun s => Prog.Ret (Js.Threw e, s).

Definition bind {A B : Type} (m : M S A) (f : A -> M S B) : M S B :=
  fun s =>
    Prog.bind (m s) (fun '(r, s1) =>
      match r with
      | Js.Returned a => f a s1
      | Js.Threw e => Prog.Ret (Js.Threw e, s1)
      end).

(** [try { m } catch (error) { h error }] *)
Definition tryCatch {R : Type} (m : M S R) (h : Js.Error -> M S R) : M S R :=
  fun s =>
    Prog.bind (m s) (fun '(r, s1) =>
      match r with
      | Js.Returned a => Prog.Ret (Js.Returned a, s1)
      | Js.Threw e => h e s1
      end).

(** A call that cannot throw. *)
Definition call (e : Event) : M S (resp e) :=
  fun s => Prog.Vis e (fun x => Prog.Ret (Js.Returned x, s)).

(** [await] of a call that may reject. *)
Definition await {X : Type} (e : Event) (cast : resp e -> Js.Res X) : M S X :=
  fun s => Prog.Vis e (fun x => Prog.Ret (cast x, s)).

Definition get : M S S := fun s => Prog.Ret (Js.Returned s, s).
Definition put (s : S) : M S unit := fun _ => Prog.Ret (Js.Returned tt, s).
Definition modify (f : S -> S) : M S unit := fun s => Prog.Ret (Js.Returned tt, f s).
End WithState.

(** Run a method of an object reached through a field of [S]. *)
Definition zoom {S T R : Type} (proj : S -> T) (upd : T -> S -> S) (m : M T R) : M S R :=
  fun s => Prog.bind (m (proj s)) (fun '(r, t1) => Prog.Ret (r, upd t1 s)).
End Method.

#[global] Instance M_ret {S : Type} : MRet (M S) := fun R => @Method.ret S R.
#[global] Instance M_bind {S : Type} : MBind (M S) := fun A B f m => @Method.bind S A B m f.

(** Running a method: its outcome, the fields afterwards, the calls made. *)
Record Run (S R W : Type) : Type := mkRun {
  outcome : Js.Res R;
  fields : S;
  trace : Trace;
  world : W
}.
Arguments outcome {S R W} _.
Arguments fields {S R W} _.
Arguments trace {S R W} _.
Arguments world {S R W} _.

Definition exec {S R W : Type} (env : Prog.Env W) (m : M S R) (s : S) (w : W) : Run S R W :=
  let '(r, s1, tr, w1) := Prog.run env (m s) w in mkRun S R W r s1 tr w1.

(** ** news-service.ts *)

Module News.

(** The parts of [NewsConfig] the service reads (news-config.ts). *)
Record Category : Type := mkCategory {
  categoryName : string;
  keywords : list string;
  enabled : bool
}.

Record NewsConfig : Type := mkConfig {
  categories : list Category;
  positiveWords : list string;       (* [sentimentWords.positive] *)
  negativeWords : list string        (* [sentimentWords.negative] *)
}.

Inductive Direction : Type := Bullish | Bearish | NeutralSignal.

Record NewsSignal : Type := mkSignal {
  market : string;
  signal : Direction;
  confidence : Q;
  articles : list Article.t
}.

(** The mutable fields of [NewsService]. *)
Record State : Type := mkState {
  headlineCache : option (list Article.t * Z);
  searchCache : gmap string (list Article.t * Z);
  activeApiKeys : gmap string string;
  dailyRequestCount : Z;
  lastResetDate : string;
  searchesThisCycle : Z
}.

Definition MAX_DAILY_REQUESTS : Z := 95.
Definition HEADLINE_CACHE_TTL : Z := 30 * 60 * 1000.
Definition SEARCH_CACHE_TTL : Z := 2 * 60 * 60 * 1000.
Definition MAX_SEARCHES_PER_CYCLE : Z := 8.

Definition set_headlineCache (c : option (list Article.t * Z)) (s : State) : State :=
  mkState c (searchCache s) (activeApiKeys s) (dailyRequestCount s)
          (lastResetDate s) (searchesThisCycle s).

Definition set_searchCache (c : gmap string (list Article.t * Z)) (s : State) : State :=
  mkState (headlineCache s) c (activeApiKeys s) (dailyRequestCount s)
          (lastResetDate s) (searchesThisCycle s).

Definition set_dailyRequestCount (n : Z) (s : State) : State :=
  mkState (headlineCache s) (searchCache s) (activeApiKeys s) n
          (lastResetDate s) (searchesThisCycle s).

Definition set_lastResetDate (d : string) (s : State) : State :=
  mkState (headlineCache s) (searchCache s) (activeApiKeys s) (dailyRequestCount s)
          d (searchesThisCycle s).

Definition set_searchesThisCycle (n : Z) (s : State) : State :=
  mkState (headlineCache s) (searchCache s) (activeApiKeys s) (dailyRequestCount s)
          (lastResetDate s) n.

Definition set_activeApiKeys (k : gmap string string) (s : State) : State :=
  mkState (headlineCache s) (searchCache s) k (dailyRequestCount s)
          (lastResetDate s) (searchesThisCycle s).

(** An element of [config.sources] (news-config.ts). *)
Module Source.
Record t : Type := mk {
  name : string;
  enabled : bool;
  apiKeyEnvVar : string
}.
End Source.

(** [initializeApiKeys()], over the sources of the configuration and
    [process.env]: the key of each enabled source whose variable is set and
    not empty is stored under the name of the source. *)
Definition initializeApiKeys (sources : list Source.t)
           (processEnv : string -> option string) : M State unit :=
  Method.modify
    (fun s =>
       set_activeApiKeys
         (fold_left
            (fun keys source =>
               if Source.enabled source then
                 match processEnv (Source.apiKeyEnvVar source) with
                 | Some (String _ _ as apiKey) => <[Source.name source := apiKey]> keys
                 | _ => keys
                 end
               else keys)
            sources (activeApiKeys s))
         s).

(** [getActiveSourcesCount()] *)
Definition getActiveSourcesCount : M State Z :=
  s ← Method.get; mret (Z.of_nat (size (activeApiKeys s))).

(** [getDailyRequestCount()] *)
Definition getDailyRequestCount : M State Z :=
  s ← Method.get; mret (dailyRequestCount s).

(** [this.headlineCache?.data || []] *)
Definition cachedHeadlines (s : State) : list Article.t :=
  match headlineCache s with
  | Some (data, _) => data
  | None => []
  end.

(** *** Key terms of a market title *)

Definition isDigit (c : ascii) : bool :=
  let n := nat_of_ascii c in (48 <=? n)%nat && (n <=? 57)%nat.

(** The class [\s] on 8-bit characters. *)
Definition isSpace (c : ascii) : bool :=
  let n := nat_of_ascii c in (n =? 32)%nat || ((9 <=? n)%nat && (n <=? 13)%nat).

(** [in \d{4}] at the head of [s]. *)
Definition matchesInYear (s : string) : bool :=
  match s with
  | String "i" (String "n" (String " " (String a (String b (String c (String d _)))))) =>
      isDigit a && isDigit b && isDigit c && isDigit d
  | _ => false
  end.

(** Length of the match of
    [/will|before|after|by|in \d{4}|yes|no|\?|the|a|an/] at the head of [s]:
    the first alternative that matches wins. *)
Definition stopMatch (s : string) : option nat :=
  if String.prefix "will" s then Some 4%nat
  else if String.prefix "before" s then Some 6%nat
  else if String.prefix "after" s then Some 5%nat
  else if String.prefix "by" s then Some 2%nat
  else if matchesInYear s then Some 7%nat
  else if String.prefix "yes" s then Some 3%nat
  else if String.prefix "no" s then Some 2%nat
  else if String.prefix "?" s then Some 1%nat
  else if String.prefix "the" s then Some 3%nat
  else if String.prefix "a" s then Some 1%nat
  else if String.prefix "an" s then Some 2%nat
  else None.

(** [s.replace(/.../gi, "")] on a lower-cased subject; [skip] characters of
    the current match are still to be dropped. *)
Fixpoint stripStops (skip : nat) (s : string) : string :=
  match s with
  | EmptyString => EmptyString
  | String c s' =>
      match skip with
      | S k => stripStops k s'
      | O =>
          match stopMatch s with
          | Some n => stripStops (n - 1) s'
          | None => String c (stripStops 0 s')
          end
      end
  end.

(** [s.split(/\s+/)]; [tok] is the token being read and [inGap] tells
    whether the previous character was white space. *)
Fixpoint splitSpaces (tok : string) (inGap : bool) (s : string) : list string :=
  match s with
  | EmptyString => [tok]
  | String c s' =>
      if isSpace c
      then (if inGap then splitSpaces EmptyString true s'
            else tok :: splitSpaces EmptyString true s')
      else splitSpaces (String.append tok (String c EmptyString)) false s'
  end.

Definition keyTerms (marketTitle : string) : list string :=
  let marketLower := Js.toLowerCase marketTitle in
  filter (fun w => (3 <? String.length w)%nat = true)
         (splitSpaces EmptyString false (stripStops 0 marketLower)).

(** The template [`${article.title} ${article.description}`]. *)
Definition articleText (a : Article.t) : string :=
  (Article.title a ++ " " ++ Article.description a)%string.

(** *** Sorting by descending relevance

    [Array.prototype.sort] is stable; with the comparator
    [(a, b) => (b.relevanceScore || 0) - (a.relevanceScore || 0)] an element
    stays behind every element that does not score less. *)

(** [a.relevanceScore || 0] *)
Definition scoreOrZero (a : Article.t) : Q :=
  match Article.relevanceScore a with
  | Some q => q
  | None => 0
  end.

Fixpoint insertByScore (x : Article.t) (l : list Article.t) : list Article.t :=
  match l with
  | [] => [x]
  | y :: l' =>
      if negb (Qle_bool (scoreOrZero y) (scoreOrZero x))
      then y :: insertByScore x l'
      else x :: l
  end.

Fixpoint sortByScore (l : list Article.t) : list Article.t :=
  match l with
  | [] => []
  | x :: l' => insertByScore x (sortByScore l')
  end.

Section Service.

Variable config : NewsConfig.

(** [MarketKeywordExtractor] (market-keyword-extractor.ts) is used through
    three of its static methods. *)
Variable ExtractedKeywords : Type.
Variable extractKeywords : string -> option string -> ExtractedKeywords.
Variable createSearchQuery : ExtractedKeywords -> string.
Variable calculateRelevanceScore : string -> ExtractedKeywords -> Q.

(** *** Annotation of fetched articles *)

Definition countIncluded (text : string) (words : list string) : Z :=
  Z.of_nat (length (filter (fun w => Js.includes text w = true) words)).

Definition analyzeSentiment (text : string) : Sentiment :=
  let lowerText := Js.toLowerCase text in
  let positiveScore := countIncluded lowerText (positiveWords config) in
  let negativeScore := countIncluded lowerText (negativeWords config) in
  if negativeScore + 1 <? positiveScore then Positive
  else if positiveScore + 1 <? negativeScore then Negative
  else Neutral.

Definition categorizeArticle (text : string) : list Category :=
  let lowerText := Js.toLowerCase text in
  filter (fun c =>
            enabled c = true /\
            (0 <? countIncluded lowerText (map Js.toLowerCase (keywords c))) = true)
         (categories config).

(** [.filter(article => article.title && article.description)] *)
Definition hasTitleAndDescription (r : Raw.Article) : bool :=
  Js.truthy (Raw.title r) && Js.truthy (Raw.description r).

(** The article built from a raw one; [withCategories] is false in
    [fetchForArbitrage], whose articles carry no category tags. *)
Definition annotate (withCategories : bool) (r : Raw.Article) : Article.t :=
  let title := default EmptyString (Raw.title r) in
  let description := default EmptyString (Raw.description r) in
  let text := (title ++ " " ++ description)%string in
  Article.mk title description (Raw.url r)
    (if Js.truthy (Raw.sourceName r) then default EmptyString (Raw.sourceName r)
     else "Unknown"%string)
    (Raw.publishedAt r)
    (Some (analyzeSentiment text))
    (Some 1%Q)
    (if withCategories then Some (map categoryName (categorizeArticle text)) else None).

Definition ingest (withCategories : bool) (raws : list Raw.Article) : list Article.t :=
  map (annotate withCategories) (filter (fun r => hasTitleAndDescription r = true) raws).

(** *** matchArticlesLocally *)

(** The score an article gets before the cap: twice its keyword score,
    plus 0.3 for each key term its lower-cased text includes. *)
Definition rawScore (keywords : ExtractedKeywords) (terms : list string)
           (a : Article.t) : Q :=
  let text := Js.toLowerCase (articleText a) in
  let keywordScore := calculateRelevanceScore (articleText a) keywords in
  fold_left (fun score term => if Js.includes text term then score + (3 # 10) else score)%Q
            terms (0 + keywordScore * 2)%Q.

Definition scored (keywords : ExtractedKeywords) (terms : list string)
           (a : Article.t) : Article.t :=
  Article.withScore a (Js.Math_min (rawScore keywords terms a) 1).

Definition matchArticlesLocally (articles : list Article.t)
           (keywords : ExtractedKeywords) (marketTitle : string) : list Article.t :=
  let terms := keyTerms marketTitle in
  take 10
    (sortByScore
       (filter (fun a => Qle_bool (3 # 10) (scoreOrZero a) = true)
               (map (scored keywords terms) articles))).

(** *** buildSignal *)

(** [article.relevanceScore || 0.5] *)
Definition weightOf (a : Article.t) : Q :=
  match Article.relevanceScore a with
  | Some q => if Qeq_bool q 0 then 1 # 2 else q
  | None => 1 # 2
  end.

(** The [forEach] of [buildSignal]: positive, negative and total weight. *)
Definition tally (arts : list Article.t) : Q * Q * Q :=
  fold_left
    (fun '(positiveCount, negativeCount, totalWeight) a =>
       let weight := weightOf a in
       match Article.sentiment a with
       | Some Positive => (positiveCount + weight, negativeCount, totalWeight + weight)
       | Some Negative => (positiveCount, negativeCount + weight, totalWeight + weight)
       | _ => (positiveCount, negativeCount, totalWeight + weight)
       end)%Q
    arts (0, 0, 0)%Q.

Definition buildSignal (marketTitle : string) (arts : list Article.t) : NewsSignal :=
  match arts with
  | [] => mkSignal marketTitle NeutralSignal 0 []
  | _ =>
      let '(positiveCount, negativeCount, totalWeight) := tally arts in
      let positiveRatio := (positiveCount / totalWeight)%Q in
      let negativeRatio := (negativeCount / totalWeight)%Q in
      let '(sig, conf) :=
        if negb (Qle_bool positiveRatio (6 # 10)) then (Bullish, positiveRatio)
        else if negb (Qle_bool negativeRatio (6 # 10)) then (Bearish, negativeRatio)
        else (NeutralSignal, 1 # 2) in
      let n := inject_Z (Z.of_nat (length arts)) in
      let avgRelevance := (fold_left (fun sum a => sum + scoreOrZero a) arts 0 / n)%Q in
      let articleCountBonus := Js.Math_min (2 # 10) (n * (2 # 100)) in
      mkSignal marketTitle sig
               (Js.Math_min (95 # 100) (conf * avgRelevance + articleCountBonus))
               (take 5 arts)
  end.

(** *** Daily budget *)

(** [resetCycleCounter()] *)
Definition resetCycleCounter : M State unit :=
  Method.modify (set_searchesThisCycle 0).

Definition checkDailyReset : M State unit :=
  now ← Method.call NewDate;
  s ← Method.get;
  let today := Calendar.toDateString now in
  if negb (String.eqb today (lastResetDate s))
  then Method.put (set_lastResetDate today (set_dailyRequestCount 0 s))
  else mret tt.

Definition canMakeRequest : M State bool :=
  checkDailyReset;;
  s ← Method.get;
  if MAX_DAILY_REQUESTS <=? dailyRequestCount s then mret false else mret true.

Definition trackRequest : M State unit :=
  Method.modify (fun s => set_dailyRequestCount (dailyRequestCount s + 1) s).

Definition DAY_MS : Z := 24 * 60 * 60 * 1000.

(** *** fetchHeadlines *)

Definition fetchHeadlines : M State (list Article.t) :=
  s ← Method.get;
  match activeApiKeys s !! "NewsAPI"%string with
  | None => mret []
  | Some apiKey =>
      fresh ← match headlineCache s with
              | None => mret false
              | Some (_, timestamp) =>
                  now ← Method.call DateNow;
                  mret (now - timestamp <? HEADLINE_CACHE_TTL)
              end;
      if fresh : bool then mret (cachedHeadlines s)
      else
        ok ← canMakeRequest;
        if negb ok then s1 ← Method.get; mret (cachedHeadlines s1)
        else
          Method.tryCatch
            (trackRequest;;
             raws ← Method.await (HttpTopHeadlines apiKey) id;
             let articles := ingest true raws in
             now ← Method.call DateNow;
             Method.modify (set_headlineCache (Some (articles, now)));;
             mret articles)
            (fun _ => s1 ← Method.get; mret (cachedHeadlines s1))
  end.

(** *** targetedSearch *)

Definition targetedSearch (query : string) : M State (list Article.t) :=
  s ← Method.get;
  match activeApiKeys s !! "NewsAPI"%string with
  | None => mret []
  | Some apiKey =>
      ok ← canMakeRequest;
      if negb ok then mret []
      else
        Method.tryCatch
          (trackRequest;;
           now ← Method.call DateNow;
           raws ← Method.await
                    (HttpEverything apiKey query "relevancy" 20 (now - 7 * DAY_MS)) id;
           mret (ingest true raws))
          (fun _ => mret [])
  end.

(** *** getMarketSignals *)

Definition neutralSignal (marketTitle : string) : NewsSignal :=
  mkSignal marketTitle NeutralSignal 0 [].

(** Step 4 of [getMarketSignals]: the targeted search. *)
Definition searchStep (marketTitle searchQuery cacheKey : string)
           (keywords : ExtractedKeywords) : M State NewsSignal :=
  s ← Method.get;
  allowed ← (if searchesThisCycle s <? MAX_SEARCHES_PER_CYCLE
             then canMakeRequest else mret false);
  if allowed : bool then
    searchResults ← targetedSearch searchQuery;
    Method.modify (fun s => set_searchesThisCycle (searchesThisCycle s + 1) s);;
    match searchResults with
    | [] => mret (neutralSignal marketTitle)
    | _ =>
        now ← Method.call DateNow;
        Method.modify
          (fun s => set_searchCache (<[cacheKey := (searchResults, now)]> (searchCache s)) s);;
        let searchMatches := matchArticlesLocally searchResults keywords marketTitle in
        match searchMatches with
        | [] => mret (neutralSignal marketTitle)
        | _ => mret (buildSignal marketTitle searchMatches)
        end
    end
  else mret (neutralSignal marketTitle).

Definition getMarketSignals (marketTitle : string) (marketRules : option string)
  : M State NewsSignal :=
  let keywords := extractKeywords marketTitle marketRules in
  s ← Method.get;
  let headlines := cachedHeadlines s in
  let matchedArticles := matchArticlesLocally headlines keywords marketTitle in
  if (2 <=? length matchedArticles)%nat then mret (buildSignal marketTitle matchedArticles)
  else
    let searchQuery := createSearchQuery keywords in
    let cacheKey := ("search_" ++ searchQuery)%string in
    match searchCache s !! cacheKey with
    | Some (data, timestamp) =>
        now ← Method.call DateNow;
        if now - timestamp <? SEARCH_CACHE_TTL then
          match matchArticlesLocally data keywords marketTitle with
          | [] => searchStep marketTitle searchQuery cacheKey keywords
          | cachedMatches => mret (buildSignal marketTitle cachedMatches)
          end
        else searchStep marketTitle searchQuery cacheKey keywords
    | None => searchStep marketTitle searchQuery cacheKey keywords
    end.

(** *** fetchForArbitrage *)

(** The de-duplication loop: [seen] holds the titles already in
    [combined]. *)
Fixpoint pushUnseen (seen : gset string) (combined articles : list Article.t)
  : list Article.t :=
  match articles with
  | [] => combined
  | article :: rest =>
      if decide (Article.title article ∈ seen) then pushUnseen seen combined rest
      else pushUnseen ({[ Article.title article ]} ∪ seen) (combined ++ [article]) rest
  end.

Definition dedupInto (combined articles : list Article.t) : list Article.t :=
  pushUnseen (list_to_set (map Article.title combined)) combined articles.

Definition BREAKING_QUERY : string :=
  "breaking OR confirmed OR officially OR announced OR signed".

Definition fetchForArbitrage : M State (list Article.t) :=
  headlines ← fetchHeadlines;
  ok ← canMakeRequest;
  if ok : bool then
    Method.tryCatch
      (trackRequest;;
       s ← Method.get;
       match activeApiKeys s !! "NewsAPI"%string with
       | Some (String c k as apiKey) =>
           now ← Method.call DateNow;
           raws ← Method.await
                    (HttpEverything apiKey BREAKING_QUERY "publishedAt" 50 (now - 3 * DAY_MS))
                    id;
           mret (dedupInto headlines (ingest false raws))
       | _ => mret headlines
       end)
      (fun _ => mret headlines)
  else mret headlines.

(** *** searchNews, getLatestHeadlines *)

Definition searchNews (query : string) : M State (list Article.t) :=
  s ← Method.get;
  let headlines := cachedHeadlines s in
  match headlines with
  | [] => targetedSearch query
  | _ =>
      let keywords := extractKeywords query None in
      match matchArticlesLocally headlines keywords query with
      | [] => targetedSearch query
      | matches => mret matches
      end
  end.

Definition getLatestHeadlines : M State (list Article.t) := fetchHeadlines.

End Service.

End News.

(** ** strategies/NewsArbStrategy.ts *)

Module Strategy.

Record NewsArbConfig : Type := mkConfig {
  enabled : bool;
  maxPrice : Q;
  marketFetchLimit : Z
}.

(** The constructor's defaults, also what the orchestrator passes. *)
Definition defaultConfig : NewsArbConfig := mkConfig true (90 # 100) 100.

(** An element of the model's match array that is neither [null] nor
    [undefined], as far as the strategy reads it.  [marketIndex] is the
    number the field converts to in [match.marketIndex - 1]: [NaN] when it
    is missing, the value of a numeric text; an infinite value is skipped
    by the bounds test as any number out of range is.  [rawOutcome] is the
    field [confirmedOutcome], a text other than YES and NO when it is not
    a string, and [rawReasoning] the field [reasoning] when it is truthy. *)
Record RawMatch : Type := mkRawMatch {
  marketIndex : Js.number;
  rawOutcome : string;
  rawReasoning : option string
}.

(** [markets[idx]]: defined when [idx] is an integer within bounds. *)
Definition elementAt (markets : list Market.t) (idx : Js.number) : option Market.t :=
  match idx with
  | Js.Num q =>
      if Qeq_bool q (inject_Z (Qfloor q)) && (0 <=? Qfloor q)
      then markets !! Z.to_nat (Qfloor q)
      else None
  | Js.NaN => None
  end.

(** [idx < 0 || idx >= markets.length] *)
Definition outOfBounds (markets : list Market.t) (idx : Js.number) : bool :=
  Js.lt idx (Js.Num 0) ||
  match idx with
  | Js.Num q => Qle_bool (inject_Z (Z.of_nat (length markets))) q
  | Js.NaN => false
  end.

Definition transientError (msg : string) : bool :=
  Js.includes msg "503" || Js.includes msg "overloaded" || Js.includes msg "UNAVAILABLE".

Definition emptyResponse : Js.Error :=
  Js.mkError "Error" "Empty response from model" None.

Definition retriesExhausted : Js.Error :=
  Js.mkError "Error" "LLM call failed after all retries" None.

(** The error of reading a property of [null] or [undefined], or of
    calling what is not a function. *)
Definition typeError : Js.Error :=
  Js.mkError "TypeError" "Cannot read properties of undefined" None.

(** The error of [toISOString()] on an Invalid Date. *)
Definition rangeError : Js.Error :=
  Js.mkError "RangeError" "Invalid time value" None.

(** [a.publishedAt] is a valid date. *)
Definition dated (a : Article.t) : bool :=
  match Article.publishedAt a with
  | Some _ => true
  | None => false
  end.

Section WithState.
Context {St : Type}.

(** The [for] loop of [callLLM], entered at [attempt] with [n] iterations
    left. *)
Fixpoint callLLM_from (prompt : string) (maxRetries attempt : Z) (n : nat) : M St string :=
  match n with
  | O => Method.throw retriesExhausted
  | S n' =>
      Method.tryCatch
        (text ← Method.await (UseModel prompt) id;
         match text with
         | EmptyString => Method.throw emptyResponse
         | _ => mret text
         end)
        (fun error =>
           let msg := Js.errorText error in
           let isRetryable := transientError msg in
           if isRetryable && (attempt <? maxRetries) then
             let delay := attempt * 10000 in
             Method.call (SetTimeout delay);;
             callLLM_from prompt maxRetries (attempt + 1) n'
           else Method.throw error)
  end.

Definition callLLM (prompt : string) (maxRetries : Z) : M St string :=
  callLLM_from prompt maxRetries 1 (Z.to_nat maxRetries).
End WithState.

Section Pipeline.

Variable cfg : NewsArbConfig.
Variable newsConfig : News.NewsConfig.

(** Prompt templates, and the decoding of the model's answer:
    [text.match(/\[[\s\S]*\]/)], [JSON.parse] ([None] when the value is
    not an array) and the shape tests applied to its elements.
    [eventPrompt] is the prompt for articles whose dates are all valid.
    [asRawMatch] is [None] for an element that is [null] or [undefined],
    of which no field can be read. *)
Variable Json : Type.
Variable eventPrompt : list Article.t -> string.
Variable marketPrompt : list ConfirmedEvent.t -> list Market.t -> string.
Variable matchBrackets : string -> option string.
Variable JSON_parse : string -> Js.Res (option (list Json)).
Variable asEvent : Json -> option ConfirmedEvent.t.
Variable asRawMatch : Json -> option RawMatch.
(** [parseFloat(outcome === "YES" ? prices[0] : prices[1])] after
    [JSON.parse(market.outcomePrices)]; [None] when that throws. *)
Variable parsePrice : string -> Outcome -> option Js.number.
(** [Number(process.env.MAX_POSITION_SIZE)] *)
Variable envMaxPositionSize : Js.number.

Definition fetchBreakingNews : M News.State (list Article.t) :=
  Method.tryCatch (News.fetchForArbitrage newsConfig) (fun _ => mret []).

Definition liftRes {X : Type} (r : Js.Res X) : M News.State X :=
  fun s => Prog.Ret (r, s).

(** The summary of the first 40 articles is built before the [try]:
    [a.publishedAt.toISOString()] throws a [RangeError] for an article
    whose date is invalid, and nothing catches it. *)
Definition extractConfirmedEvents (articles : list Article.t)
  : M News.State (list ConfirmedEvent.t) :=
  if negb (forallb dated (take 40 articles)) then Method.throw rangeError
  else
    let prompt := eventPrompt (take 40 articles) in
    Method.tryCatch
      (text ← callLLM prompt 3;
       match matchBrackets text with
       | None => mret []
       | Some jsonMatch =>
           parsed ← liftRes (JSON_parse jsonMatch);
           match parsed with
           | None => mret []
           | Some elements => mret (take 10 (omap asEvent elements))
           end
       end)
      (fun _ => mret []).

Definition asOutcome (s : string) : option Outcome :=
  if String.eqb s "YES" then Some YES
  else if String.eqb s "NO" then Some NO
  else None.

(** The price of the confirmed outcome, 0.5 when the market has no
    price field or it does not parse. *)
Definition priceOf (market : Market.t) (outcome : Outcome) : Js.number :=
  match Market.outcomePrices market with
  | Some (String _ _ as prices) => default (Js.Num (1 # 2)) (parsePrice prices outcome)
  | _ => Js.Num (1 # 2)
  end.

(** The loop over the parsed matches; reading [match.marketIndex] throws
    when the element is [null] or [undefined], and reading a field of
    [markets[idx]] throws when [idx] is not an index. *)
Fixpoint collectMatches (markets : list Market.t) (parsed : list (option RawMatch))
  : Js.Res (list MarketMatch.t) :=
  match parsed with
  | [] => Js.Returned []
  | None :: _ => Js.Threw typeError
  | Some m :: rest =>
      let idx := Js.sub (marketIndex m) (Js.Num 1) in
      if outOfBounds markets idx then collectMatches markets rest
      else
        match asOutcome (rawOutcome m), elementAt markets idx with
        | None, _ => collectMatches markets rest
        | Some _, None => Js.Threw typeError
        | Some outcome, Some market =>
            match collectMatches markets rest with
            | Js.Returned matches =>
                Js.Returned
                  (MarketMatch.mk (Market.conditionId market) (Market.question market)
                     outcome (default EmptyString (rawReasoning m))
                     (priceOf market outcome) :: matches)
            | Js.Threw e => Js.Threw e
            end
        end
  end.

(** The summary of the markets is built between the two [try] blocks:
    [markets.map(...)] throws a [TypeError] on a body that cannot be
    mapped, and nothing catches it. *)
Definition searchMatchingMarkets (events : list ConfirmedEvent.t) (limit : Z)
  : M News.State (list MarketMatch.t) :=
  fetched ← Method.tryCatch
              (r ← Method.await (FetchMarkets limit) id;
               match r with
               | NotOk _ => mret None
               | body => mret (Some body)
               end)
              (fun _ => mret None);
  match fetched with
  | None | Some (NotOk _) | Some (Fetched []) => mret []
  | Some Unmappable => Method.throw typeError
  | Some (Fetched markets) =>
      let prompt := marketPrompt events markets in
      Method.tryCatch
        (text ← callLLM prompt 3;
         match matchBrackets text with
         | None => mret []
         | Some jsonMatch =>
             parsed ← liftRes (JSON_parse jsonMatch);
             match parsed with
             | None => mret []
             | Some elements => liftRes (collectMatches markets (map asRawMatch elements))
             end
         end)
        (fun _ => mret [])
  end.

Definition opportunityOf (m : MarketMatch.t) : Opportunity.t :=
  Opportunity.mk (MarketMatch.conditionId m) (MarketMatch.question m)
    (MarketMatch.confirmedOutcome m) (MarketMatch.currentPrice m)
    (95 # 100) (95 # 100)
    (Js.mul (Js.sub (Js.Num (95 # 100)) (MarketMatch.currentPrice m))
            (Js.Num (Js.orElse envMaxPositionSize 20)))
    ["Confirmed event matched to market"%string;
     ("LLM reasoning: " ++ MarketMatch.reasoning m)%string]
    (1 # 10).

(** Step 4 of [findOpportunities]: the loop over the matches. *)
Fixpoint evaluateMatches (openPositions : gmap string unit) (matches : list MarketMatch.t)
  : list Opportunity.t :=
  match matches with
  | [] => []
  | m :: rest =>
      if decide (is_Some (openPositions !! MarketMatch.conditionId m))
      then evaluateMatches openPositions rest
      else if Js.lt (MarketMatch.currentPrice m) (Js.Num (maxPrice cfg))
      then opportunityOf m :: evaluateMatches openPositions rest
      else evaluateMatches openPositions rest
  end.

(** [runtime] tells whether [setRuntime] has been called. *)
Definition findOpportunities (runtime : bool) (openPositions : gmap string unit)
  : M News.State (list Opportunity.t) :=
  if negb runtime then mret []
  else
    articles ← fetchBreakingNews;
    match articles with
    | [] => mret []
    | _ =>
        events ← extractConfirmedEvents articles;
        match events with
        | [] => mret []
        | _ =>
            matches ← searchMatchingMarkets events (marketFetchLimit cfg);
            match matches with
            | [] => mret []
            | _ => mret (evaluateMatches openPositions matches)
            end
        end
    end.

End Pipeline.

End Strategy.

(** ** config/trading-config: the fields the services read *)

Record TradingConfig : Type := mkTradingConfig {
  unsupervisedMode : bool;
  maxPositionSize : Q;
  minConfidenceThreshold : Q;
  maxDailyTrades : Q;
  maxOpenPositions : Q;
  riskLimitPerTrade : Q;
  tradingHoursRestriction : option (Z * Z)      (* [{ startHour, endHour }] *)
}.

(** ** opportunity-evaluator.ts *)

Module Evaluator.
Section Evaluate.

Variable tradingConfig : TradingConfig.
(** [x.toFixed(digits)] *)
Variable toFixed : Js.number -> nat -> string.

Definition outcomeText (o : Outcome) : string :=
  match o with YES => "YES" | NO => "NO" end.

Definition percent (x : Js.number) : Js.number := Js.mul x (Js.Num 100).

Definition evaluate (opportunity : Opportunity.t) : Decision.t :=
  let positionSize :=
    Js.Math_min (maxPositionSize tradingConfig) (riskLimitPerTrade tradingConfig) in
  let shouldTrade :=
    Qle_bool (minConfidenceThreshold tradingConfig) (Opportunity.confidence opportunity)
    && negb (Qle_bool positionSize 0) in
  let reasoning :=
    if shouldTrade
    then ("News-arb: confirmed event, " ++ outcomeText (Opportunity.outcome opportunity)
            ++ " @ " ++ toFixed (percent (Opportunity.currentPrice opportunity)) 1
            ++ "¢. " ++ String.concat ". " (Opportunity.newsSignals opportunity))%string
    else ("Below confidence threshold ("
            ++ toFixed (percent (Js.Num (Opportunity.confidence opportunity))) 1
            ++ "% < "
            ++ toFixed (percent (Js.Num (minConfidenceThreshold tradingConfig))) 0
            ++ "%)")%string in
  Decision.mk shouldTrade (Opportunity.marketId opportunity)
    (Opportunity.outcome opportunity) positionSize
    (Opportunity.currentPrice opportunity) (Opportunity.confidence opportunity)
    reasoning.

End Evaluate.
End Evaluator.

(** ** trading-report.ts: what [recordScan] keeps of the decisions *)

Module Report.

(** An element of [allDecisions], without its timestamp. *)
Record DecisionEntry : Type := mkEntry {
  market : string;
  marketId : string;
  outcome : Outcome;
  shouldTrade : bool;
  entryPrice : Js.number;
  size : Q;
  confidence : Q;
  expectedValue : Js.number;
  reasoning : string
}.

(** [s.slice(0, 80) || fallback] *)
Definition shortOr (s : option string) (fallback : string) : string :=
  match option_map (String.substring 0 80) s with
  | Some (String _ _ as q) => q
  | _ => fallback
  end.

(** [x || 0] on an optional number. *)
Definition orZero (x : option Js.number) : Js.number :=
  match x with
  | Some (Js.Num q) => Js.Num q
  | _ => Js.Num 0
  end.

Definition entryOf (opportunities : list Opportunity.t) (d : Decision.t) : DecisionEntry :=
  let opp :=
    List.find (fun o => String.eqb (Opportunity.marketId o) (Decision.marketId d))
              opportunities in
  mkEntry (shortOr (option_map Opportunity.question opp) (Decision.marketId d))
          (Decision.marketId d) (Decision.outcome d) (Decision.shouldTrade d)
          (Decision.price d) (Decision.size d) (Decision.confidence d)
          (orZero (option_map Opportunity.expectedValue opp))
          (Decision.reasoning d).

(** The elements [recordScan] appends to [allDecisions]: one for each
    decision it is given, none for an opportunity without a decision. *)
Definition recordedDecisions (opportunities : list Opportunity.t)
           (decisions : list Decision.t) : list DecisionEntry :=
  map (entryOf opportunities) decisions.

End Report.

(** ** autonomous-trading/index.ts *)

Module Trading.

(** The mutable fields of [AutonomousTradingService], and the news service
    singleton its strategy reaches through [getNewsService()]. *)
Record State : Type := mkState {
  dailyTradeCount : Z;
  lastResetDate : Calendar.Date;
  newsService : News.State
}.

Definition set_dailyTradeCount (n : Z) (s : State) : State :=
  mkState n (lastResetDate s) (newsService s).

Definition set_lastResetDate (d : Calendar.Date) (s : State) : State :=
  mkState (dailyTradeCount s) d (newsService s).

Definition set_newsService (n : News.State) (s : State) : State :=
  mkState (dailyTradeCount s) (lastResetDate s) n.

Definition BALANCE_SIGNATURE : string := "not enough balance / allowance".

(** The configuration the constructor reads from the environment.
    [Number] is JavaScript's conversion, applied to the value of the
    variable ([None] when it is unset); [x || d] falls back to [d] for
    [NaN] and for zero.  The constructor sets no trading-hours restriction.
    The settings that the methods modelled here never read
    ([autoRedemptionEnabled], [socialBroadcastEnabled],
    [simpleStrategyEnabled], [useHardcodedMarkets]) are left out. *)
Definition constructorConfig (Number : option string -> Js.number)
           (processEnv : string -> option string) : TradingConfig :=
  mkTradingConfig
    (match processEnv "UNSUPERVISED_MODE"%string with
     | Some v => String.eqb v "true"
     | None => false
     end)
    (Js.orElse (Number (processEnv "MAX_POSITION_SIZE"%string)) 100)
    (Js.orElse (Number (processEnv "MIN_CONFIDENCE_THRESHOLD"%string)) (7 # 10))
    (Js.orElse (Number (processEnv "MAX_DAILY_TRADES"%string)) 10)
    (Js.orElse (Number (processEnv "MAX_OPEN_POSITIONS"%string)) 20)
    (Js.orElse (Number (processEnv "RISK_LIMIT_PER_TRADE"%string)) 50)
    None.

Section Service.

Variable tradingConfig : TradingConfig.
Variable toFixed : Js.number -> nat -> string.

(** The strategy built by [initializeComponents], with its runtime set;
    [strategyActive] is [newsArbStrategy.isActive()] (BaseStrategy.ts). *)
Variable strategyActive : bool.

(** What the strategy and the news service are given (see [Strategy]). *)
Variable newsConfig : News.NewsConfig.
Variable Json : Type.
Variable eventPrompt : list Article.t -> string.
Variable marketPrompt : list ConfirmedEvent.t -> list Market.t -> string.
Variable matchBrackets : string -> option string.
Variable JSON_parse : string -> Js.Res (option (list Json)).
Variable asEvent : Json -> option ConfirmedEvent.t.
Variable asRawMatch : Json -> option Strategy.RawMatch.
Variable parsePrice : string -> Outcome -> option Js.number.
Variable envMaxPositionSize : Js.number.

(** [this.newsArbStrategy.findOpportunities(...)], the strategy being
    constructed with [{ enabled: true, maxPrice: 0.90, marketFetchLimit: 100 }]. *)
Definition findOpportunities (openPositions : gmap string unit)
  : M News.State (list Opportunity.t) :=
  Strategy.findOpportunities Strategy.defaultConfig newsConfig Json eventPrompt
    marketPrompt matchBrackets JSON_parse asEvent asRawMatch parsePrice
    envMaxPositionSize true openPositions.

Definition checkDailyReset : M State unit :=
  now ← Method.call NewDate;
  s ← Method.get;
  if negb (Calendar.getDate now =? Calendar.getDate (lastResetDate s))%nat
  then Method.put (set_lastResetDate now (set_dailyTradeCount 0 s))
  else mret tt.

Definition canTrade : M State bool :=
  s ← Method.get;
  if Qle_bool (maxDailyTrades tradingConfig) (inject_Z (dailyTradeCount s)) then mret false
  else
    positionCount ← Method.call GetPositionCount;
    if Qle_bool (maxOpenPositions tradingConfig) (inject_Z positionCount) then mret false
    else
      match tradingHoursRestriction tradingConfig with
      | Some (startHour, endHour) =>
          now ← Method.call NewDate;
          let hour := Z.of_nat (Calendar.getHours now) in
          if (hour <? startHour) || (endHour <=? hour) then mret false else mret true
      | None => mret true
      end.

(** [this.dailyTradeCount++; await this.positionManager.refreshPositions()] *)
Definition tradeDone : M State unit :=
  Method.modify (fun s => set_dailyTradeCount (dailyTradeCount s + 1) s);;
  Method.await RefreshPositions id.

Definition handleTrade (decision : Decision.t) : M State unit :=
  balanceCheck ← Method.await (CheckBalance (Decision.size decision)) id;
  if negb (hasEnoughBalance balanceCheck) then mret tt
  else
    tradeResult ← Method.await (ExecuteTrade decision) id;
    if success tradeResult then tradeDone
    else
      match error tradeResult with
      | Some err =>
          if Js.includes err BALANCE_SIGNATURE then
            depositSuccess ← Method.await (HandleL2Deposit (Decision.size decision)) id;
            if depositSuccess : bool then
              Method.call (SetTimeout 5000);;
              retryResult ← Method.await (ExecuteTrade decision) id;
              if success retryResult then tradeDone else mret tt
            else mret tt
          else mret tt
      | None => mret tt
      end.

(** The [for] loop of [scanAndTrade]; [decisions] is the array built so
    far. *)
Fixpoint evaluationLoop (opportunities : list Opportunity.t) (decisions : list Decision.t)
  : M State (list Decision.t) :=
  match opportunities with
  | [] => mret decisions
  | opportunity :: rest =>
      ok ← canTrade;
      if negb ok then mret decisions
      else
        let decision := Evaluator.evaluate tradingConfig toFixed opportunity in
        let decisions := decisions ++ [decision] in
        (if Decision.shouldTrade decision && unsupervisedMode tradingConfig
         then handleTrade decision
         else mret tt);;
        evaluationLoop rest decisions
  end.

Definition scanAndTrade : M State unit :=
  Method.tryCatch
    (checkDailyReset;;
     ok ← canTrade;
     if negb ok then mret tt
     else if negb strategyActive then mret tt
     else
       openPositions ← Method.call GetOpenPositions;
       opportunities ← Method.zoom newsService set_newsService
                         (findOpportunities openPositions);
       decisions ← evaluationLoop opportunities [];
       Method.tryCatch
         (Method.await (RecordScan 100 opportunities decisions) id)
         (fun _ => mret tt))
    (fun _ => mret tt).

End Service.

End Trading.

(** ** What a trace contains *)

Module Calls.

(** The HTTP requests of a trace, in order. *)
Definition httpCall (x : Entry) : option Event :=
  match calledEvent x with
  | HttpTopHeadlines _ | HttpEverything _ _ _ _ _ => Some (calledEvent x)
  | _ => None
  end.

Definition http (tr : Trace) : list Event := omap httpCall tr.

(** The articles a call brought back, when it is a search that succeeded. *)
Definition searchAnswer (x : Entry) : option (list Raw.Article) :=
  match x with
  | entry e r =>
      match e return resp e -> option (list Raw.Article) with
      | HttpEverything _ _ _ _ _ =>
          fun r => match r with Js.Returned raws => Some raws | Js.Threw _ => None end
      | _ => fun _ => None
      end r
  end.

(** The delays waited, in order. *)
Definition waits (tr : Trace) : list Z :=
  omap (fun x => match calledEvent x with SetTimeout ms => Some ms | _ => None end) tr.

(** The decisions sent to [executeTrade], with the answers. *)
Definition execution (x : Entry) : option (Decision.t * Js.Res TradeResult) :=
  match x with
  | entry e r =>
      match e return resp e -> option (Decision.t * Js.Res TradeResult) with
      | ExecuteTrade d => fun r => Some (d, r)
      | _ => fun _ => None
      end r
  end.

Definition executions (tr : Trace) : list (Decision.t * Js.Res TradeResult) :=
  omap execution tr.

(** The amounts sent to [handleL2Deposit], with the answers. *)
Definition deposit (x : Entry) : option (Q * Js.Res bool) :=
  match x with
  | entry e r =>
      match e return resp e -> option (Q * Js.Res bool) with
      | HandleL2Deposit a => fun r => Some (a, r)
      | _ => fun _ => None
      end r
  end.

Definition deposits (tr : Trace) : list (Q * Js.Res bool) :=
  omap deposit tr.

(** The answers of the language model. *)
Definition completion (x : Entry) : option (Js.Res string) :=
  match x with
  | entry e r =>
      match e return resp e -> option (Js.Res string) with
      | UseModel _ => fun r => Some r
      | _ => fun _ => None
      end r
  end.

Definition completions (tr : Trace) : list (Js.Res string) :=
  omap completion tr.

(** The scans handed to the report service. *)
Definition scans (tr : Trace) : list (list Opportunity.t * list Decision.t) :=
  omap (fun x => match calledEvent x with
                 | RecordScan _ opps ds => Some (opps, ds)
                 | _ => None
                 end) tr.

(** The answers of [getOpenPositions()]. *)
Definition positionsAnswer (x : Entry) : option (gmap string unit) :=
  match x with
  | entry e r =>
      match e return resp e -> option (gmap string unit) with
      | GetOpenPositions => fun p => Some p
      | _ => fun _ => None
      end r
  end.

Definition positionsRead (tr : Trace) : list (gmap string unit) :=
  omap positionsAnswer tr.

(** The calls to the trading backend, the position manager and the report
    service. *)
Definition backendCall (x : Entry) : option Entry :=
  match calledEvent x with
  | GetOpenPositions | GetPositionCount | RefreshPositions | CheckBalance _
  | ExecuteTrade _ | HandleL2Deposit _ | RecordScan _ _ _ => Some x
  | _ => None
  end.

Definition backend (tr : Trace) : list Entry := omap backendCall tr.

(** The readings of [Date.now()]. *)
Definition clockReading (x : Entry) : option Z :=
  match x with
  | entry e r =>
      match e return resp e -> option Z with
      | DateNow => fun t => Some t
      | _ => fun _ => None
      end r
  end.

Definition clockReadings (tr : Trace) : list Z :=
  omap clockReading tr.

(** The answers of the markets endpoint. *)
Definition marketAnswer (x : Entry) : option (Js.Res FetchResponse) :=
  match x with
  | entry e r =>
      match e return resp e -> option (Js.Res FetchResponse) with
      | FetchMarkets _ => fun a => Some a
      | _ => fun _ => None
      end r
  end.

Definition marketAnswers (tr : Trace) : list (Js.Res FetchResponse) :=
  omap marketAnswer tr.

(** The limits of the requests to the markets endpoint. *)
Definition marketFetches (tr : Trace) : list Z :=
  omap (fun x => match calledEvent x with FetchMarkets limit => Some limit | _ => None end) tr.

(** An execution that was filled: [executeTrade] resolved with
    [success: true]. *)
Definition filledOrder (x : Decision.t * Js.Res TradeResult) : bool :=
  match x.2 with
  | Js.Returned r => success r
  | Js.Threw _ => false
  end.

Definition fills (tr : Trace) : list (Decision.t * Js.Res TradeResult) :=
  filter (fun x => filledOrder x = true) (executions tr).

(** The calls [handleTrade] makes for an order: balance check, execution,
    deposit, refresh of the positions. *)
Definition orderCall (x : Entry) : option Entry :=
  match calledEvent x with
  | RefreshPositions | CheckBalance _ | ExecuteTrade _ | HandleL2Deposit _ => Some x
  | _ => None
  end.

Definition orders (tr : Trace) : list Entry := omap orderCall tr.

(** An order call that rejected. *)
Definition rejected (x : Entry) : bool :=
  match x with
  | entry e r =>
      match e return resp e -> bool with
      | RefreshPositions =>
          fun r => match r with Js.Threw _ => true | Js.Returned _ => false end
      | CheckBalance _ =>
          fun r => match r with Js.Threw _ => true | Js.Returned _ => false end
      | ExecuteTrade _ =>
          fun r => match r with Js.Threw _ => true | Js.Returned _ => false end
      | HandleL2Deposit _ =>
          fun r => match r with Js.Threw _ => true | Js.Returned _ => false end
      | _ => fun _ => false
      end r
  end.

Definition rejections (tr : Trace) : list Entry :=
  filter (fun x => rejected x = true) tr.

(** The readings of [new Date()]. *)
Definition dateReading (x : Entry) : option Calendar.Date :=
  match x with
  | entry e r =>
      match e return resp e -> option Calendar.Date with
      | NewDate => fun d => Some d
      | _ => fun _ => None
      end r
  end.

Definition dates (tr : Trace) : list Calendar.Date := omap dateReading tr.

(** The answers of the top-headlines endpoint. *)
Definition headlinesAnswer (x : Entry) : option (Js.Res (list Raw.Article)) :=
  match x with
  | entry e r =>
      match e return resp e -> option (Js.Res (list Raw.Article)) with
      | HttpTopHeadlines _ => fun a => Some a
      | _ => fun _ => None
      end r
  end.

Definition headlinesAnswers (tr : Trace) : list (Js.Res (list Raw.Article)) :=
  omap headlinesAnswer tr.

(** The answers of the search endpoint. *)
Definition searchAnswers (tr : Trace) : list (Js.Res (list Raw.Article)) :=
  omap (fun x =>
          match x with
          | entry e r =>
              match e return resp e -> option (Js.Res (list Raw.Article)) with
              | HttpEverything _ _ _ _ _ => fun a => Some a
              | _ => fun _ => None
              end r
          end) tr.

End Calls.

(** ** trading-report.ts: the report service

    [TradingReportService] keeps the scans of the running hour in a bucket,
    flushes the bucket into [hourlySnapshots], and builds the daily report and
    the status snapshot from them.  The clock is an argument: [now] is the
    ISO string of [new Date()].  Writing the report to disk is left out; the
    methods return the object they serialize, without its clock fields
    ([date], [generatedAt], [uptimeHours], [uptimeMinutes]) and without
    [topMarkets], whose rounding and sort are not modelled.  The [scans]
    field, which no method writes, is left out as well. *)

Module ReportService.

Module Best.
Record t : Type := mk {
  market : string;
  outcome : Outcome;
  confidence : Q;
  expectedValue : Js.number
}.
End Best.

Module HourlySnapshot.
Record t : Type := mk {
  hour : string;
  totalScans : Z;
  totalOpportunities : Z;
  totalWouldTrade : Z;
  uniqueMarkets : list string;
  bestOpportunity : option Best.t
}.
End HourlySnapshot.

Module MarketStats.
Record t : Type := mk {
  appearances : Z;
  totalConfidence : Q;
  totalEV : Js.number;
  bestOutcome : Outcome;
  bestEV : Js.number
}.
End MarketStats.

(** The mutable fields.  [currentHourMarkets] is a [Set] and [marketStats]
    a [Map]; both are kept in insertion order, as JavaScript iterates
    them.  An element of [allDecisions] is a time stamp and the entry of
    [Report.entryOf]. *)
Record State : Type := mkState {
  hourlySnapshots : list HourlySnapshot.t;
  currentHour : string;
  currentHourScans : Z;
  currentHourOpps : Z;
  currentHourTrades : Z;
  currentHourMarkets : list string;
  currentHourBest : option Best.t;
  allDecisions : list (string * Report.DecisionEntry);
  marketStats : list (string * MarketStats.t)
}.

(** [d.toISOString().slice(0, 13)] *)
Definition getHourKey (iso : string) : string := String.substring 0 13 iso.

(** The fields set by the constructor, run at [now]. *)
Definition initial (now : string) : State :=
  mkState [] (getHourKey now) 0 0 0 [] None [] [].

(** [set.add(x)] *)
Definition setAdd (x : string) (set : list string) : list string :=
  if decide (x ∈ set) then set else set ++ [x].

(** [this.marketStats.get(shortQ)] *)
Definition statsOf (shortQ : string) (stats : list (string * MarketStats.t))
  : option MarketStats.t :=
  option_map snd (List.find (fun kv => String.eqb kv.1 shortQ) stats).

(** The update of an entry of [marketStats] that is already there. *)
Definition seenAgain (opp : Opportunity.t) (existing : MarketStats.t) : MarketStats.t :=
  let better := Js.lt (MarketStats.bestEV existing) (Opportunity.expectedValue opp) in
  MarketStats.mk
    (MarketStats.appearances existing + 1)
    (MarketStats.totalConfidence existing + Opportunity.confidence opp)%Q
    (Js.add (MarketStats.totalEV existing) (Opportunity.expectedValue opp))
    (if better then Opportunity.outcome opp else MarketStats.bestOutcome existing)
    (if better then Opportunity.expectedValue opp else MarketStats.bestEV existing).

Definition firstSeen (opp : Opportunity.t) : MarketStats.t :=
  MarketStats.mk 1 (Opportunity.confidence opp) (Opportunity.expectedValue opp)
                 (Opportunity.outcome opp) (Opportunity.expectedValue opp).

(** The [if (existing) ... else this.marketStats.set(...)] of [recordScan]:
    an entry that is there is updated in place, a new one goes last. *)
Fixpoint trackMarket (shortQ : string) (opp : Opportunity.t)
         (stats : list (string * MarketStats.t)) : list (string * MarketStats.t) :=
  match stats with
  | [] => [(shortQ, firstSeen opp)]
  | (key, existing) :: rest =>
      if String.eqb key shortQ then (key, seenAgain opp existing) :: rest
      else (key, existing) :: trackMarket shortQ opp rest
  end.

(** [opp.question.slice(0, 80)] *)
Definition shortQuestion (opp : Opportunity.t) : string :=
  String.substring 0 80 (Opportunity.question opp).

(** The body of [for (const opp of opportunities)]. *)
Definition noteOpportunity (s : State) (opp : Opportunity.t) : State :=
  let shortQ := shortQuestion opp in
  let best :=
    match currentHourBest s with
    | None =>
        Some (Best.mk shortQ (Opportunity.outcome opp) (Opportunity.confidence opp)
                      (Opportunity.expectedValue opp))
    | Some b =>
        if Js.lt (Best.expectedValue b) (Opportunity.expectedValue opp)
        then Some (Best.mk shortQ (Opportunity.outcome opp) (Opportunity.confidence opp)
                           (Opportunity.expectedValue opp))
        else Some b
    end in
  mkState (hourlySnapshots s) (currentHour s) (currentHourScans s) (currentHourOpps s)
          (currentHourTrades s) (setAdd shortQ (currentHourMarkets s)) best
          (allDecisions s) (trackMarket shortQ opp (marketStats s)).

(** [rotateHour()] *)
Definition rotateHour (s : State) : State :=
  let snapshots :=
    if 0 <? currentHourScans s
    then hourlySnapshots s
           ++ [HourlySnapshot.mk (currentHour s) (currentHourScans s) (currentHourOpps s)
                                 (currentHourTrades s) (currentHourMarkets s)
                                 (currentHourBest s)]
    else hourlySnapshots s in
  mkState snapshots (currentHour s) 0 0 0 [] None (allDecisions s) (marketStats s).

Definition set_currentHour (hourKey : string) (s : State) : State :=
  mkState (hourlySnapshots s) hourKey (currentHourScans s) (currentHourOpps s)
          (currentHourTrades s) (currentHourMarkets s) (currentHourBest s)
          (allDecisions s) (marketStats s).

(** The accumulators of the running hour after one more scan. *)
Definition countScan (opportunities : list Opportunity.t) (decisions : list Decision.t)
           (s : State) : State :=
  mkState (hourlySnapshots s) (currentHour s)
          (currentHourScans s + 1)
          (currentHourOpps s + Z.of_nat (length opportunities))
          (currentHourTrades s
           + Z.of_nat (length (filter (fun d => Decision.shouldTrade d = true) decisions)))
          (currentHourMarkets s) (currentHourBest s) (allDecisions s) (marketStats s).

Definition pushDecisions (now : string) (opportunities : list Opportunity.t)
           (decisions : list Decision.t) (s : State) : State :=
  mkState (hourlySnapshots s) (currentHour s) (currentHourScans s) (currentHourOpps s)
          (currentHourTrades s) (currentHourMarkets s) (currentHourBest s)
          (allDecisions s ++ map (fun d => (now, Report.entryOf opportunities d)) decisions)
          (marketStats s).

(** [recordScan(marketsScanned, opportunities, decisions)], run at [now]. *)
Definition recordScan (now : string) (marketsScanned : Z)
           (opportunities : list Opportunity.t) (decisions : list Decision.t)
           (s : State) : State :=
  let hourKey := getHourKey now in
  let s := if negb (String.eqb hourKey (currentHour s))
           then set_currentHour hourKey (rotateHour s)
           else s in
  let s := countScan opportunities decisions s in
  let s := fold_left noteOpportunity opportunities s in
  pushDecisions now opportunities decisions s.

(** [l.slice(-n)] *)
Definition lastN {A : Type} (n : nat) (l : list A) : list A :=
  drop (length l - n) l.

(** [l.reduce((s, h) => s + f(h), 0)] *)
Definition sumOf {A : Type} (f : A -> Z) (l : list A) : Z :=
  fold_left (fun s h => s + f h) l 0.

(** [new Set(l).size] *)
Definition distinct (l : list string) : Z :=
  Z.of_nat (length (fold_left (fun set x => setAdd x set) l [])).

Record DailyReport : Type := mkReport {
  summaryTotalScans : Z;
  summaryTotalOpportunities : Z;
  summaryTotalWouldTrade : Z;
  uniqueMarketsAnalyzed : Z;
  newsApiCallsUsed : Z;
  hourlyBreakdown : list HourlySnapshot.t;
  reportDecisions : list (string * Report.DecisionEntry)    (* [allDecisions] *)
}.

(** [writeDailyReport(newsApiCalls)]: the report and the fields afterwards. *)
Definition writeDailyReport (newsApiCalls : option Z) (s : State) : DailyReport * State :=
  let s := rotateHour s in
  let totalScans := sumOf HourlySnapshot.totalScans (hourlySnapshots s) in
  let totalOpps := sumOf HourlySnapshot.totalOpportunities (hourlySnapshots s) in
  let totalTrades := sumOf HourlySnapshot.totalWouldTrade (hourlySnapshots s) in
  let uniqueMarkets := distinct (flat_map HourlySnapshot.uniqueMarkets (hourlySnapshots s)) in
  (mkReport totalScans totalOpps totalTrades uniqueMarkets (default 0 newsApiCalls)
            (hourlySnapshots s) (lastN 200 (allDecisions s)),
   s).

Record Snapshot : Type := mkSnapshot {
  snapshotTotalScans : Z;
  snapshotTotalOpportunities : Z;
  hoursRecorded : Z;
  recentDecisions : list (string * Report.DecisionEntry)
}.

(** [writeSnapshot()] *)
Definition writeSnapshot (s : State) : Snapshot * State :=
  let s := rotateHour s in
  let totalScans :=
    sumOf HourlySnapshot.totalScans (hourlySnapshots s) + currentHourScans s in
  let totalOpps :=
    sumOf HourlySnapshot.totalOpportunities (hourlySnapshots s) + currentHourOpps s in
  (mkSnapshot totalScans totalOpps (Z.of_nat (length (hourlySnapshots s)))
              (lastN 20 (allDecisions s)),
   s).

(** [stop(newsApiCalls)] *)
Definition stop (newsApiCalls : option Z) (s : State) : DailyReport * State :=
  writeDailyReport newsApiCalls s.

(** The calls made to a report service over its life, in order. *)
Inductive Call : Type :=
| CallRecordScan (now : string) (marketsScanned : Z) (opportunities : list Opportunity.t)
                 (decisions : list Decision.t)
| CallRotateHour                               (* the hourly timer of [start] *)
| CallWriteSnapshot
| CallWriteDailyReport (newsApiCalls : option Z).

Definition step (s : State) (c : Call) : State :=
  match c with
  | CallRecordScan now marketsScanned opportunities decisions =>
      recordScan now marketsScanned opportunities decisions s
  | CallRotateHour => rotateHour s
  | CallWriteSnapshot => (writeSnapshot s).2
  | CallWriteDailyReport newsApiCalls => (writeDailyReport newsApiCalls s).2
  end.

(** The service after the calls [calls], constructed at [start]. *)
Definition after (start : string) (calls : list Call) : State :=
  fold_left step calls (initial start).

(** What the calls handed over: the scans, their opportunities and their
    decisions. *)
Definition scansOf (calls : list Call) : list (list Opportunity.t * list Decision.t) :=
  omap (fun c => match c with
                 | CallRecordScan _ _ opportunities decisions =>
                     Some (opportunities, decisions)
                 | _ => None
                 end) calls.

Definition opportunitiesOf (calls : list Call) : list Opportunity.t :=
  flat_map fst (scansOf calls).

Definition decisionsOf (calls : list Call) : list Decision.t :=
  flat_map snd (scansOf calls).

End ReportService.

(** ** Scripted environments

    Concrete collaborators for the executable examples: a fixed clock, fixed
    HTTP and backend answers, and model and trade answers consumed in order. *)

Module Script.

Record t : Type := mk {
  clock : Calendar.Date;
  nowMs : Z;
  headlinesAnswer : Js.Res (list Raw.Article);
  everythingAnswer : Js.Res (list Raw.Article);
  modelAnswers : list (Js.Res string);
  marketsAnswer : Js.Res FetchResponse;
  openPositions : gmap string unit;
  positionCount : Z;
  balanceAnswer : Js.Res BalanceCheck;
  tradeAnswers : list (Js.Res TradeResult);
  depositAnswer : Js.Res bool
}.

Definition set_modelAnswers (l : list (Js.Res string)) (w : t) : t :=
  mk (clock w) (nowMs w) (headlinesAnswer w) (everythingAnswer w) l (marketsAnswer w)
     (openPositions w) (positionCount w) (balanceAnswer w) (tradeAnswers w)
     (depositAnswer w).

Definition set_tradeAnswers (l : list (Js.Res TradeResult)) (w : t) : t :=
  mk (clock w) (nowMs w) (headlinesAnswer w) (everythingAnswer w) (modelAnswers w)
     (marketsAnswer w) (openPositions w) (positionCount w) (balanceAnswer w) l
     (depositAnswer w).

Definition set_clock (d : Calendar.Date) (w : t) : t :=
  mk d (nowMs w) (headlinesAnswer w) (everythingAnswer w) (modelAnswers w)
     (marketsAnswer w) (openPositions w) (positionCount w) (balanceAnswer w)
     (tradeAnswers w) (depositAnswer w).

Definition offline : Js.Error := Js.mkError "Error" "script exhausted" None.

Definition play : Prog.Env t :=
  fun e w =>
    match e return resp e * t with
    | NewDate => (clock w, w)
    | DateNow => (nowMs w, w)
    | SetTimeout _ => (tt, w)
    | HttpTopHeadlines _ => (headlinesAnswer w, w)
    | HttpEverything _ _ _ _ _ => (everythingAnswer w, w)
    | UseModel _ =>
        match modelAnswers w with
        | [] => (Js.Threw offline, w)
        | a :: rest => (a, set_modelAnswers rest w)
        end
    | FetchMarkets _ => (marketsAnswer w, w)
    | GetOpenPositions => (openPositions w, w)
    | GetPositionCount => (positionCount w, w)
    | RefreshPositions => (Js.Returned tt, w)
    | CheckBalance _ => (balanceAnswer w, w)
    | ExecuteTrade _ =>
        match tradeAnswers w with
        | [] => (Js.Threw offline, w)
        | a :: rest => (a, set_tradeAnswers rest w)
        end
    | HandleL2Deposit _ => (depositAnswer w, w)
    | RecordScan _ _ _ => (Js.Returned tt, w)
    end.

Definition jan15 : Calendar.Date := Calendar.mkDate 2026 0 15 9.
Definition feb15 : Calendar.Date := Calendar.mkDate 2026 1 15 9.

(** A quiet world on [day]: nothing to fetch, nothing open, funds
    available. *)
Definition quiet (day : Calendar.Date) : t :=
  mk day 1000 (Js.Returned []) (Js.Returned []) [] (Js.Returned (Fetched []))
     ∅ 0 (Js.Returned (mkBalanceCheck true 1000)) [] (Js.Returned true).

(** A news service with its API key, last reset on [day], [used] requests
    spent. *)
Definition news (day : Calendar.Date) (used : Z) : News.State :=
  News.mkState None ∅ {[ "NewsAPI"%string := "key"%string ]} used
               (Calendar.toDateString day) 0.

(** A trading service with [trades] trades done since its reset on [day]. *)
Definition trading (day : Calendar.Date) (trades : Z) : Trading.State :=
  Trading.mkState trades day (news day 0).

(** A model that is overloaded at every attempt. *)
Definition overloaded : Js.Error :=
  Js.mkError "Error" "503 Service Unavailable: the model is overloaded" None.

Definition overloadedModel : t :=
  set_modelAnswers [Js.Threw overloaded; Js.Threw overloaded; Js.Threw overloaded;
                    Js.Threw overloaded]
                   (quiet jan15).

(** A model that rejects the request outright. *)
Definition badRequest : Js.Error :=
  Js.mkError "Error" "400 Bad Request" None.

Definition rejectingModel : t :=
  set_modelAnswers [Js.Threw badRequest; Js.Returned "[]"%string] (quiet jan15).

(** A decision to buy YES for 50. *)
Definition decision : Decision.t :=
  Decision.mk true "0xabc" YES 50 (Js.Num (72 # 100)) (95 # 100) "confirmed".

Definition shortOfAllowance : TradeResult :=
  mkTradeResult false None (Some "order rejected: not enough balance / allowance"%string).

Definition funded : BalanceCheck := mkBalanceCheck true 1000.

(** The backend rejects the order for lack of allowance, and the deposit
    does not go through. *)
Definition depositFails : t :=
  mk jan15 1000 (Js.Returned []) (Js.Returned []) [] (Js.Returned (Fetched []))
     ∅ 0 (Js.Returned funded) [Js.Returned shortOfAllowance; Js.Returned shortOfAllowance]
     (Js.Returned false).

(** The deposit goes through, and the order is rejected again. *)
Definition depositWorks : t :=
  mk jan15 1000 (Js.Returned []) (Js.Returned []) [] (Js.Returned (Fetched []))
     ∅ 0 (Js.Returned funded)
     [Js.Returned shortOfAllowance; Js.Returned shortOfAllowance; Js.Returned shortOfAllowance]
     (Js.Returned true).

(** The date of the articles of the examples. *)
Definition morning : string := "2026-01-15T08:00:00.000Z".

(** Three articles, told apart by their titles. *)
Definition article (title : string) : Article.t :=
  Article.mk title "text" None "Wire" (Some morning) (Some Neutral) (Some 1%Q) None.

Definition articleA : Article.t := article "A".
Definition articleB : Article.t := article "B".
Definition articleC : Article.t := article "C".

(** A news configuration without sentiment words or categories. *)
Definition newsConfig : News.NewsConfig := News.mkConfig [] [] [].


Definition raw (title : string) : Raw.Article :=
  Raw.mkArticle (Some title) (Some "text"%string) None (Some "Wire"%string) (Some morning).

(** The API answers headlines [A, B] and breaking articles [B, C]. *)
Definition newsDay : t :=
  mk jan15 1000 (Js.Returned [raw "A"; raw "B"]) (Js.Returned [raw "B"; raw "C"]) []
     (Js.Returned (Fetched [])) ∅ 0 (Js.Returned funded) [] (Js.Returned true).

(** A keyword extractor for the examples: the keywords are a list of
    words, and the overlap score is a tenth per word found, at most 1. *)
Definition wordOverlap (text : string) (words : list string) : Q :=
  Js.Math_min 1 ((1 # 10) * inject_Z (News.countIncluded (Js.toLowerCase text) words)).

(** Two articles on bitcoin, one upbeat, and one on something else. *)
Definition bitcoinUp : Article.t :=
  Article.mk "Bitcoin surges past 100k" "Bitcoin hits a record" None "Wire" (Some morning)
             (Some Positive) (Some 1%Q) None.

Definition bitcoinFlat : Article.t :=
  Article.mk "Bitcoin steady" "Traders wait" None "Wire" (Some morning)
             (Some Neutral) (Some (1 # 2)%Q) None.

Definition weather : Article.t :=
  Article.mk "Rain expected" "A wet week ahead" None "Wire" (Some morning)
             (Some Negative) (Some 1%Q) None.

(** *** A whole cycle

    The news reports a Fed rate cut; the model extracts the event and
    matches it to two markets; the orchestrator may make one trade a day. *)

Definition tradingConfig : TradingConfig :=
  mkTradingConfig true 100 (7 # 10) 1 20 50 None.

Definition toFixed (x : Js.number) (digits : nat) : string := "n".

(** The decoded answers of the model: an event, or a match. *)
Definition Json : Type := (ConfirmedEvent.t + Strategy.RawMatch)%type.

Definition fedCut : ConfirmedEvent.t :=
  ConfirmedEvent.mk "Fed cuts rates 50bps" "The Fed lowered its rate by 50bps" ["Wire"%string].

Definition cut50 : Market.t :=
  Market.mk "Fed decrease rates 50+ bps March 2026?" "0xfed50" (Some "[0.72,0.28]"%string).

Definition hike25 : Market.t :=
  Market.mk "Fed increase rates 25+ bps March 2026?" "0xfed25" (Some "[0.72,0.28]"%string).

Definition eventPrompt (articles : list Article.t) : string := "events?".

Definition marketPrompt (events : list ConfirmedEvent.t) (markets : list Market.t)
  : string := "matches?".

Definition matchBrackets (text : string) : option string := Some text.

Definition JSON_parse (text : string) : Js.Res (option (list Json)) :=
  if String.eqb text "events" then Js.Returned (Some [inl fedCut])
  else if String.eqb text "matches" then
    Js.Returned
      (Some [inr (Strategy.mkRawMatch (Js.Num 1) "YES" (Some "the cut is confirmed"%string));
             inr (Strategy.mkRawMatch (Js.Num 2) "NO" (Some "rates went down"%string))])
  else Js.Threw (Js.mkError "SyntaxError" "Unexpected token" None).

Definition asEvent (j : Json) : option ConfirmedEvent.t :=
  match j with inl e => Some e | inr _ => None end.

Definition asRawMatch (j : Json) : option Strategy.RawMatch :=
  match j with inr m => Some m | inl _ => Some (Strategy.mkRawMatch Js.NaN "" None) end.

Definition parsePrice (prices : string) (outcome : Outcome) : option Js.number :=
  if String.eqb prices "[0.72,0.28]"
  then Some (Js.Num (match outcome with YES => 72 # 100 | NO => 28 # 100 end))
  else None.

Definition findOpportunities (openPositions : gmap string unit)
  : M News.State (list Opportunity.t) :=
  Strategy.findOpportunities Strategy.defaultConfig newsConfig Json eventPrompt marketPrompt
    matchBrackets JSON_parse asEvent asRawMatch parsePrice Js.NaN true openPositions.

Definition scanAndTrade : M Trading.State unit :=
  Trading.scanAndTrade tradingConfig toFixed true newsConfig Json eventPrompt marketPrompt
    matchBrackets JSON_parse asEvent asRawMatch parsePrice Js.NaN.

Definition filled : TradeResult := mkTradeResult true (Some "order-1"%string) None.

Definition tradingDay : t :=
  mk jan15 1000 (Js.Returned [raw "Fed cuts rates"]) (Js.Returned [])
     [Js.Returned "events"%string; Js.Returned "matches"%string]
     (Js.Returned (Fetched [cut50; hike25])) ∅ 0 (Js.Returned funded)
     [Js.Returned filled; Js.Returned filled] (Js.Returned true).

(** The same day, with a position already open on the first market. *)
Definition tradingDayHolding : t :=
  mk jan15 1000 (Js.Returned [raw "Fed cuts rates"]) (Js.Returned [])
     [Js.Returned "events"%string; Js.Returned "matches"%string]
     (Js.Returned (Fetched [cut50; hike25])) {[ "0xfed50"%string := tt ]} 1
     (Js.Returned funded) [Js.Returned filled; Js.Returned filled] (Js.Returned true).

(** A trading service whose news service has used its eight targeted
    searches in an earlier cycle. *)
Definition afterBusyCycle : Trading.State :=
  Trading.mkState 0 jan15
    (News.mkState None ∅ {[ "NewsAPI"%string := "key"%string ]} 0
                  (Calendar.toDateString jan15) 8).

(** What a scan handed to the report service says, market by market. *)
Definition marketsOfScan (scan : list Opportunity.t * list Decision.t)
  : list string * list string :=
  (map Opportunity.marketId scan.1, map Decision.marketId scan.2).

End Script.

(** ** Further scripted scenes *)

Module Scene.

Import Script.

(** A news service without any API key. *)
Definition keyless : News.State :=
  News.mkState None ∅ ∅ 0 (Calendar.toDateString jan15) 0.

Definition rateLimited : Js.Error :=
  Js.mkError "AxiosError" "Request failed with status code 429" (Some 429).

(** The news API refuses every request; the clock stands 2000 s after the
    cache of [cachedNews] was filled. *)
Definition outage : Script.t :=
  mk jan15 2000000 (Js.Threw rateLimited) (Js.Threw rateLimited) []
     (Js.Returned (Fetched [])) ∅ 0 (Js.Returned funded) [] (Js.Returned true).

(** A keyword extractor for the examples: the keywords are the words of
    the title longer than three characters, the query is their
    concatenation. *)
Definition extractKeywords (title : string) (rules : option string) : list string :=
  News.keyTerms title.

Definition createSearchQuery (keywords : list string) : string :=
  String.concat " " keywords.

(** The configuration of [Script] in monitoring mode. *)
Definition monitoring : TradingConfig :=
  mkTradingConfig false 100 (7 # 10) 1 20 50 None.

(** Trading hours from 22 h to 6 h, which wrap past midnight. *)
Definition nightOwl : TradingConfig :=
  mkTradingConfig true 100 (7 # 10) 10 20 50 (Some (22, 6)).

(** A quiet world at 23 h. *)
Definition lateEvening : Script.t := quiet (Calendar.mkDate 2026 0 15 23).

Definition scanAndTradeWith (tradingConfig : TradingConfig) : M Trading.State unit :=
  Trading.scanAndTrade tradingConfig toFixed true newsConfig Json eventPrompt marketPrompt
    matchBrackets JSON_parse asEvent asRawMatch parsePrice Js.NaN.

(** The backend fills the first order and rejects the call for the
    second. *)
Definition backendFails : Script.t :=
  mk jan15 1000 (Js.Returned [raw "Fed cuts rates"]) (Js.Returned [])
     [Js.Returned "events"%string; Js.Returned "matches"%string]
     (Js.Returned (Fetched [cut50; hike25])) ∅ 0 (Js.Returned funded)
     [Js.Returned filled] (Js.Returned true).

(** A configuration that allows ten trades a day. *)
Definition tenADay : TradingConfig :=
  mkTradingConfig true 100 (7 # 10) 10 20 50 None.

(** An article whose date is missing. *)
Definition undatedRaw (title : string) : Raw.Article :=
  Raw.mkArticle (Some title) (Some "text"%string) None (Some "Wire"%string) None.

(** The trading day of [Script], the article of the news being undated. *)
Definition undatedDay : Script.t :=
  mk jan15 1000 (Js.Returned [undatedRaw "Fed cuts rates"]) (Js.Returned [])
     [Js.Returned "events"%string; Js.Returned "matches"%string]
     (Js.Returned (Fetched [cut50; hike25])) ∅ 0 (Js.Returned funded)
     [Js.Returned filled; Js.Returned filled] (Js.Returned true).

(** The trading day of [Script], the markets endpoint answering with a
    body that is no array. *)
Definition unmappableDay : Script.t :=
  mk jan15 1000 (Js.Returned [raw "Fed cuts rates"]) (Js.Returned [])
     [Js.Returned "events"%string; Js.Returned "matches"%string]
     (Js.Returned Unmappable) ∅ 0 (Js.Returned funded)
     [Js.Returned filled; Js.Returned filled] (Js.Returned true).

End Scene.

(** ** Predicates used in the statements *)

Module Props.

(** An answer of the model that is a transient failure. *)
Definition transientFailure (r : Js.Res string) : Prop :=
  match r with
  | Js.Threw e => Strategy.transientError (Js.errorText e) = true
  | Js.Returned _ => False
  end.

(** The combined list in the words of the specification: the articles of
    [later] are taken in order, and one is appended when its title does not
    already occur in the list combined so far. *)
Definition firstOccurrenceWins (headlines later : list Article.t) : list Article.t :=
  fold_left
    (fun combined a =>
       if decide (Article.title a ∈ map Article.title combined) then combined
       else combined ++ [a])
    later headlines.

(** The fields of the news service after [checkDailyReset] has read the
    date [now]. *)
Definition afterDailyCheck (now : Calendar.Date) (s : News.State) : News.State :=
  if String.eqb (Calendar.toDateString now) (News.lastResetDate s) then s
  else News.set_lastResetDate (Calendar.toDateString now) (News.set_dailyRequestCount 0 s).

(** The search of [fetchForArbitrage], issued at clock reading [t]. *)
Definition breakingSearch (key : string) (t : Z) : Event :=
  HttpEverything key News.BREAKING_QUERY "publishedAt" 50 (t - 3 * News.DAY_MS).

(** [x] clamped to the interval from 0 to 1. *)
Definition clamp01 (x : Q) : Q :=
  if Qle_bool x 0 then 0 else if Qle_bool 1 x then 1 else x.

(** The number of key terms of the market title, counted with repetition,
    that the lower-cased text of the article includes. *)
Definition matchedTerms (marketTitle : string) (a : Article.t) : nat :=
  length (filter (fun term => Js.includes (Js.toLowerCase (News.articleText a)) term = true)
                 (News.keyTerms marketTitle)).

(** The relevance score in the words of the specification: twice the
    keyword-overlap score plus 0.3 per matched key term, clamped to
    [0, 1]. *)
Definition relevance {K : Type} (overlap : string -> K -> Q) (keywords : K)
           (marketTitle : string) (a : Article.t) : Q :=
  clamp01 (2 * overlap (News.articleText a) keywords
           + (3 # 10) * inject_Z (Z.of_nat (matchedTerms marketTitle a)))%Q.


(** Articles whose score equals [q]. *)
Definition scoring (q : Q) (x : Article.t) : Prop :=
  Qeq_bool (News.scoreOrZero x) q = true.

#[global] Instance scoring_dec (q : Q) (x : Article.t) : Decision (scoring q x) :=
  decide (Qeq_bool (News.scoreOrZero x) q = true).

(** The relevance score of an article, when it has one, is not negative
    (the data model keeps it between 0 and 1). *)
Definition relevanceNotNegative (a : Article.t) : Prop :=
  match Article.relevanceScore a with
  | Some q => (0 <= q)%Q
  | None => True
  end.

(** A stage of the pipeline that returns, keeps the cycle counter of the
    news service, and stays away from the trading backend. *)
Definition stage {R : Type} (s : News.State)
           (o : Js.Res R) (s1 : News.State) (tr : Trace) : Prop :=
  (exists x, o = Js.Returned x)
  /\ News.searchesThisCycle s1 = News.searchesThisCycle s
  /\ Calls.backend tr = [].

(** A stage of the pipeline keeps the cycle counter of the news service
    and stays away from the trading backend, also when it throws. *)
Definition quiet (s s1 : News.State) (tr : Trace) : Prop :=
  News.searchesThisCycle s1 = News.searchesThisCycle s
  /\ Calls.backend tr = [].

(** One of the first 40 articles has no valid date. *)
Definition undated (articles : list Article.t) : Prop :=
  forallb Strategy.dated (take 40 articles) = false.

(** The markets endpoint answered with a body that cannot be mapped. *)
Definition unmappable (tr : Trace) : Prop :=
  Js.Returned Unmappable ∈ Calls.marketAnswers tr.

(** What [findOpportunities] promises of an opportunity: it is priced
    below the ceiling and its market is not among the open positions. *)
Definition admissible (maxPrice : Q) (openPositions : gmap string unit)
           (o : Opportunity.t) : Prop :=
  Js.lt (Opportunity.currentPrice o) (Js.Num maxPrice) = true
  /\ openPositions !! Opportunity.marketId o = None.

(** A stretch of a cycle that reads no positions and records no scan. *)
Definition unrecorded (tr : Trace) : Prop :=
  Calls.scans tr = [] /\ Calls.positionsRead tr = [].

(** Every execution of the trace is for one of the decisions [ds]. *)
Definition executesOnly (ds : list Decision.t) (tr : Trace) : Prop :=
  Forall (fun x => x.1 ∈ ds) (Calls.executions tr).

End Props.

(** [runs env m s w Q]: run in [env] from fields [s] and world [w], the
    method [m] ends with an outcome, fields, trace and world that satisfy
    [Q].  Programs are finite trees, so every run ends. *)
Definition runs {S R W : Type} (env : Prog.Env W) (m : M S R) (s : S) (w : W)
           (Q : Js.Res R -> S -> Trace -> W -> Prop) : Prop :=
  Q (outcome (exec env m s w)) (fields (exec env m s w))
    (trace (exec env m s w)) (world (exec env m s w)).

(** ** Conditions used in the statements of the further properties *)

Module Conditions.

(** The source is enabled and its environment variable holds a key. *)
Definition activates (processEnv : string -> option string) (source : News.Source.t)
  : Prop :=
  News.Source.enabled source = true
  /\ Js.truthy (processEnv (News.Source.apiKeyEnvVar source)) = true.

(** A number that is no index of an array: [NaN], or not an integer. *)
Definition fractional (idx : Js.number) : Prop :=
  match idx with
  | Js.NaN => True
  | Js.Num q => ~ (q == inject_Z (Qfloor q))%Q
  end.

(** An element of the model's match array that breaks the loop of
    [searchMatchingMarkets]: it is [null] or [undefined], so that reading
    its [marketIndex] throws; or its outcome is valid and its index passes
    the bounds test, but [markets[idx]] is [undefined]. *)
Definition malformed (markets : list Market.t) (element : option Strategy.RawMatch) : Prop :=
  match element with
  | None => True
  | Some m =>
      let idx := Js.sub (Strategy.marketIndex m) (Js.Num 1) in
      is_Some (Strategy.asOutcome (Strategy.rawOutcome m))
      /\ Strategy.outOfBounds markets idx = false
      /\ fractional idx
  end.

(** The daily budget over a run of the news service from the fields [s]
    to the fields [s1] with the calls [tr].  A counter within the budget
    stays within it.  When every date read during the run is the day of the
    last reset, the reset date stays, every HTTP request has been counted,
    and with the budget spent at the start no request is made and the
    counter stays. *)
Definition withinBudget (s s1 : News.State) (tr : Trace) : Prop :=
  (News.dailyRequestCount s <= News.MAX_DAILY_REQUESTS ->
   News.dailyRequestCount s1 <= News.MAX_DAILY_REQUESTS)
  /\ (Forall (fun d => Calendar.toDateString d = News.lastResetDate s) (Calls.dates tr) ->
      News.lastResetDate s1 = News.lastResetDate s
      /\ Z.of_nat (length (Calls.http tr))
         <= News.dailyRequestCount s1 - News.dailyRequestCount s
      /\ (News.MAX_DAILY_REQUESTS <= News.dailyRequestCount s ->
          Calls.http tr = [] /\ News.dailyRequestCount s1 = News.dailyRequestCount s)).

(** A run of the news service that returns, makes at most [bound] HTTP
    requests and keeps the daily budget. *)
Definition budgeted {R W : Type} (bound : nat) (s : News.State) (r : Run News.State R W)
  : Prop :=
  (exists x, outcome r = Js.Returned x)
  /\ (length (Calls.http (trace r)) <= bound)%nat
  /\ withinBudget s (fields r) (trace r).

(** The calls [f a1], [f a2], ... made one after the other. *)
Fixpoint each {S A R : Type} (f : A -> M S R) (l : list A) : M S (list R) :=
  match l with
  | [] => mret []
  | a :: rest => r ← f a; rs ← each f rest; mret (r :: rs)
  end.

(** What [callLLM] makes of the last answer of the model. *)
Definition verdict (final : Js.Res string) : Js.Res string :=
  match final with
  | Js.Returned EmptyString => Js.Threw Strategy.emptyResponse
  | Js.Returned text => Js.Returned text
  | Js.Threw e => Js.Threw e
  end.

(** The back-off delays after the attempts 1 to [n]: 10 s, 20 s, ... *)
Definition backoff (n : nat) : list Z :=
  map (fun attempt => Z.of_nat attempt * 10000) (seq 1 n).

(** The delays waited from attempt [attempt] on, [n] of them. *)
Definition delaysFrom (attempt : Z) (n : nat) : list Z :=
  map (fun i => (attempt + Z.of_nat i) * 10000) (seq 0 n).

(** A call to the model or to the timer. *)
Definition modelOrTimer (x : Entry) : Prop :=
  match calledEvent x with
  | UseModel _ | SetTimeout _ => True
  | _ => False
  end.

(** A reading of the clock or a request to the news API. *)
Definition clockOrNews (x : Entry) : Prop :=
  match calledEvent x with
  | NewDate | DateNow | HttpTopHeadlines _ | HttpEverything _ _ _ _ _ => True
  | _ => False
  end.

(** What a stretch of a strategy cycle costs at most: requests to the
    news API, calls of the model, requests to the markets endpoint, and
    back-off waits, each of 10 s or 20 s. *)
Definition costs (http model markets waits : nat) (tr : Trace) : Prop :=
  (length (Calls.http tr) <= http)%nat
  /\ (length (Calls.completions tr) <= model)%nat
  /\ (length (Calls.marketFetches tr) <= markets)%nat
  /\ (length (Calls.waits tr) <= waits)%nat
  /\ Forall (fun ms => ms = 10000 \/ ms = 20000) (Calls.waits tr)
  /\ Calls.backend tr = [].

(** A call an idle cycle may make: reading the date or the number of open
    positions. *)
Definition dateOrCount (x : Entry) : Prop :=
  match calledEvent x with
  | NewDate | GetPositionCount => True
  | _ => False
  end.

(** A method threw. *)
Definition threw {R : Type} (o : Js.Res R) : Prop :=
  match o with
  | Js.Threw _ => True
  | Js.Returned _ => False
  end.

(** The run of the strategy in a cycle of [scanAndTrade] that gets as far
    as calling it: after the date check, the guard and the reading of the
    open positions, on the news service of the trading service. *)
Section Cycle.

Variable tradingConfig : TradingConfig.
Variable newsConfig : News.NewsConfig.
Variable Json : Type.
Variable eventPrompt : list Article.t -> string.
Variable marketPrompt : list ConfirmedEvent.t -> list Market.t -> string.
Variable matchBrackets : string -> option string.
Variable JSON_parse : string -> Js.Res (option (list Json)).
Variable asEvent : Json -> option ConfirmedEvent.t.
Variable asRawMatch : Json -> option Strategy.RawMatch.
Variable parsePrice : string -> Outcome -> option Js.number.
Variable envMaxPositionSize : Js.number.

Definition strategyRun {W : Type} (env : Prog.Env W) (s : Trading.State) (w : W)
  : Run News.State (list Opportunity.t) W :=
  let r0 := exec env Trading.checkDailyReset s w in
  let r1 := exec env (Trading.canTrade tradingConfig) (fields r0) (world r0) in
  let positions := env GetOpenPositions (world r1) in
  exec env
       (Trading.findOpportunities newsConfig Json eventPrompt marketPrompt matchBrackets
                                  JSON_parse asEvent asRawMatch parsePrice
                                  envMaxPositionSize positions.1)
       (Trading.newsService (fields r1)) positions.2.

End Cycle.

End Conditions.

(** ** What the report service has been told *)

Module ReportConditions.

Import ReportService.

(** [currentHourMarkets] after the loop over the opportunities. *)
Definition marketsAfter (opportunities : list Opportunity.t) (set : list string)
  : list string :=
  fold_left (fun set o => setAdd (shortQuestion o) set) opportunities set.

(** [marketStats] after the loop over the opportunities. *)
Definition statsAfter (opportunities : list Opportunity.t)
           (stats : list (string * MarketStats.t)) : list (string * MarketStats.t) :=
  fold_left (fun stats o => trackMarket (shortQuestion o) o stats) opportunities stats.

(** [decisions.filter(d => d.shouldTrade).length] *)
Definition tradeCount (decisions : list Decision.t) : Z :=
  Z.of_nat (length (filter (fun d => Decision.shouldTrade d = true) decisions)).

(** The snapshots and the running hour account for the scans handed
    over: nothing is counted twice and nothing is lost. *)
Definition balanced (s : State) (calls : list Call) : Prop :=
  sumOf HourlySnapshot.totalScans (hourlySnapshots s) + currentHourScans s
  = Z.of_nat (length (scansOf calls))
  /\ sumOf HourlySnapshot.totalOpportunities (hourlySnapshots s) + currentHourOpps s
     = Z.of_nat (length (opportunitiesOf calls))
  /\ sumOf HourlySnapshot.totalWouldTrade (hourlySnapshots s) + currentHourTrades s
     = tradeCount (decisionsOf calls)
  /\ 0 <= currentHourScans s
  /\ (currentHourScans s = 0 -> currentHourOpps s = 0 /\ currentHourTrades s = 0
                                /\ currentHourMarkets s = [])
  /\ Forall (fun h => 1 <= HourlySnapshot.totalScans h) (hourlySnapshots s)
  /\ (length (hourlySnapshots s) <= length (scansOf calls))%nat.

(** What a call appends to [allDecisions]. *)
Definition logged (c : Call) : list (string * Report.DecisionEntry) :=
  match c with
  | CallRecordScan now _ opportunities decisions =>
      map (fun d => (now, Report.entryOf opportunities d)) decisions
  | _ => []
  end.

(** The markets of the breakdown and the keys of [marketStats] are the
    short questions of the opportunities handed over. *)
Definition tracked (s : State) (calls : list Call) : Prop :=
  NoDup (map fst (marketStats s))
  /\ (forall y, y ∈ map fst (marketStats s)
                <-> y ∈ map shortQuestion (opportunitiesOf calls))
  /\ (forall y, y ∈ flat_map HourlySnapshot.uniqueMarkets (hourlySnapshots s)
                    ++ currentHourMarkets s
                <-> y ∈ map shortQuestion (opportunitiesOf calls))
  /\ NoDup (currentHourMarkets s).

(** The opportunities whose short question is [shortQ]. *)
Definition sightings (shortQ : string) (opportunities : list Opportunity.t)
  : list Opportunity.t :=
  filter (fun o => shortQuestion o = shortQ) opportunities.

(** The sum of a list of rationals. *)
Definition sumQ (l : list Q) : Q := fold_right Qplus 0%Q l.

(** What [marketStats] says of a market: how often it was seen, and the
    sum of the confidences. *)
Definition tallyOf (shortQ : string) (stats : list (string * MarketStats.t)) : Z * Q :=
  match statsOf shortQ stats with
  | Some st => (MarketStats.appearances st, MarketStats.totalConfidence st)
  | None => (0, 0%Q)
  end.

End ReportConditions.

(** * Verification *)

(** ** Reasoning about methods *)

Module Hoare.

Lemma run_bind {A B W : Type} (env : Prog.Env W) (p : Prog.t A) (f : A -> Prog.t B) (w : W) :
  Prog.run env (Prog.bind p f) w =
    let '(a, tr1, w1) := Prog.run env p w in
    let '(b, tr2, w2) := Prog.run env (f a) w1 in
    (b, tr1 ++ tr2, w2).
Proof.
  revert w; induction p as [a | e k IH]; intros w; simpl.
  - destruct (Prog.run env (f a) w) as [[b tr] w2]; reflexivity.
  - destruct (env e w) as [x w1].
    rewrite IH.
    destruct (Prog.run env (k x) w1) as [[a tr1] w2].
    destruct (Prog.run env (f a) w2) as [[b tr2] w3]; reflexivity.
Qed.

Section Rules.
Context {S W : Type} (env : Prog.Env W).

Lemma exec_bind {A B : Type} (m : M S A) (f : A -> M S B) (s : S) (w : W) :
  exec env (m ≫= f) s w =
    let r1 := exec env m s w in
    match outcome r1 with
    | Js.Returned a =>
        let r2 := exec env (f a) (fields r1) (world r1) in
        mkRun S B W (outcome r2) (fields r2) (trace r1 ++ trace r2) (world r2)
    | Js.Threw e => mkRun S B W (Js.Threw e) (fields r1) (trace r1) (world r1)
    end.
Proof.
  unfold exec, mbind, M_bind, Method.bind.
  rewrite run_bind.
  destruct (Prog.run env (m s) w) as [[[r s1] tr1] w1]; simpl.
  destruct r as [e | a]; simpl.
  - rewrite app_nil_r; reflexivity.
  - destruct (Prog.run env (f a s1) w1) as [[[r2 s2] tr2] w2]; reflexivity.
Qed.

Lemma exec_tryCatch {R : Type} (m : M S R) (h : Js.Error -> M S R) (s : S) (w : W) :
  exec env (Method.tryCatch m h) s w =
    let r1 := exec env m s w in
    match outcome r1 with
    | Js.Returned a => mkRun S R W (Js.Returned a) (fields r1) (trace r1) (world r1)
    | Js.Threw e =>
        let r2 := exec env (h e) (fields r1) (world r1) in
        mkRun S R W (outcome r2) (fields r2) (trace r1 ++ trace r2) (world r2)
    end.
Proof.
  unfold exec, Method.tryCatch.
  rewrite run_bind.
  destruct (Prog.run env (m s) w) as [[[r s1] tr1] w1]; simpl.
  destruct r as [e | a]; simpl.
  - destruct (Prog.run env (h e s1) w1) as [[[r2 s2] tr2] w2]; reflexivity.
  - rewrite app_nil_r; reflexivity.
Qed.

Lemma runs_mono {R : Type} (m : M S R) (s : S) (w : W)
      (Q Q' : Js.Res R -> S -> Trace -> W -> Prop) :
  runs env m s w Q -> (forall r s1 tr w1, Q r s1 tr w1 -> Q' r s1 tr w1) ->
  runs env m s w Q'.
Proof. intros H HQ. apply HQ, H. Qed.

(** Use what is known of a run, keeping the run itself at hand. *)
Lemma runs_known {R : Type} (m : M S R) (s : S) (w : W)
      (P Q : Js.Res R -> S -> Trace -> W -> Prop) :
  runs env m s w P ->
  (forall r s1 tr w1,
      exec env m s w = mkRun S R W r s1 tr w1 -> P r s1 tr w1 -> Q r s1 tr w1) ->
  runs env m s w Q.
Proof.
  unfold runs. intros H HQ.
  destruct (exec env m s w) as [r s1 tr w1]; simpl in *. apply HQ; [reflexivity | exact H].
Qed.

Lemma runs_ret {R : Type} (r : R) (s : S) (w : W)
      (Q : Js.Res R -> S -> Trace -> W -> Prop) :
  Q (Js.Returned r) s [] w -> runs env (mret r) s w Q.
Proof. exact (fun H => H). Qed.

Lemma runs_throw {R : Type} (e : Js.Error) (s : S) (w : W)
      (Q : Js.Res R -> S -> Trace -> W -> Prop) :
  Q (Js.Threw e) s [] w -> runs env (Method.throw e) s w Q.
Proof. exact (fun H => H). Qed.

Lemma runs_get (s : S) (w : W) (Q : Js.Res S -> S -> Trace -> W -> Prop) :
  Q (Js.Returned s) s [] w -> runs env Method.get s w Q.
Proof. exact (fun H => H). Qed.

Lemma runs_put (s s' : S) (w : W) (Q : Js.Res unit -> S -> Trace -> W -> Prop) :
  Q (Js.Returned tt) s' [] w -> runs env (Method.put s') s w Q.
Proof. exact (fun H => H). Qed.

Lemma runs_modify (f : S -> S) (s : S) (w : W)
      (Q : Js.Res unit -> S -> Trace -> W -> Prop) :
  Q (Js.Returned tt) (f s) [] w -> runs env (Method.modify f) s w Q.
Proof. exact (fun H => H). Qed.

Lemma runs_call (e : Event) (s : S) (w : W)
      (Q : Js.Res (resp e) -> S -> Trace -> W -> Prop) :
  Q (Js.Returned (env e w).1) s [entry e (env e w).1] (env e w).2 ->
  runs env (Method.call e) s w Q.
Proof.
  unfold runs, exec, Method.call; simpl.
  destruct (env e w) as [x w1]; simpl. exact (fun H => H).
Qed.

Lemma runs_await {X : Type} (e : Event) (cast : resp e -> Js.Res X) (s : S) (w : W)
      (Q : Js.Res X -> S -> Trace -> W -> Prop) :
  Q (cast (env e w).1) s [entry e (env e w).1] (env e w).2 ->
  runs env (Method.await e cast) s w Q.
Proof.
  unfold runs, exec, Method.await; simpl.
  destruct (env e w) as [x w1]; simpl. exact (fun H => H).
Qed.

Lemma runs_bind {A B : Type} (m : M S A) (f : A -> M S B) (s : S) (w : W)
      (Q : Js.Res B -> S -> Trace -> W -> Prop) :
  runs env m s w
       (fun r s1 tr1 w1 =>
          match r with
          | Js.Returned a =>
              runs env (f a) s1 w1 (fun r2 s2 tr2 w2 => Q r2 s2 (tr1 ++ tr2) w2)
          | Js.Threw e => Q (Js.Threw e) s1 tr1 w1
          end) ->
  runs env (m ≫= f) s w Q.
Proof.
  unfold runs. rewrite exec_bind. cbv zeta.
  destruct (outcome (exec env m s w)) as [e | a]; simpl; exact (fun H => H).
Qed.

Lemma runs_tryCatch {R : Type} (m : M S R) (h : Js.Error -> M S R) (s : S) (w : W)
      (Q : Js.Res R -> S -> Trace -> W -> Prop) :
  runs env m s w
       (fun r s1 tr1 w1 =>
          match r with
          | Js.Returned a => Q (Js.Returned a) s1 tr1 w1
          | Js.Threw e =>
              runs env (h e) s1 w1 (fun r2 s2 tr2 w2 => Q r2 s2 (tr1 ++ tr2) w2)
          end) ->
  runs env (Method.tryCatch m h) s w Q.
Proof.
  unfold runs. rewrite exec_tryCatch. cbv zeta.
  destruct (outcome (exec env m s w)) as [e | a]; simpl; exact (fun H => H).
Qed.

End Rules.

Lemma runs_zoom {S T R W : Type} (env : Prog.Env W) (proj : S -> T) (upd : T -> S -> S)
      (m : M T R) (s : S) (w : W) (Q : Js.Res R -> S -> Trace -> W -> Prop) :
  runs env m (proj s) w (fun r t1 tr w1 => Q r (upd t1 s) tr w1) ->
  runs env (Method.zoom proj upd m) s w Q.
Proof.
  unfold runs, exec, Method.zoom. rewrite run_bind.
  destruct (Prog.run env (m (proj s)) w) as [[[r t1] tr1] w1]; simpl.
  rewrite app_nil_r. exact (fun H => H).
Qed.

(** One step of symbolic execution of a method. *)
Ltac mstep :=
  lazymatch goal with
  | |- runs _ (mbind _ _) _ _ _ => apply runs_bind
  | |- runs _ (mret _) _ _ _ => apply runs_ret
  | |- runs _ (Method.tryCatch _ _) _ _ _ => apply runs_tryCatch
  | |- runs _ (Method.throw _) _ _ _ => apply runs_throw
  | |- runs _ Method.get _ _ _ => apply runs_get
  | |- runs _ (Method.put _) _ _ _ => apply runs_put
  | |- runs _ (Method.modify _) _ _ _ => apply runs_modify
  | |- runs ?env (Method.call ?e) ?s ?w ?Q => apply (runs_call env e s w Q)
  | |- runs ?env (Method.await ?e ?c) ?s ?w ?Q => apply (runs_await env e c s w Q)
  | |- runs _ (Method.zoom _ _ _) _ _ _ => apply runs_zoom
  end; cbv beta iota delta [id negb].

Ltac msteps := repeat mstep.

(** Case analysis on the test the method is about to make. *)
Ltac mcase :=
  lazymatch goal with
  | |- runs _ (if ?b then _ else _) _ _ _ => destruct b eqn:?
  | |- runs _ (match ?x with _ => _ end) _ _ _ => destruct x eqn:?
  | |- match ?r with Js.Threw _ => _ | Js.Returned _ => _ end => destruct r eqn:?
  end; cbv beta iota.

Ltac mauto := repeat (mstep || mcase).

End Hoare.

(** ** The built-ins *)

Module JsFacts.

Lemma append_cons (c : ascii) (a b : string) :
  String.append (String c a) b = String c (String.append a b).
Proof. reflexivity. Qed.

Lemma prefix_spec (t s : string) :
  String.prefix t s = true <-> exists b, s = String.append t b.
Proof.
  revert s. induction t as [| c t IH]; intros s.
  - split; [intros _; exists s; reflexivity | intros _; destruct s; reflexivity].
  - destruct s as [| d s].
    + split; [discriminate | intros [b Hb]; discriminate Hb].
    + cbn [String.prefix]. destruct (ascii_dec c d) as [-> | Hne].
      * rewrite IH. split; intros [b Hb]; exists b.
        -- rewrite append_cons, Hb. reflexivity.
        -- rewrite append_cons in Hb. congruence.
      * split; [discriminate |]. intros [b Hb].
        rewrite append_cons in Hb. congruence.
Qed.

(** [includes] is the substring test. *)
Lemma includes_spec (s t : string) :
  Js.includes s t = true <-> exists a b, s = String.append a (String.append t b).
Proof.
  induction s as [| c s IH]; cbn [Js.includes]; rewrite orb_true_iff, prefix_spec.
  - split.
    + intros [[b Hb] | H]; [| discriminate H]. exists EmptyString, b. exact Hb.
    + intros (a & b & H). left. destruct a as [| x a]; [| discriminate H].
      exists b. exact H.
  - rewrite IH. split.
    + intros [[b Hb] | (a & b & H)].
      * exists EmptyString, b. exact Hb.
      * exists (String c a), b. rewrite append_cons, H. reflexivity.
    + intros (a & b & H). destruct a as [| x a].
      * left. exists b. exact H.
      * right. exists a, b. rewrite append_cons in H. congruence.
Qed.

Example includes_signature :
  Js.includes "order rejected: not enough balance / allowance" Trading.BALANCE_SIGNATURE
  = true
  /\ Js.includes "insufficient funds" Trading.BALANCE_SIGNATURE = false.
Proof. vm_compute. split; reflexivity. Qed.

End JsFacts.

(** ** C1: the daily counters on a new calendar day *)

Module DailyReset.

Import Calendar.

(* quotients and remainders by constants, for [lia] *)
Local Ltac divmod_lia := zify; Z.div_mod_to_equations; lia.

Lemma digit_inj (x y : nat) :
  (x < 10)%nat -> (y < 10)%nat -> digit x = digit y -> x = y.
Proof.
  intros Hx Hy H. unfold digit in H.
  apply (f_equal nat_of_ascii) in H.
  rewrite !nat_ascii_embedding in H by lia. lia.
Qed.

Lemma dayName_shape (w : nat) :
  exists a b c, dayName w = String a (String b (String c EmptyString)).
Proof.
  do 6 (destruct w as [|w]; [simpl; eauto |]). simpl; eauto.
Qed.

Lemma monthName_shape (m : nat) :
  exists a b c, monthName m = String a (String b (String c EmptyString)).
Proof.
  do 11 (destruct m as [|m]; [simpl; eauto |]). simpl; eauto.
Qed.

Lemma monthName_inj (m n : nat) :
  (m < 12)%nat -> (n < 12)%nat -> monthName m = monthName n -> m = n.
Proof.
  intros Hm Hn.
  do 12 (destruct m as [|m]; [do 12 (destruct n as [|n]; [simpl; congruence |]); lia |]).
  lia.
Qed.

Lemma pad2_inj (x y : nat) :
  (x < 100)%nat -> (y < 100)%nat -> pad2 x = pad2 y -> x = y.
Proof.
  intros Hx Hy H. unfold pad2 in H.
  assert (H1 : digit (x / 10 mod 10) = digit (y / 10 mod 10)) by congruence.
  assert (H2 : digit (x mod 10) = digit (y mod 10)) by congruence.
  apply digit_inj in H1; [| apply Nat.mod_upper_bound; lia ..].
  apply digit_inj in H2; [| apply Nat.mod_upper_bound; lia ..].
  divmod_lia.
Qed.

Lemma pad4_inj (x y : nat) :
  (x < 100 * 100)%nat -> (y < 100 * 100)%nat -> pad4 x = pad4 y -> x = y.
Proof.
  intros Hx Hy H. unfold pad4, pad2 in H.
  assert (H1 : digit (x / 1000 mod 10) = digit (y / 1000 mod 10)) by congruence.
  assert (H2 : digit (x / 100 mod 10) = digit (y / 100 mod 10)) by congruence.
  assert (H3 : digit (x / 10 mod 10) = digit (y / 10 mod 10)) by congruence.
  assert (H4 : digit (x mod 10) = digit (y mod 10)) by congruence.
  apply digit_inj in H1; [| apply Nat.mod_upper_bound; lia ..].
  apply digit_inj in H2; [| apply Nat.mod_upper_bound; lia ..].
  apply digit_inj in H3; [| apply Nat.mod_upper_bound; lia ..].
  apply digit_inj in H4; [| apply Nat.mod_upper_bound; lia ..].
  divmod_lia.
Qed.

(** [toDateString] tells calendar days apart. *)
Lemma toDateString_inj (a b : Date) :
  wf a -> wf b -> toDateString a = toDateString b -> sameDay a b.
Proof.
  intros (Hya & Hma & Hda & _) (Hyb & Hmb & Hdb & _) H.
  unfold toDateString in H.
  destruct (dayName_shape (getDay a)) as (a1 & a2 & a3 & Da).
  destruct (dayName_shape (getDay b)) as (b1 & b2 & b3 & Db).
  pose proof (monthName_inj (month a) (month b) Hma Hmb) as Hm.
  destruct (monthName_shape (month a)) as (a4 & a5 & a6 & Ea).
  destruct (monthName_shape (month b)) as (b4 & b5 & b6 & Eb).
  rewrite Da, Db, Ea, Eb in H. rewrite Ea, Eb in Hm.
  unfold pad4, pad2 in H. cbv [String.append] in H.
  unfold sameDay. split; [| split].
  - apply pad4_inj; [lia | lia |]. unfold pad4, pad2. congruence.
  - apply Hm. congruence.
  - apply pad2_inj; [lia | lia |]. unfold pad2. congruence.
Qed.

Lemma earlierDay_not_sameDay (a b : Date) : earlierDay a b -> ~ sameDay a b.
Proof. unfold earlierDay, sameDay. lia. Qed.

(** The news service compares full date strings: its request counter is 0
    after the first budget check made on a later calendar day. *)
Lemma news_counter_reset {W : Type} (env : Prog.Env W) (w : W) (s : News.State)
      (d1 : Date) :
  let now := (env NewDate w).1 in
  wf d1 -> wf now ->
  News.lastResetDate s = toDateString d1 ->
  earlierDay d1 now ->
  News.dailyRequestCount (fields (exec env News.canMakeRequest s w)) = 0.
Proof.
  intros now Hd1 Hnow Hlast Hlt.
  change (runs env News.canMakeRequest s w
            (fun _ s1 _ _ => News.dailyRequestCount s1 = 0)).
  unfold News.canMakeRequest, News.checkDailyReset. Hoare.msteps. fold now.
  destruct (String.eqb_spec (toDateString now) (News.lastResetDate s)) as [E | E];
    cbn [negb].
  - exfalso. apply (earlierDay_not_sameDay d1 now Hlt).
    apply toDateString_inj; [assumption .. | congruence].
  - Hoare.msteps.
    Hoare.mcase; Hoare.msteps; reflexivity.
Qed.

(** The trading service compares days of the month: its trade counter is
    reset when they differ ... *)
Lemma trade_counter_reset {W : Type} (env : Prog.Env W) (w : W) (s : Trading.State) :
  getDate (env NewDate w).1 <> getDate (Trading.lastResetDate s) ->
  Trading.dailyTradeCount (fields (exec env Trading.checkDailyReset s w)) = 0.
Proof.
  intros Hne.
  change (runs env Trading.checkDailyReset s w
            (fun _ s1 _ _ => Trading.dailyTradeCount s1 = 0)).
  unfold Trading.checkDailyReset. Hoare.msteps.
  destruct (Nat.eqb_spec (getDate (env NewDate w).1) (getDate (Trading.lastResetDate s)));
    cbn [negb]; Hoare.msteps.
  - contradiction.
  - reflexivity.
Qed.

(** ... and nothing changes when they agree, whatever the month or year. *)
Lemma trade_counter_kept {W : Type} (env : Prog.Env W) (w : W) (s : Trading.State) :
  getDate (env NewDate w).1 = getDate (Trading.lastResetDate s) ->
  fields (exec env Trading.checkDailyReset s w) = s.
Proof.
  intros He.
  change (runs env Trading.checkDailyReset s w (fun _ s1 _ _ => s1 = s)).
  unfold Trading.checkDailyReset. Hoare.msteps.
  rewrite He, Nat.eqb_refl; cbn [negb]. Hoare.msteps. reflexivity.
Qed.

(** C1 (the code departs from the claim).  Last reset on 15 January 2026,
    first check on 15 February 2026: the news request counter is back to 0,
    but the trade counter of [checkDailyReset] keeps its value 10, because
    both days are the 15th of their month; the cycle [scanAndTrade] starts
    that day finds the counter at 10 and is skipped after reading the
    date. *)
Theorem daily_trade_counter_kept_on_same_day_of_month :
  earlierDay Script.jan15 Script.feb15 /\
  News.dailyRequestCount
    (fields (exec Script.play News.canMakeRequest
                  (Script.news Script.jan15 95) (Script.quiet Script.feb15))) = 0 /\
  Trading.dailyTradeCount
    (fields (exec Script.play Trading.checkDailyReset
                  (Script.trading Script.jan15 10) (Script.quiet Script.feb15))) = 10 /\
  (let r := exec Script.play Script.scanAndTrade (Script.trading Script.jan15 10)
                 (Script.set_clock Script.feb15 Script.tradingDay) in
   Trading.dailyTradeCount (fields r) = 10
   /\ trace r = [entry NewDate Script.feb15]).
Proof.
  split; [| split; [| split]].
  - right; left. split; [reflexivity | simpl; lia].
  - vm_compute. reflexivity.
  - vm_compute. reflexivity.
  - vm_compute. split; reflexivity.
Qed.

End DailyReset.

(** ** C6: retries of the language-model call *)

Module LlmRetry.

Import Strategy.

(** C6 as stated fails: with a model overloaded at each of the three
    attempts there are two waits, of 10 s and 20 s; no 30 s wait is made. *)
Lemma callLLM_waits_twice :
  let r := exec Script.play (callLLM "prompt" 3) tt Script.overloadedModel in
  Calls.completions (trace r) =
    [Js.Threw Script.overloaded; Js.Threw Script.overloaded; Js.Threw Script.overloaded]
  /\ transientError (Js.errorText Script.overloaded) = true
  /\ outcome r = Js.Threw Script.overloaded
  /\ Calls.waits (trace r) = [10000; 20000]
  /\ Calls.waits (trace r) <> [10000; 20000; 30000].
Proof.
  vm_compute. repeat split; try reflexivity. discriminate.
Qed.

(** C6, amended.  With the default of three attempts: when every answer of
    the model is a transient failure, [callLLM] makes exactly three attempts,
    waits 10 s after the first and 20 s after the second, and throws the
    third failure; when the first answer is a failure that is not
    transient, it makes that one attempt and throws the failure at once. *)
Theorem callLLM_retry_policy {St W : Type} (env : Prog.Env W) (w : W) (s : St)
        (prompt : string) :
  let r := exec env (callLLM prompt 3) s w in
  (Forall Props.transientFailure (Calls.completions (trace r)) ->
   exists e1 e2 e3,
     trace r = [entry (UseModel prompt) (Js.Threw e1); entry (SetTimeout 10000) tt;
                entry (UseModel prompt) (Js.Threw e2); entry (SetTimeout 20000) tt;
                entry (UseModel prompt) (Js.Threw e3)]
     /\ outcome r = Js.Threw e3)
  /\ (forall e,
        head (Calls.completions (trace r)) = Some (Js.Threw e) ->
        transientError (Js.errorText e) = false ->
        trace r = [entry (UseModel prompt) (Js.Threw e)] /\ outcome r = Js.Threw e).
Proof.
  intros r. subst r.
  change (runs env (callLLM prompt 3) s w
            (fun o _ tr _ =>
               (Forall Props.transientFailure (Calls.completions tr) ->
                exists e1 e2 e3,
                  tr = [entry (UseModel prompt) (Js.Threw e1); entry (SetTimeout 10000) tt;
                        entry (UseModel prompt) (Js.Threw e2); entry (SetTimeout 20000) tt;
                        entry (UseModel prompt) (Js.Threw e3)]
                  /\ o = Js.Threw e3)
               /\ (forall e,
                     head (Calls.completions tr) = Some (Js.Threw e) ->
                     transientError (Js.errorText e) = false ->
                     tr = [entry (UseModel prompt) (Js.Threw e)] /\ o = Js.Threw e))).
  unfold callLLM. change (Z.to_nat 3) with 3%nat. cbn [callLLM_from].
  Hoare.mauto.
  all: cbn [app Calls.completions Calls.completion omap list_omap calledEvent head].
  all: split; [intros Hall | intros err Hhd Hnt].
  all: repeat match goal with
         | H : Forall _ (_ :: _) |- _ => apply Forall_cons in H as [? ?]
         | H : Props.transientFailure (Js.Threw _) |- _ => cbn [Props.transientFailure] in H
         | H : Props.transientFailure (Js.Returned _) |- _ => destruct H
         | H : Some _ = Some _ |- _ => injection H as H; subst
         | H : Js.Threw _ = Js.Threw _ |- _ => injection H as H; subst
         | H : Js.Returned _ = Js.Threw _ |- _ => discriminate H
         end.
  all: try match goal with
         | H : transientError ?m = true, H' : transientError ?m && _ = false |- _ =>
             rewrite H in H'; discriminate H'
         | H : transientError ?m = false, H' : transientError ?m && _ = true |- _ =>
             rewrite H in H'; discriminate H'
         end.
  all: try discriminate.
  all: try match goal with
         | H : _ && (1 + 1 + 1 <? 3) = true |- _ =>
             change (1 + 1 + 1 <? 3) with false in H; rewrite andb_false_r in H;
             discriminate H
         end.
  all: repeat match goal with
         | |- context [(?f (SetTimeout ?n) ?x).1] => destruct (f (SetTimeout n) x).1
         end.
  all: change (1 * 10000) with 10000; change ((1 + 1) * 10000) with 20000.
  all: eauto 10.
Qed.

(** The theorem at work on an overloaded model and on a rejecting one. *)
Lemma callLLM_retry_policy_witness :
  (let r := exec Script.play (callLLM "prompt" 3) tt Script.overloadedModel in
   Forall Props.transientFailure (Calls.completions (trace r)) /\
   exists e1 e2 e3,
     trace r = [entry (UseModel "prompt") (Js.Threw e1); entry (SetTimeout 10000) tt;
                entry (UseModel "prompt") (Js.Threw e2); entry (SetTimeout 20000) tt;
                entry (UseModel "prompt") (Js.Threw e3)]
     /\ outcome r = Js.Threw e3)
  /\ (let r := exec Script.play (callLLM "prompt" 3) tt Script.rejectingModel in
      trace r = [entry (UseModel "prompt") (Js.Threw Script.badRequest)]
      /\ outcome r = Js.Threw Script.badRequest).
Proof.
  split.
  - assert (H : Forall Props.transientFailure
                  (Calls.completions
                     (trace (exec Script.play (callLLM "prompt" 3) tt
                                  Script.overloadedModel)))).
    { vm_compute. repeat constructor. }
    split; [exact H |].
    exact (proj1 (callLLM_retry_policy Script.play Script.overloadedModel tt "prompt") H).
  - apply (proj2 (callLLM_retry_policy Script.play Script.rejectingModel tt "prompt")
                 Script.badRequest); vm_compute; reflexivity.
Defined.

End LlmRetry.

(** ** C2: deposit and retry after an allowance failure *)

Module DepositRecovery.

Import Trading.

(** C2 as stated fails: the order is rejected for lack of allowance and the
    deposit is refused; there is then no wait and no second [executeTrade]. *)
Lemma handleTrade_no_retry_when_deposit_fails :
  let r := exec Script.play (handleTrade Script.decision)
                (Script.trading Script.jan15 0) Script.depositFails in
  Js.includes "order rejected: not enough balance / allowance" BALANCE_SIGNATURE = true
  /\ trace r = [entry (CheckBalance 50) (Js.Returned Script.funded);
                entry (ExecuteTrade Script.decision) (Js.Returned Script.shortOfAllowance);
                entry (HandleL2Deposit 50) (Js.Returned false)]
  /\ Calls.waits (trace r) = []
  /\ length (Calls.executions (trace r)) = 1%nat.
Proof.
  vm_compute. repeat split; reflexivity.
Qed.

(** C2, amended.  When the first [executeTrade] of a decision returns a
    failure whose error contains the allowance signature, [handleTrade]
    asks for exactly one deposit, of the decision's size.  If the deposit
    returns true, it waits 5 s and calls [executeTrade] exactly once more;
    whatever that retry answers, no further deposit, wait or execution
    follows, and when the retry returns a failure the method returns
    normally.  If the deposit does not return true, nothing follows it: no
    wait and no retry. *)
Theorem handleTrade_deposit_recovery {W : Type} (env : Prog.Env W) (w : W) (s : State)
        (d : Decision.t) (r1 : TradeResult) (err : string) :
  let r := exec env (handleTrade d) s w in
  head (Calls.executions (trace r)) = Some (d, Js.Returned r1) ->
  success r1 = false ->
  error r1 = Some err ->
  Js.includes err BALANCE_SIGNATURE = true ->
  exists b dep,
    Calls.deposits (trace r) = [(Decision.size d, dep)] /\
    match dep with
    | Js.Returned true =>
        exists r2 rest,
          trace r = [entry (CheckBalance (Decision.size d)) (Js.Returned b);
                     entry (ExecuteTrade d) (Js.Returned r1);
                     entry (HandleL2Deposit (Decision.size d)) (Js.Returned true);
                     entry (SetTimeout 5000) tt;
                     entry (ExecuteTrade d) r2] ++ rest
          /\ Calls.executions rest = [] /\ Calls.deposits rest = []
          /\ Calls.waits rest = []
          /\ (forall t2, r2 = Js.Returned t2 -> success t2 = false ->
                         rest = [] /\ outcome r = Js.Returned tt)
    | _ =>
        trace r = [entry (CheckBalance (Decision.size d)) (Js.Returned b);
                   entry (ExecuteTrade d) (Js.Returned r1);
                   entry (HandleL2Deposit (Decision.size d)) dep]
    end.
Proof.
  intros r Hhd Hfail Herr Hsig. subst r. revert Hhd.
  change (runs env (handleTrade d) s w
            (fun o _ tr _ =>
               head (Calls.executions tr) = Some (d, Js.Returned r1) ->
               exists b dep,
                 Calls.deposits tr = [(Decision.size d, dep)] /\
                 match dep with
                 | Js.Returned true =>
                     exists r2 rest,
                       tr = [entry (CheckBalance (Decision.size d)) (Js.Returned b);
                             entry (ExecuteTrade d) (Js.Returned r1);
                             entry (HandleL2Deposit (Decision.size d)) (Js.Returned true);
                             entry (SetTimeout 5000) tt;
                             entry (ExecuteTrade d) r2] ++ rest
                       /\ Calls.executions rest = [] /\ Calls.deposits rest = []
                       /\ Calls.waits rest = []
                       /\ (forall t2, r2 = Js.Returned t2 -> success t2 = false ->
                                      rest = [] /\ o = Js.Returned tt)
                 | _ =>
                     tr = [entry (CheckBalance (Decision.size d)) (Js.Returned b);
                           entry (ExecuteTrade d) (Js.Returned r1);
                           entry (HandleL2Deposit (Decision.size d)) dep]
                 end)).
  unfold handleTrade, tradeDone.
  Hoare.mauto.
  all: cbn [app Calls.executions Calls.execution Calls.deposits Calls.deposit
                omap list_omap head].
  all: intros Hhd; try discriminate Hhd.
  all: injection Hhd as Hhd; subst.
  all: try congruence.
  all: repeat match goal with
         | |- context [(?f (SetTimeout ?n) ?x).1] => destruct (f (SetTimeout n) x).1
         end.
  all: eexists _, _; (split; [reflexivity |]); cbv beta iota.
  all: try reflexivity.
  all: eexists _, _; (split; [reflexivity |]).
  all: repeat split; try reflexivity.
  all: try match goal with
         | H : Js.Returned _ = Js.Returned _ |- _ => injection H as H; subst
         end.
  all: try discriminate; congruence.
Qed.

(** The theorem at work: the deposit goes through and the retry is rejected
    again; there is one deposit and one retry. *)
Lemma handleTrade_deposit_recovery_witness :
  let r := exec Script.play (handleTrade Script.decision)
                (Script.trading Script.jan15 0) Script.depositWorks in
  head (Calls.executions (trace r))
    = Some (Script.decision, Js.Returned Script.shortOfAllowance)
  /\ exists dep,
      Calls.deposits (trace r) = [(Decision.size Script.decision, dep)]
      /\ dep = Js.Returned true
      /\ length (Calls.executions (trace r)) = 2%nat.
Proof.
  split; [vm_compute; reflexivity |].
  destruct (handleTrade_deposit_recovery Script.play Script.depositWorks
              (Script.trading Script.jan15 0) Script.decision Script.shortOfAllowance
              "order rejected: not enough balance / allowance"
              eq_refl eq_refl eq_refl eq_refl) as (b & dep & Hdep & Hshape).
  exists dep. split; [exact Hdep |].
  assert (E : dep = Js.Returned true) by (vm_compute in Hdep; congruence).
  split; [exact E |]. subst dep.
  destruct Hshape as (r2 & rest & -> & Hex & _).
  cbn [app Calls.executions Calls.execution omap list_omap].
  fold (Calls.executions rest). rewrite Hex. reflexivity.
Defined.

End DepositRecovery.

(** ** C9: de-duplication by title in [fetchForArbitrage] *)

Module Dedup.

Import News.

Lemma firstOccurrenceWins_cons (combined : list Article.t) (a : Article.t)
      (rest : list Article.t) :
  Props.firstOccurrenceWins combined (a :: rest) =
    Props.firstOccurrenceWins
      (if decide (Article.title a ∈ map Article.title combined)
       then combined else combined ++ [a]) rest.
Proof. reflexivity. Qed.

Lemma pushUnseen_spec (seen : gset string) (combined articles : list Article.t) :
  seen = list_to_set (map Article.title combined) ->
  pushUnseen seen combined articles = Props.firstOccurrenceWins combined articles.
Proof.
  revert seen combined.
  induction articles as [| a rest IH]; intros seen combined Hseen.
  - reflexivity.
  - rewrite firstOccurrenceWins_cons. cbn [pushUnseen].
    assert (Hiff : Article.title a ∈ seen <-> Article.title a ∈ map Article.title combined).
    { subst seen. rewrite elem_of_list_to_set. reflexivity. }
    destruct (decide (Article.title a ∈ seen)) as [Hin | Hin];
      destruct (decide (Article.title a ∈ map Article.title combined)) as [Hin' | Hin'];
      try tauto.
    + apply IH, Hseen.
    + apply IH. subst seen. rewrite map_app, list_to_set_app_L.
      cbn [map list_to_set foldr]. rewrite (right_id_L ∅ (∪)).
      apply (comm_L (∪)).
Qed.

Lemma dedupInto_spec (headlines articles : list Article.t) :
  dedupInto headlines articles = Props.firstOccurrenceWins headlines articles.
Proof. apply pushUnseen_spec; reflexivity. Qed.

(** What the combined list is made of. *)
Lemma firstOccurrenceWins_shape (headlines articles : list Article.t) :
  exists kept,
    Props.firstOccurrenceWins headlines articles = headlines ++ kept
    /\ sublist kept articles
    /\ NoDup (map Article.title kept)
    /\ (forall a, a ∈ kept -> Article.title a ∉ map Article.title headlines)
    /\ (forall a, a ∈ articles -> Article.title a ∈ map Article.title (headlines ++ kept)).
Proof.
  revert headlines.
  induction articles as [| a rest IH]; intros headlines.
  - exists []. rewrite app_nil_r. repeat split.
    + constructor.
    + constructor.
    + intros a Ha. inversion Ha.
    + intros a Ha. inversion Ha.
  - rewrite firstOccurrenceWins_cons.
    destruct (decide (Article.title a ∈ map Article.title headlines)) as [Hin | Hin].
    + destruct (IH headlines) as (kept & E & Hsub & Hnd & Hfresh & Hall).
      exists kept. repeat split; try assumption.
      * apply sublist_cons, Hsub.
      * intros b Hb. apply elem_of_cons in Hb as [-> | Hb]; [| apply Hall, Hb].
        rewrite map_app. apply elem_of_app. left; exact Hin.
    + destruct (IH (headlines ++ [a])) as (kept & E & Hsub & Hnd & Hfresh & Hall).
      exists (a :: kept). rewrite E, <- app_assoc. simpl. repeat split.
      * apply sublist_skip, Hsub.
      * constructor; [| exact Hnd].
        intros Hk. apply list_elem_of_fmap in Hk as (b & Eb & Hb).
        apply (Hfresh b Hb). rewrite map_app, <- Eb. apply elem_of_app. right. simpl. left.
      * intros b Hb. apply elem_of_cons in Hb as [-> | Hb]; [exact Hin |].
        intros Hh. apply (Hfresh b Hb). rewrite map_app. apply elem_of_app. left; exact Hh.
      * intros b Hb. apply elem_of_cons in Hb as [-> | Hb].
        -- rewrite map_app. apply elem_of_app. right. simpl. left.
        -- specialize (Hall b Hb). rewrite <- app_assoc in Hall. exact Hall.
Qed.

(** The example of the specification: headlines [A, B] and breaking results
    [B, C] give [A, B, C]. *)
Example dedupInto_A_B_C :
  dedupInto [Script.articleA; Script.articleB] [Script.articleB; Script.articleC]
  = [Script.articleA; Script.articleB; Script.articleC].
Proof. vm_compute. reflexivity. Qed.

End Dedup.

(** ** The news service, method by method *)

Module NewsFacts.

Import News.

Lemma runs_checkDailyReset {W : Type} (env : Prog.Env W) (s : State) (w : W)
      (Q : Js.Res unit -> State -> Trace -> W -> Prop) :
  Q (Js.Returned tt) (Props.afterDailyCheck (env NewDate w).1 s)
    [entry NewDate (env NewDate w).1] (env NewDate w).2 ->
  runs env checkDailyReset s w Q.
Proof.
  intros H. unfold checkDailyReset. Hoare.msteps.
  unfold Props.afterDailyCheck in H.
  destruct (String.eqb _ _); cbn [negb]; Hoare.msteps; exact H.
Qed.

Lemma runs_canMakeRequest {W : Type} (env : Prog.Env W) (s : State) (w : W)
      (Q : Js.Res bool -> State -> Trace -> W -> Prop) :
  (let s1 := Props.afterDailyCheck (env NewDate w).1 s in
   Q (Js.Returned (negb (MAX_DAILY_REQUESTS <=? dailyRequestCount s1))) s1
     [entry NewDate (env NewDate w).1] (env NewDate w).2) ->
  runs env canMakeRequest s w Q.
Proof.
  intros H. unfold canMakeRequest.
  apply Hoare.runs_bind, runs_checkDailyReset. cbv beta iota.
  Hoare.msteps. cbv zeta in H.
  destruct (MAX_DAILY_REQUESTS <=? _); Hoare.msteps; exact H.
Qed.

(** The daily check leaves everything but the counter and the reset date. *)
Lemma afterDailyCheck_frame (now : Calendar.Date) (s : State) :
  let s1 := Props.afterDailyCheck now s in
  headlineCache s1 = headlineCache s /\ searchCache s1 = searchCache s
  /\ activeApiKeys s1 = activeApiKeys s /\ searchesThisCycle s1 = searchesThisCycle s
  /\ (dailyRequestCount s1 = dailyRequestCount s \/ dailyRequestCount s1 = 0).
Proof.
  unfold Props.afterDailyCheck. destruct (String.eqb _ _); simpl; auto 10.
Qed.

Ltac nstep :=
  first [ apply runs_canMakeRequest; cbv beta iota zeta delta [negb]
        | Hoare.mstep
        | Hoare.mcase ].

(** Name the fields after each daily check, keeping what is known of them. *)
Ltac name_checks :=
  repeat match goal with
    | |- context [Props.afterDailyCheck ?n ?s] =>
        let H := fresh "Hcheck" in
        pose proof (afterDailyCheck_frame n s) as H; cbv zeta in H;
        destruct H as (? & ? & ? & ? & ?);
        generalize dependent (Props.afterDailyCheck n s); intros
    end.

(** Decide the budget tests met on the way. *)
Ltac budget :=
  unfold MAX_DAILY_REQUESTS in *;
  repeat match goal with
    | H : context [?a <=? ?b] |- _ => destruct (Z.leb_spec a b); cbn [negb] in H
    | H : true = false |- _ => discriminate H
    | H : false = true |- _ => discriminate H
    end.

Ltac trace_simpl :=
  cbn [app Calls.clockReadings Calls.clockReading Calls.http Calls.httpCall calledEvent
       Calls.backend Calls.backendCall omap list_omap head].

Section WithConfig.

Variable config : NewsConfig.

(** [fetchHeadlines] always returns; it leaves the API keys and the cycle
    counter alone.  With a key configured and at most 93 requests spent,
    it spends at most one more and fetches the headlines once, unless a
    cache younger than 30 minutes is at hand. *)
Lemma fetchHeadlines_spec {W : Type} (env : Prog.Env W) (s : State) (w : W) :
  runs env (fetchHeadlines config) s w
    (fun o s1 tr _ =>
       (exists l, o = Js.Returned l)
       /\ activeApiKeys s1 = activeApiKeys s
       /\ searchesThisCycle s1 = searchesThisCycle s
       /\ Calls.backend tr = []
       /\ (forall key,
             activeApiKeys s !! "NewsAPI"%string = Some key ->
             dailyRequestCount s <= 93 ->
             dailyRequestCount s1 <= 94
             /\ match headlineCache s with
                | None => Calls.http tr = [HttpTopHeadlines key]
                | Some (_, timestamp) =>
                    exists now,
                      head (Calls.clockReadings tr) = Some now
                      /\ Calls.http tr =
                           if now - timestamp <? HEADLINE_CACHE_TTL then []
                           else [HttpTopHeadlines key]
                end)).
Proof.
  unfold fetchHeadlines, trackRequest.
  repeat nstep.
  all: name_checks.
  all: (split; [eauto |]); (split; [simpl; congruence |]); (split; [simpl; congruence |]).
  all: (split; [reflexivity |]).
  all: intros key Hkey Hbudget; try discriminate Hkey.
  all: injection Hkey as ->.
  all: simpl dailyRequestCount; budget; try lia.
  all: (split; [lia |]).
  all: trace_simpl.
  all: try (eexists; split; [reflexivity |]).
  all: try rewrite Heqb; reflexivity.
Qed.

  (** [fetchForArbitrage], in full: it always returns and leaves the API keys
    and the cycle counter alone; with a non-empty key and at most 93
    requests spent it issues the breaking search once, after the headline
    fetch if there is one; its result is the headlines, merged with the
    articles of the search when the search succeeded. *)
Lemma fetchForArbitrage_spec {W : Type} (env : Prog.Env W) (s : State) (w : W) :
  runs env (fetchForArbitrage config) s w
    (fun o s1 tr _ =>
       (exists l, o = Js.Returned l)
       /\ activeApiKeys s1 = activeApiKeys s
       /\ searchesThisCycle s1 = searchesThisCycle s
       /\ Calls.backend tr = []
       /\ (forall key,
             activeApiKeys s !! "NewsAPI"%string = Some key ->
             key <> EmptyString ->
             dailyRequestCount s <= 93 ->
             exists t,
               t ∈ Calls.clockReadings tr
               /\ match headlineCache s with
                  | None =>
                      Calls.http tr = [HttpTopHeadlines key; Props.breakingSearch key t]
                  | Some (_, timestamp) =>
                      exists now,
                        head (Calls.clockReadings tr) = Some now
                        /\ Calls.http tr =
                             if now - timestamp <? HEADLINE_CACHE_TTL
                             then [Props.breakingSearch key t]
                             else [HttpTopHeadlines key; Props.breakingSearch key t]
                  end)
       /\ (exists headlines,
             outcome (exec env (fetchHeadlines config) s w) = Js.Returned headlines
             /\ o = Js.Returned
                      match last tr ≫= Calls.searchAnswer with
                      | Some raws => dedupInto headlines (ingest config false raws)
                      | None => headlines
                      end)).
Proof.
  unfold fetchForArbitrage.
  apply Hoare.runs_bind.
  apply (Hoare.runs_known env _ _ _ _ _ (fetchHeadlines_spec env s w)).
  intros o1 s1 tr1 w1 Hrun ((headlines & ->) & Hkeys & Hcycle & Hquiet & Hcalls).
  rewrite Hrun. cbn [outcome].
  unfold trackRequest.
  repeat nstep.
  all: name_checks.
  all: repeat rewrite app_nil_r.
  all: (split; [eauto |]); (split; [simpl; congruence |]); (split; [simpl; congruence |]).
  all: (split; [unfold Calls.backend in *; rewrite omap_app, Hquiet; reflexivity |]).
  all: split.
  (* the result *)
  all: try (exists headlines; split; [reflexivity |]; rewrite last_app;
            cbn [last app mbind option_bind Calls.searchAnswer]; reflexivity).
  (* the calls *)
  all: intros key Hkey Hne Hbudget; destruct (Hcalls key Hkey Hbudget) as (Hcount & Hhttp).
  all: budget; try lia.
  all: try (simpl in Heqo; congruence).
  all: assert (key = String a s2) as -> by (simpl in Heqo; congruence).
  all: exists (env DateNow (env NewDate w1).2).1.
  all: unfold Calls.clockReadings, Calls.http in *; rewrite !omap_app.
  all: cbn [app omap list_omap Calls.clockReading Calls.httpCall calledEvent].
  all: (split; [apply elem_of_app; right; apply list_elem_of_here |]).
  all: unfold Props.breakingSearch.
  all: destruct (headlineCache s) as [[cached timestamp] |];
       [destruct Hhttp as (now & Hhead & Hhttp); exists now; split |].
  all: try (destruct (omap Calls.clockReading tr1); [discriminate Hhead | exact Hhead]).
  all: rewrite Hhttp; try destruct (now - timestamp <? HEADLINE_CACHE_TTL); reflexivity.
Qed.

(** [fetchHeadlines] and [fetchForArbitrage] read the clock and call the
    news API, and nothing else. *)
Lemma fetchHeadlines_calls {W : Type} (env : Prog.Env W) (s : State) (w : W) :
  runs env (fetchHeadlines config) s w
    (fun o _ tr _ => (exists l, o = Js.Returned l) /\ Forall Conditions.clockOrNews tr).
Proof.
  unfold fetchHeadlines, trackRequest.
  repeat nstep.
  all: split; [eauto | repeat constructor].
Qed.

Lemma fetchForArbitrage_calls_only {W : Type} (env : Prog.Env W) (s : State) (w : W) :
  runs env (fetchForArbitrage config) s w
    (fun _ _ tr _ => Forall Conditions.clockOrNews tr).
Proof.
  unfold fetchForArbitrage.
  apply Hoare.runs_bind.
  eapply Hoare.runs_mono; [apply fetchHeadlines_calls |].
  intros o1 s1 tr1 w1 ((headlines & ->) & Hq).
  unfold trackRequest.
  repeat nstep.
  all: apply Forall_app; split; [exact Hq | repeat constructor].
Qed.

End WithConfig.

End NewsFacts.

(** ** C7: the API calls of [fetchForArbitrage] *)

Module ArbitrageCalls.

Import News.




End ArbitrageCalls.

(** ** C9: the combined list of [fetchForArbitrage] *)

Module ArbitrageResult.

Import News.

(** The run of the specification's example: the API answers headlines
    [A, B] and breaking articles [B, C]; the result carries the titles
    [A, B, C]. *)
Example fetchForArbitrage_A_B_C :
  let r := exec Script.play (fetchForArbitrage Script.newsConfig)
                (Script.news Script.jan15 0) Script.newsDay in
  option_map (map Article.title)
             (match outcome r with Js.Returned l => Some l | Js.Threw _ => None end)
  = Some ["A"; "B"; "C"]%string.
Proof. vm_compute. reflexivity. Qed.

(** With a non-empty key and two requests left in the daily budget, the
    search of [fetchForArbitrage] is the last call it makes. *)
Lemma fetchForArbitrage_search_last {W : Type} (config : NewsConfig) (env : Prog.Env W)
      (w : W) (s : State) (key : string) :
  activeApiKeys s !! "NewsAPI"%string = Some key ->
  key <> EmptyString ->
  dailyRequestCount s <= 93 ->
  runs env (fetchForArbitrage config) s w
    (fun _ _ tr _ =>
       exists t answer, last tr = Some (entry (Props.breakingSearch key t) answer)).
Proof.
  intros Hkey Hne Hbudget.
  unfold fetchForArbitrage.
  apply Hoare.runs_bind.
  eapply Hoare.runs_mono; [apply NewsFacts.fetchHeadlines_spec |].
  intros o1 s1 tr1 w1 ((headlines & ->) & Hkeys & _ & _ & Hcalls).
  destruct (Hcalls key Hkey Hbudget) as (Hcount & _).
  unfold trackRequest.
  repeat NewsFacts.nstep.
  all: NewsFacts.name_checks.
  all: repeat rewrite app_nil_r.
  all: NewsFacts.budget; try lia.
  all: pose proof (NewsFacts.afterDailyCheck_frame (env NewDate w1).1 s1) as Hframe;
    cbv zeta in Hframe; destruct Hframe as (_ & _ & Hk & _ & Hd).
  all: try (exfalso; destruct Hd; lia).
  all: cbn [activeApiKeys set_dailyRequestCount] in Heqo;
    rewrite Hk, Hkeys, Hkey in Heqo.
  all: try congruence.
  all: injection Heqo as ->.
  all: rewrite !app_assoc, last_snoc; unfold Props.breakingSearch; eauto.
Qed.

(** C9.  [fetchForArbitrage] returns the combined list of the
    specification: the headlines, in order, followed by the breaking
    articles, in order, whose title does not already occur in the list
    combined so far.  The loop computes that list for all inputs; the
    method returns it whenever its search brings articles back, and the
    headlines alone otherwise; with a key and two requests left in the
    budget the search is made, so that the answers [A, B] and [B, C] of the
    API give [A, B, C]. *)
Theorem fetchForArbitrage_first_occurrence_wins {W : Type} (config : NewsConfig)
        (env : Prog.Env W) (w : W) (s : State) :
  (forall headlines articles,
      dedupInto headlines articles = Props.firstOccurrenceWins headlines articles
      /\ exists kept,
          dedupInto headlines articles = headlines ++ kept
          /\ sublist kept articles
          /\ NoDup (map Article.title kept)
          /\ (forall a, a ∈ kept -> Article.title a ∉ map Article.title headlines)
          /\ (forall a, a ∈ articles ->
                        Article.title a ∈ map Article.title (headlines ++ kept)))
  /\ dedupInto [Script.articleA; Script.articleB] [Script.articleB; Script.articleC]
     = [Script.articleA; Script.articleB; Script.articleC]
  /\ (let r := exec env (fetchForArbitrage config) s w in
      exists headlines,
        outcome (exec env (fetchHeadlines config) s w) = Js.Returned headlines
        /\ outcome r = Js.Returned
                         match last (trace r) ≫= Calls.searchAnswer with
                         | Some raws =>
                             Props.firstOccurrenceWins headlines (ingest config false raws)
                         | None => headlines
                         end)
  /\ (forall key,
        activeApiKeys s !! "NewsAPI"%string = Some key ->
        key <> EmptyString ->
        dailyRequestCount s <= 93 ->
        let r := exec env (fetchForArbitrage config) s w in
        exists t answer headlines,
          last (trace r) = Some (entry (Props.breakingSearch key t) answer)
          /\ outcome (exec env (fetchHeadlines config) s w) = Js.Returned headlines
          /\ outcome r = Js.Returned
                           match answer with
                           | Js.Returned raws =>
                               Props.firstOccurrenceWins headlines
                                                         (ingest config false raws)
                           | Js.Threw _ => headlines
                           end)
  /\ (let r := exec Script.play (fetchForArbitrage Script.newsConfig)
                    (Script.news Script.jan15 0) Script.newsDay in
      Calls.headlinesAnswers (trace r) = [Js.Returned [Script.raw "A"; Script.raw "B"]]
      /\ Calls.searchAnswers (trace r) = [Js.Returned [Script.raw "B"; Script.raw "C"]]
      /\ option_map (map Article.title)
                    (match outcome r with Js.Returned l => Some l | Js.Threw _ => None end)
         = Some ["A"; "B"; "C"]%string).
Proof.
  assert (Hres : let r := exec env (fetchForArbitrage config) s w in
                 exists headlines,
                   outcome (exec env (fetchHeadlines config) s w) = Js.Returned headlines
                   /\ outcome r = Js.Returned
                                    match last (trace r) ≫= Calls.searchAnswer with
                                    | Some raws =>
                                        Props.firstOccurrenceWins
                                          headlines (ingest config false raws)
                                    | None => headlines
                                    end).
  { destruct (NewsFacts.fetchForArbitrage_spec config env s w)
      as (_ & _ & _ & _ & _ & headlines & Hh & Hres).
    exists headlines. split; [exact Hh |].
    cbv zeta. rewrite Hres.
    destruct (last _ ≫= Calls.searchAnswer); [rewrite Dedup.dedupInto_spec |]; reflexivity. }
  split; [| split; [| split; [| split]]].
  - intros headlines articles. split; [apply Dedup.dedupInto_spec |].
    rewrite Dedup.dedupInto_spec. apply Dedup.firstOccurrenceWins_shape.
  - apply Dedup.dedupInto_A_B_C.
  - exact Hres.
  - intros key Hkey Hne Hbudget. cbv zeta in Hres |- *.
    destruct (fetchForArbitrage_search_last config env w s key Hkey Hne Hbudget)
      as (t & answer & Hlast).
    destruct Hres as (headlines & Hh & Hout).
    exists t, answer, headlines. split; [exact Hlast |]. split; [exact Hh |].
    rewrite Hout, Hlast. cbn [mbind option_bind Calls.searchAnswer Props.breakingSearch].
    destruct answer; reflexivity.
  - vm_compute. repeat split; reflexivity.
Qed.

(** The theorem at work on the example of the specification: the API
    answers the headlines [A, B] and the breaking articles [B, C]; the
    search is the last call, and the result is the combined list
    [A, B, C]. *)
Lemma fetchForArbitrage_first_occurrence_wins_witness :
  let r := exec Script.play (fetchForArbitrage Script.newsConfig)
                (Script.news Script.jan15 0) Script.newsDay in
  exists t articles,
    last (trace r)
    = Some (entry (Props.breakingSearch "key" t)
                  (Js.Returned [Script.raw "B"; Script.raw "C"]))
    /\ outcome r = Js.Returned articles
    /\ map Article.title articles = ["A"; "B"; "C"]%string.
Proof.
  destruct (proj1 (proj2 (proj2 (proj2
              (fetchForArbitrage_first_occurrence_wins Script.newsConfig Script.play
                 Script.newsDay (Script.news Script.jan15 0)))))
              "key"%string) as (t & answer & headlines & Hlast & Hh & Hout).
  - vm_compute. reflexivity.
  - discriminate.
  - vm_compute. discriminate.
  - exists t. eexists.
    assert (Ha : [answer] = [Js.Returned [Script.raw "B"; Script.raw "C"]]).
    { change [answer]
        with (match Some (entry (Props.breakingSearch "key" t) answer) with
              | Some x => Calls.searchAnswers [x]
              | None => []
              end).
      rewrite <- Hlast. vm_compute. reflexivity. }
    injection Ha as ->.
    assert (Hh' : Js.Returned headlines
                  = Js.Returned (ingest Script.newsConfig true [Script.raw "A"; Script.raw "B"])).
    { rewrite <- Hh. vm_compute. reflexivity. }
    injection Hh' as ->.
    split; [exact Hlast |]. split; [exact Hout |].
    vm_compute. reflexivity.
Defined.

End ArbitrageResult.

(** ** C8: local matching of articles against a market *)

Module Relevance.

Import News.

(** *** The sort *)

Lemma insertByScore_perm (x : Article.t) (l : list Article.t) :
  insertByScore x l ≡ₚ x :: l.
Proof.
  induction l as [| y l IH]; simpl.
  - reflexivity.
  - destruct (negb (Qle_bool (scoreOrZero y) (scoreOrZero x))).
    + rewrite IH. apply Permutation_swap.
    + reflexivity.
Qed.

Lemma sortByScore_perm (l : list Article.t) : sortByScore l ≡ₚ l.
Proof.
  induction l as [| x l IH]; simpl.
  - reflexivity.
  - rewrite insertByScore_perm, IH. reflexivity.
Qed.





(** *** The score *)

(** Turn the tests on rationals met in the context into inequalities. *)
Ltac qtests :=
  repeat match goal with
    | H : Qle_bool _ _ = true |- _ => apply Qle_bool_iff in H
    | H : Qle_bool ?a ?b = false |- _ =>
        assert (b < a)%Q
          by (apply Qnot_le_lt; intros Hle; apply Qle_bool_iff in Hle; congruence);
        clear H
    end.

Lemma Qle_bool_compat (a b c : Q) : (b == c)%Q -> Qle_bool a b = Qle_bool a c.
Proof.
  intros E. destruct (Qle_bool a b) eqn:Hb; destruct (Qle_bool a c) eqn:Hc;
    try reflexivity; qtests; exfalso; lra.
Qed.

Section WithExtractor.

Variable ExtractedKeywords : Type.
Variable calculateRelevanceScore : string -> ExtractedKeywords -> Q.

Lemma fold_terms (text : string) (terms : list string) (acc : Q) :
  (fold_left (fun score term => if Js.includes text term then score + (3 # 10) else score)
             terms acc
   == acc + (3 # 10)
            * inject_Z (Z.of_nat (length (filter (fun term => Js.includes text term = true)
                                                 terms))))%Q.
Proof.
  revert acc. induction terms as [| t terms IH]; intros acc.
  - simpl. ring.
  - cbn [fold_left]. rewrite IH, filter_cons.
    destruct (decide (Js.includes text t = true)) as [D | D].
    + rewrite D. cbn [length].
      rewrite Nat2Z.inj_succ, <- Z.add_1_r, inject_Z_plus. ring.
    + apply not_true_is_false in D. rewrite D. reflexivity.
Qed.

Lemma rawScore_eq (keywords : ExtractedKeywords) (marketTitle : string) (a : Article.t) :
  (rawScore ExtractedKeywords calculateRelevanceScore keywords (keyTerms marketTitle) a
   == 2 * calculateRelevanceScore (articleText a) keywords
      + (3 # 10) * inject_Z (Z.of_nat (Props.matchedTerms marketTitle a)))%Q.
Proof.
  unfold rawScore, Props.matchedTerms. rewrite fold_terms. ring.
Qed.

(** The score the code attaches, against the score of the specification:
    they fall on the same side of 0.3, and agree from 0.3 on. *)
Lemma capped_score (raw spec : Q) :
  (raw == spec)%Q ->
  Qle_bool (3 # 10) (Js.Math_min raw 1) = Qle_bool (3 # 10) (Props.clamp01 spec)
  /\ ((3 # 10 <= Js.Math_min raw 1 \/ 0 <= raw)%Q ->
      (Js.Math_min raw 1 == Props.clamp01 spec)%Q)
  /\ (Js.Math_min raw 1 <= 1)%Q.
Proof.
  intros E. unfold Js.Math_min, Props.clamp01.
  destruct (Qle_bool raw 1) eqn:H1; destruct (Qle_bool spec 0) eqn:H2;
    destruct (Qle_bool 1 spec) eqn:H3; qtests.
  all: split; [| split; [intros [Hge | Hge] |]]; try lra.
  all: try (apply Qle_bool_compat; lra).
  all: try (exfalso; lra).
  all: destruct (Qle_bool (3 # 10) raw) eqn:H4; destruct (Qle_bool (3 # 10) 0) eqn:H5;
    try reflexivity; qtests; exfalso; lra.
Qed.

Lemma scored_score (keywords : ExtractedKeywords) (marketTitle : string)
      (a : Article.t) :
  let attach := scored ExtractedKeywords calculateRelevanceScore keywords
                       (keyTerms marketTitle) in
  let score := Props.relevance calculateRelevanceScore keywords marketTitle in
  exists q,
    attach a = Article.withScore a q
    /\ Qle_bool (3 # 10) q = Qle_bool (3 # 10) (score a)
    /\ ((3 # 10 <= q \/ 0 <= calculateRelevanceScore (articleText a) keywords)%Q ->
        (q == score a)%Q)
    /\ (q <= 1)%Q.
Proof.
  intros attach score. eexists. split; [reflexivity |].
  pose proof (rawScore_eq keywords marketTitle a) as Eraw.
  destruct (capped_score _ _ Eraw) as (Hside & Hval & Hle).
  split; [exact Hside |]. split; [| exact Hle].
  intros [Hge | Hpos]; apply Hval; [left; exact Hge | right].
  rewrite Eraw.
  assert (0 <= inject_Z (Z.of_nat (Props.matchedTerms marketTitle a)))%Q.
  { change 0%Q with (inject_Z 0). rewrite <- Zle_Qle. lia. }
  apply Qle_trans with (0 + 0)%Q; [lra |].
  apply Qplus_le_compat; [lra |]. apply Qmult_le_0_compat; [lra | assumption].
Qed.

Lemma survivors_eq (keywords : ExtractedKeywords) (marketTitle : string)
      (articles : list Article.t) :
  let attach := scored ExtractedKeywords calculateRelevanceScore keywords
                       (keyTerms marketTitle) in
  let score := Props.relevance calculateRelevanceScore keywords marketTitle in
  filter (fun a => Qle_bool (3 # 10) (scoreOrZero a) = true) (map attach articles)
  = map attach (filter (fun a => Qle_bool (3 # 10) (score a) = true) articles).
Proof.
  intros attach score.
  induction articles as [| a articles IH]; [reflexivity |].
  cbn [map]. rewrite !filter_cons, IH.
  destruct (scored_score keywords marketTitle a) as (q & Ea & Hside & _).
  fold attach in Ea. fold score in Hside.
  assert (Hq : scoreOrZero (attach a) = q) by (rewrite Ea; reflexivity).
  rewrite Hq.
  destruct (decide (Qle_bool (3 # 10) q = true)) as [D | D];
    destruct (decide (Qle_bool (3 # 10) (score a) = true)) as [D' | D'];
    try reflexivity; congruence.
Qed.

(** Every article returned scores between 0.3 and 1. *)
Lemma matched_scores (articles : list Article.t) (keywords : ExtractedKeywords)
      (marketTitle : string) :
  Forall (fun x => (3 # 10 <= scoreOrZero x <= 1)%Q)
         (matchArticlesLocally ExtractedKeywords calculateRelevanceScore
                               articles keywords marketTitle).
Proof.
  unfold matchArticlesLocally. rewrite survivors_eq.
  apply Forall_forall. intros x Hx.
  apply (fun H => elem_of_sublist _ _ x H (sublist_take _ _)) in Hx.
  rewrite sortByScore_perm in Hx.
  apply list_elem_of_fmap in Hx as (a & -> & Ha).
  apply list_elem_of_filter in Ha as [Ha _].
  destruct (scored_score keywords marketTitle a) as (q & Ea & Hside & _ & Hle).
  rewrite Ea. cbn.
  rewrite <- Hside in Ha. apply Qle_bool_iff in Ha. split; assumption.
Qed.


End WithExtractor.

(** The key terms of a market title: stop fragments are cut out wherever
    they occur, also inside words, and tokens of at most three characters
    are dropped. *)
Example keyTerms_bitcoin :
  keyTerms "Will Bitcoin reach 100k in 2026?" = ["bitcoin"; "rech"; "100k"]%string.
Proof. vm_compute. reflexivity. Qed.

(** A term that occurs twice in the title is a key term twice, and counts
    twice. *)
Example keyTerms_repeated :
  keyTerms "Bitcoin or bitcoin" = ["bitcoin"; "bitcoin"]%string
  /\ Props.matchedTerms "Bitcoin or bitcoin" Script.bitcoinUp = 2%nat.
Proof. vm_compute. split; reflexivity. Qed.

(** C8 (the code departs from the claim).  The key terms are not the
    tokens of the title without its stop words: the pattern that strips the
    stop words has no word boundaries, so it also deletes [a], [no], [by],
    [the] ... inside the words that remain.  For the title of the example
    the terms are [ttck] and [isrel]; an article whose text contains
    [iran], [attack] and [israel], the three words of the title that are no
    stop words, includes no term: whatever the keyword extractor, its score
    before the cap is twice the keyword score and nothing more, where the
    claim adds 0.3 for each of the three words.  With a keyword score of 0
    the article is dropped, where the claim keeps it with 0.9.  No sum is
    rounded on this input. *)
Theorem title_words_lost_by_stop_pattern :
  let marketTitle := "Will Iran attack Israel"%string in
  let article := Article.mk "Iran attack on Israel" "Officials confirm the strike" None
                            "Wire" (Some Script.morning) (Some Neutral) (Some 1%Q) None in
  keyTerms marketTitle = ["ttck"; "isrel"]%string
  /\ Forall (fun word => Js.includes (Js.toLowerCase (articleText article)) word = true)
            ["iran"; "attack"; "israel"]%string
  /\ Forall (fun term => Js.includes (Js.toLowerCase (articleText article)) term = false)
            (keyTerms marketTitle)
  /\ (forall (ExtractedKeywords : Type)
             (calculateRelevanceScore : string -> ExtractedKeywords -> Q)
             (keywords : ExtractedKeywords),
         rawScore ExtractedKeywords calculateRelevanceScore keywords (keyTerms marketTitle)
                  article
         = (0 + calculateRelevanceScore (articleText article) keywords * 2)%Q)
  /\ (Script.wordOverlap (articleText article) [] == 0)%Q
  /\ matchArticlesLocally (list string) Script.wordOverlap [article] [] marketTitle = [].
Proof.
  cbv zeta.
  split; [vm_compute; reflexivity |].
  split; [repeat constructor |].
  split; [vm_compute; repeat constructor |].
  split; [intros; reflexivity |].
  split; vm_compute; reflexivity.
Qed.

(** A run: the article on the weather scores 0 and is dropped; the two on
    bitcoin score 1 and 0.3 and come out in that order, though they came
    in the other. *)
Example matchArticlesLocally_bitcoin :
  map (fun a => (Article.title a, option_map Qred (Article.relevanceScore a)))
      (matchArticlesLocally (list string) Script.wordOverlap
         [Script.weather; Script.bitcoinFlat; Script.bitcoinUp]
         ["record"; "surges"]%string "Will Bitcoin reach 100k in 2026?")
  = [("Bitcoin surges past 100k"%string, Some (1 # 1)%Q);
     ("Bitcoin steady"%string, Some (3 # 10)%Q)].
Proof. vm_compute. reflexivity. Qed.

End Relevance.

(** ** C10: the confidence of a news signal *)

Module Confidence.

Import News.

Lemma Math_min_le_l (x y : Q) : (Js.Math_min x y <= x)%Q.
Proof.
  unfold Js.Math_min. destruct (Qle_bool x y) eqn:E; [lra |].
  Relevance.qtests. lra.
Qed.

Lemma Math_min_glb (x y z : Q) : (z <= x)%Q -> (z <= y)%Q -> (z <= Js.Math_min x y)%Q.
Proof. intros Hx Hy. unfold Js.Math_min. destruct (Qle_bool x y); assumption. Qed.

Lemma sum_scores_nonneg (arts : list Article.t) (acc : Q) :
  Forall Props.relevanceNotNegative arts -> (0 <= acc)%Q ->
  (0 <= fold_left (fun sum a => sum + scoreOrZero a) arts acc)%Q.
Proof.
  intros H. revert acc. induction H as [| a arts Ha _ IH]; intros acc Hacc; simpl.
  - exact Hacc.
  - apply IH. unfold Props.relevanceNotNegative in Ha. unfold scoreOrZero.
    destruct (Article.relevanceScore a); lra.
Qed.

(** [buildSignal] on articles whose relevance is not negative. *)
Lemma buildSignal_confidence (marketTitle : string) (arts : list Article.t) :
  Forall Props.relevanceNotNegative arts ->
  (0 <= confidence (buildSignal marketTitle arts) <= 95 # 100)%Q.
Proof.
  intros Hpos. unfold buildSignal.
  destruct arts as [| a arts]; [simpl; lra |].
  set (l := a :: arts) in *.
  destruct (tally l) as [[positiveCount negativeCount] totalWeight].
  set (n := inject_Z (Z.of_nat (length l))).
  assert (Hn : (0 < n)%Q).
  { unfold n. change 0%Q with (inject_Z 0). rewrite <- Zlt_Qlt. subst l. simpl length. lia. }
  assert (Havg : (0 <= fold_left (fun sum a => sum + scoreOrZero a) l 0 / n)%Q).
  { apply Qle_shift_div_l; [exact Hn |]. rewrite Qmult_0_l.
    apply sum_scores_nonneg; [exact Hpos | lra]. }
  assert (Hbonus : (0 <= Js.Math_min (2 # 10) (n * (2 # 100)))%Q).
  { apply Math_min_glb; [lra |]. apply Qmult_le_0_compat; lra. }
  destruct (Qle_bool (positiveCount / totalWeight) (6 # 10)) eqn:Hp; cbn [negb];
    [destruct (Qle_bool (negativeCount / totalWeight) (6 # 10)) eqn:Hq; cbn [negb] |];
    cbn [confidence]; Relevance.qtests.
  all: split; [| apply Math_min_le_l].
  all: apply Math_min_glb; [lra |].
  all: apply Qle_trans with (0 + 0)%Q; [lra |].
  all: apply Qplus_le_compat; [| exact Hbonus].
  all: apply Qmult_le_0_compat; [lra | exact Havg].
Qed.

Lemma matched_relevance {K : Type} (overlap : string -> K -> Q) (articles : list Article.t)
      (keywords : K) (marketTitle : string) :
  Forall Props.relevanceNotNegative
         (matchArticlesLocally K overlap articles keywords marketTitle).
Proof.
  eapply Forall_impl; [apply Relevance.matched_scores |].
  intros x [Hx _]. unfold Props.relevanceNotNegative, scoreOrZero in *.
  destruct (Article.relevanceScore x); [lra | exact I].
Qed.

Section WithExtractor.

Variable config : NewsConfig.
Variable ExtractedKeywords : Type.
Variable extractKeywords : string -> option string -> ExtractedKeywords.
Variable createSearchQuery : ExtractedKeywords -> string.
Variable calculateRelevanceScore : string -> ExtractedKeywords -> Q.

Local Abbreviation getMarketSignals :=
  (getMarketSignals config ExtractedKeywords extractKeywords createSearchQuery
                    calculateRelevanceScore).

(** [getMarketSignals] always returns a signal, and its confidence lies
    between 0 and 0.95: every signal it builds is built from articles
    [matchArticlesLocally] returned. *)
Lemma getMarketSignals_confidence {W : Type} (env : Prog.Env W) (s : State) (w : W)
      (marketTitle : string) (marketRules : option string) :
  runs env (getMarketSignals marketTitle marketRules) s w
    (fun o _ _ _ =>
       exists sig, o = Js.Returned sig /\ (0 <= confidence sig <= 95 # 100)%Q).
Proof.
  unfold News.getMarketSignals, searchStep, targetedSearch, trackRequest, neutralSignal.
  repeat NewsFacts.nstep.
  all: eexists; (split; [reflexivity |]).
  all: try (cbn [confidence]; lra).
  all: try (apply buildSignal_confidence, matched_relevance).
  all: match goal with
       | H : matchArticlesLocally _ _ _ _ _ = ?l |- context [buildSignal _ ?l] =>
           rewrite <- H; apply buildSignal_confidence, matched_relevance
       end.
Qed.

(** C10.  Every signal [buildSignal] builds from articles whose relevance
    is not negative has a confidence between 0 and 0.95, and so has every
    signal [getMarketSignals] returns, whatever the caches, the budget and
    the answers of the API. *)
Theorem signal_confidence_bounds :
  (forall (marketTitle : string) (arts : list Article.t),
      Forall Props.relevanceNotNegative arts ->
      (0 <= confidence (buildSignal marketTitle arts) <= 95 # 100)%Q)
  /\ (forall (W : Type) (env : Prog.Env W) (w : W) (s : State)
             (marketTitle : string) (marketRules : option string),
         exists sig,
           outcome (exec env (getMarketSignals marketTitle marketRules) s w)
             = Js.Returned sig
           /\ (0 <= confidence sig <= 95 # 100)%Q).
Proof.
  split.
  - apply buildSignal_confidence.
  - intros W env w s marketTitle marketRules.
    apply (getMarketSignals_confidence env s w marketTitle marketRules).
Qed.

End WithExtractor.

(** The theorem at work: two articles on bitcoin, one of them upbeat. *)
Lemma signal_confidence_bounds_witness :
  Forall Props.relevanceNotNegative [Script.bitcoinUp; Script.bitcoinFlat]
  /\ (0 <= confidence (buildSignal "Bitcoin above 100k?" [Script.bitcoinUp; Script.bitcoinFlat])
       <= 95 # 100)%Q.
Proof.
  assert (H : Forall Props.relevanceNotNegative [Script.bitcoinUp; Script.bitcoinFlat]).
  { repeat constructor; vm_compute; discriminate. }
  split; [exact H |].
  exact (proj1 (signal_confidence_bounds Script.newsConfig (list string)
                  (fun _ _ => []) (fun _ => EmptyString) Script.wordOverlap)
               "Bitcoin above 100k?"%string [Script.bitcoinUp; Script.bitcoinFlat] H).
Defined.

(** The bound of [buildSignal] rests on the relevance scores: an article
    of relevance -1, which no call site passes, would give a negative
    confidence. *)
Example buildSignal_needs_relevance :
  (confidence
     (buildSignal "t" [Article.mk "a" "b" None "s" None (Some Positive) (Some (-1)%Q) None])
   == - (98 # 100))%Q.
Proof. vm_compute. reflexivity. Qed.

(** The signal of that example: upbeat weight 1 out of 1.5, confidence
    2/3 * 3/4 + 0.04. *)
Example buildSignal_bitcoin :
  let sig := buildSignal "Bitcoin above 100k?" [Script.bitcoinUp; Script.bitcoinFlat] in
  signal sig = Bullish /\ (confidence sig == 54 # 100)%Q.
Proof. vm_compute. split; reflexivity. Qed.

End Confidence.

(** ** The strategy, stage by stage *)

Module StrategyFacts.

Import Strategy.

Lemma backend_app (tr1 tr2 : Trace) :
  Calls.backend tr1 = [] -> Calls.backend tr2 = [] -> Calls.backend (tr1 ++ tr2) = [].
Proof. unfold Calls.backend. intros H1 H2. rewrite omap_app, H1, H2. reflexivity. Qed.

Lemma marketAnswers_app (tr1 tr2 : Trace) :
  Calls.marketAnswers (tr1 ++ tr2) = Calls.marketAnswers tr1 ++ Calls.marketAnswers tr2.
Proof. apply omap_app. Qed.

Lemma marketAnswers_none (tr1 tr2 : Trace) :
  Calls.marketAnswers tr1 = [] -> Calls.marketAnswers tr2 = [] ->
  Calls.marketAnswers (tr1 ++ tr2) = [].
Proof. intros H1 H2. rewrite marketAnswers_app, H1, H2. reflexivity. Qed.

(** Readings of the clock and requests to the news API are no calls to the
    markets endpoint. *)
Lemma clockOrNews_markets (tr : Trace) :
  Forall Conditions.clockOrNews tr -> Calls.marketAnswers tr = [].
Proof.
  induction 1 as [| [e r] tr He _ IH]; [reflexivity |].
  unfold Calls.marketAnswers in *. cbn [omap list_omap].
  destruct e; cbn in He; try contradiction; cbn; exact IH.
Qed.

(** [callLLM] changes no field and calls only the model and the timer. *)
Lemma callLLM_from_frame {St W : Type} (env : Prog.Env W) (prompt : string)
      (maxRetries attempt : Z) (n : nat) (s : St) (w : W) :
  runs env (callLLM_from prompt maxRetries attempt n) s w
    (fun _ s1 tr _ => s1 = s /\ Calls.backend tr = [] /\ Calls.marketAnswers tr = []).
Proof.
  revert attempt s w. induction n as [| n IH]; intros attempt s w; cbn [callLLM_from].
  - Hoare.msteps. repeat split; reflexivity.
  - Hoare.mauto; try (repeat split; reflexivity).
    all: eapply Hoare.runs_mono; [apply IH |].
    all: intros r s1 tr w1 (-> & Hq & Hm); split; [reflexivity |].
    all: split; [apply backend_app; [reflexivity | exact Hq] |].
    all: apply marketAnswers_none; [reflexivity | exact Hm].
Qed.

Lemma runs_liftRes {X W : Type} (env : Prog.Env W) (r : Js.Res X) (s : News.State) (w : W)
      (Q : Js.Res X -> News.State -> Trace -> W -> Prop) :
  Q r s [] w -> runs env (liftRes r) s w Q.
Proof. exact (fun H => H). Qed.

Ltac sstep :=
  first [ lazymatch goal with
          | |- runs _ (callLLM_from _ _ _ _) _ _ _ =>
              eapply Hoare.runs_mono;
              [apply callLLM_from_frame | intros ? ? ? ? (-> & ? & ?); cbv beta iota]
          | |- runs _ (liftRes _) _ _ _ => apply runs_liftRes; cbv beta iota
          end
        | NewsFacts.nstep ].

(** The calls of a stage that is over. *)
Ltac stage_calls :=
  repeat rewrite app_nil_r;
  repeat first [ apply backend_app | apply marketAnswers_none ];
  try reflexivity; try assumption.

Section Pipeline.

Variable cfg : NewsArbConfig.
Variable newsConfig : News.NewsConfig.
Variable Json : Type.
Variable eventPrompt : list Article.t -> string.
Variable marketPrompt : list ConfirmedEvent.t -> list Market.t -> string.
Variable matchBrackets : string -> option string.
Variable JSON_parse : string -> Js.Res (option (list Json)).
Variable asEvent : Json -> option ConfirmedEvent.t.
Variable asRawMatch : Json -> option RawMatch.
Variable parsePrice : string -> Outcome -> option Js.number.
Variable envMaxPositionSize : Js.number.

(** The news fetch returns, and calls neither the markets endpoint nor
    the backend. *)
Lemma fetchBreakingNews_stage {W : Type} (env : Prog.Env W) (s : News.State) (w : W) :
  runs env (fetchBreakingNews newsConfig) s w
    (fun o s1 tr _ => Props.stage s o s1 tr /\ Calls.marketAnswers tr = []).
Proof.
  pose proof (NewsFacts.fetchForArbitrage_calls_only newsConfig env s w) as Hq.
  pose proof (NewsFacts.fetchForArbitrage_spec newsConfig env s w) as Hspec.
  unfold fetchBreakingNews. apply Hoare.runs_tryCatch.
  unfold runs in Hq, Hspec |- *.
  destruct (exec env (News.fetchForArbitrage newsConfig) s w) as [o s1 tr w1].
  cbn [outcome fields trace world] in Hq, Hspec |- *.
  destruct Hspec as ((l & ->) & _ & Hcycle & Hquiet & _).
  split; [unfold Props.stage; eauto | apply clockOrNews_markets, Hq].
Qed.

(** The extraction throws a [RangeError], before any call, when one of
    the first 40 articles has no valid date; otherwise it returns. *)
Lemma extractConfirmedEvents_stage {W : Type} (env : Prog.Env W) (s : News.State) (w : W)
      (articles : list Article.t) :
  runs env
    (extractConfirmedEvents Json eventPrompt matchBrackets JSON_parse asEvent articles) s w
    (fun o s1 tr _ =>
       Props.quiet s s1 tr /\ Calls.marketAnswers tr = []
       /\ if forallb dated (take 40 articles) then exists x, o = Js.Returned x
          else o = Js.Threw rangeError /\ tr = [] /\ s1 = s).
Proof.
  unfold extractConfirmedEvents, callLLM, Props.quiet.
  destruct (forallb dated (take 40 articles)); cbn [negb].
  2: { Hoare.msteps. repeat split; reflexivity. }
  repeat sstep.
  all: repeat split; eauto; stage_calls.
Qed.

(** The market search throws a [TypeError] exactly when the markets
    endpoint answered with a body that cannot be mapped. *)
Lemma searchMatchingMarkets_stage {W : Type} (env : Prog.Env W) (s : News.State) (w : W)
      (events : list ConfirmedEvent.t) (limit : Z) :
  runs env
    (searchMatchingMarkets Json marketPrompt matchBrackets JSON_parse asRawMatch
                           parsePrice events limit) s w
    (fun o s1 tr _ =>
       Props.quiet s s1 tr
       /\ ((exists x, o = Js.Returned x) /\ ~ Props.unmappable tr
           \/ o = Js.Threw typeError /\ Props.unmappable tr)).
Proof.
  unfold searchMatchingMarkets, callLLM, Props.quiet, Props.unmappable.
  repeat sstep.
  all: split; [split; [reflexivity | stage_calls] |].
  all: repeat rewrite app_nil_r.
  all: rewrite ?marketAnswers_app;
    repeat match goal with H : Calls.marketAnswers _ = [] |- _ => rewrite H end;
    cbn [Calls.marketAnswers Calls.marketAnswer omap list_omap app].
  all: first [ right; split; [reflexivity | apply list_elem_of_here]
             | left; split; [eauto |];
               rewrite ?elem_of_cons, elem_of_nil; intros Hin;
               repeat (destruct Hin as [Hin | Hin]; [discriminate Hin |]);
               exact Hin ].
Qed.

  (** Step 4 keeps a match only when its market is not an open position
    and its price is below the ceiling. *)
Lemma evaluateMatches_admissible (openPositions : gmap string unit)
      (matches : list MarketMatch.t) :
  Forall (Props.admissible (maxPrice cfg) openPositions)
         (evaluateMatches cfg envMaxPositionSize openPositions matches).
Proof.
  induction matches as [| m rest IH]; cbn [evaluateMatches].
  - constructor.
  - destruct (decide (is_Some (openPositions !! MarketMatch.conditionId m))) as [Ho | Ho];
      [exact IH |].
    destruct (Js.lt (MarketMatch.currentPrice m) (Js.Num (maxPrice cfg))) eqn:Hp;
      [| exact IH].
    constructor; [| exact IH].
    split; [exact Hp |]. cbn.
    destruct (openPositions !! MarketMatch.conditionId m) eqn:E; [| reflexivity].
    exfalso. apply Ho. eauto.
Qed.

Local Abbreviation findOpportunities :=
  (findOpportunities cfg newsConfig Json eventPrompt marketPrompt matchBrackets
                     JSON_parse asEvent asRawMatch parsePrice envMaxPositionSize).

(** The pipeline, in full: what it returns is admissible; it throws a
    [RangeError] exactly when the news fetch brought an article without a
    valid date among the first 40, and a [TypeError] exactly when the
    markets endpoint answered with a body that cannot be mapped. *)
Lemma findOpportunities_spec {W : Type} (env : Prog.Env W) (s : News.State) (w : W)
      (runtime : bool) (openPositions : gmap string unit) :
  runs env (findOpportunities runtime openPositions) s w
    (fun o s1 tr _ =>
       Props.quiet s s1 tr
       /\ match o with
          | Js.Returned opps =>
              Forall (Props.admissible (maxPrice cfg) openPositions) opps
              /\ ~ Props.unmappable tr
          | Js.Threw e =>
              e = rangeError /\ ~ Props.unmappable tr
              \/ e = typeError /\ Props.unmappable tr
          end
       /\ (o = Js.Threw rangeError
           <-> runtime = true
               /\ exists articles,
                   outcome (exec env (fetchBreakingNews newsConfig) s w)
                   = Js.Returned articles
                   /\ Props.undated articles)).
Proof.
  assert (Hnil : ~ Props.unmappable []) by (intros H; inversion H).
  unfold Strategy.findOpportunities, Props.quiet.
  destruct runtime; cbn [negb].
  2: { Hoare.msteps. split; [split; reflexivity |]. split; [split; [constructor | exact Hnil] |].
       split; [discriminate | intros [H _]; discriminate H]. }
  apply Hoare.runs_bind.
  eapply Hoare.runs_known; [apply fetchBreakingNews_stage |].
  intros o1 s1 tr1 w1 Hrun (((articles & ->) & Hc1 & Hq1) & Hm1).
  rewrite Hrun. cbn [outcome].
  assert (Hno1 : forall tr, Calls.marketAnswers tr = [] -> ~ Props.unmappable (tr1 ++ tr)).
  { intros tr Htr. unfold Props.unmappable.
    rewrite marketAnswers_app, Hm1, Htr. intros H; inversion H. }
  destruct articles as [| a articles].
  { Hoare.msteps. split; [split; [exact Hc1 | stage_calls] |].
    split; [split; [constructor | apply Hno1; reflexivity] |].
    split; [discriminate |]. intros (_ & l & E & Hu). injection E as <-.
    discriminate Hu. }
  apply Hoare.runs_bind.
  eapply Hoare.runs_mono; [apply extractConfirmedEvents_stage |].
  intros o2 s2 tr2 w2 ([Hc2 Hq2] & Hm2 & Hcase).
  unfold Props.undated.
  destruct (forallb dated (take 40 (a :: articles))) eqn:Hdated.
  2: { destruct Hcase as (-> & -> & ->).
       split; [split; [exact Hc1 | stage_calls] |].
       split; [left; split; [reflexivity | apply Hno1; reflexivity] |].
       split; [intros _; split; [reflexivity |]; eauto | reflexivity]. }
  destruct Hcase as (events & ->).
  assert (Hno2 : forall tr, Calls.marketAnswers tr = [] ->
                            ~ Props.unmappable (tr1 ++ tr2 ++ tr)).
  { intros tr Htr. unfold Props.unmappable.
    rewrite !marketAnswers_app, Hm1, Hm2, Htr. intros H; inversion H. }
  assert (Hdate : forall o : Js.Res (list Opportunity.t),
             o <> Js.Threw rangeError ->
             o = Js.Threw rangeError
             <-> true = true
                 /\ exists l, Js.Returned (a :: articles) = Js.Returned l
                              /\ forallb dated (take 40 l) = false).
  { intros o Ho. split; [intros E; contradiction |].
    intros (_ & l & E & Hu). injection E as <-. congruence. }
  destruct events as [| e events].
  { Hoare.msteps. split; [split; [congruence | stage_calls] |].
    split; [split; [constructor | apply Hno2; reflexivity] |].
    apply Hdate. discriminate. }
  apply Hoare.runs_bind.
  eapply Hoare.runs_mono; [apply searchMatchingMarkets_stage |].
  intros o3 s3 tr3 w3 ([Hc3 Hq3] & Hcase).
  assert (Hmk : forall tr, Calls.marketAnswers tr = [] ->
            Props.unmappable (tr1 ++ tr2 ++ tr3 ++ tr) <-> Props.unmappable tr3).
  { intros tr Htr. unfold Props.unmappable.
    rewrite !marketAnswers_app, Hm1, Hm2, Htr, app_nil_r. reflexivity. }
  assert (Hq : forall tr, Calls.backend tr = [] ->
                          Calls.backend (tr1 ++ tr2 ++ tr3 ++ tr) = []).
  { intros tr Htr. repeat (apply backend_app; [assumption |]). exact Htr. }
  destruct Hcase as [[(matches & ->) Hok] | [-> Hbad]].
  - destruct matches as [| m matches]; Hoare.msteps.
    all: split; [split; [congruence | apply Hq; reflexivity] |].
    all: split; [| apply Hdate; discriminate].
    all: split; [| rewrite Hmk by reflexivity; exact Hok].
    + constructor.
    + apply evaluateMatches_admissible.
  - split; [split; [congruence |] |].
    { pose proof (Hq [] eq_refl) as H. rewrite !app_nil_r in H. exact H. }
    split; [right; split; [reflexivity |] |].
    { pose proof (Hmk [] eq_refl) as H. rewrite !app_nil_r in H. apply H, Hbad. }
    apply Hdate. discriminate.
Qed.

End Pipeline.

End StrategyFacts.

(** ** The orchestrator, method by method *)

Module TradingFacts.

Import Trading.

Lemma unrecorded_nil : Props.unrecorded [].
Proof. split; reflexivity. Qed.

Lemma unrecorded_app (tr1 tr2 : Trace) :
  Props.unrecorded tr1 -> Props.unrecorded tr2 -> Props.unrecorded (tr1 ++ tr2).
Proof.
  unfold Props.unrecorded, Calls.scans, Calls.positionsRead.
  intros [H1 H2] [H3 H4]. rewrite !omap_app, H1, H2, H3, H4. split; reflexivity.
Qed.

Lemma executesOnly_app (ds : list Decision.t) (tr1 tr2 : Trace) :
  Props.executesOnly ds tr1 -> Props.executesOnly ds tr2 ->
  Props.executesOnly ds (tr1 ++ tr2).
Proof.
  unfold Props.executesOnly, Calls.executions. intros H1 H2.
  rewrite omap_app. apply Forall_app; split; assumption.
Qed.

Lemma executesOnly_mono (ds ds' : list Decision.t) (tr : Trace) :
  (forall d, d ∈ ds -> d ∈ ds') -> Props.executesOnly ds tr -> Props.executesOnly ds' tr.
Proof.
  unfold Props.executesOnly. intros Hsub H.
  eapply Forall_impl; [exact H |]. intros x Hx. apply Hsub, Hx.
Qed.

(** The strategy and the news service make no backend call. *)
Lemma backend_none (tr : Trace) :
  Calls.backend tr = [] ->
  Props.unrecorded tr /\ Calls.executions tr = [].
Proof.
  unfold Props.unrecorded, Calls.backend, Calls.scans, Calls.positionsRead,
    Calls.executions.
  induction tr as [| x tr IH]; [repeat split |].
  cbn [omap list_omap]. destruct x as [e r].
  destruct e; cbn [Calls.backendCall calledEvent]; try discriminate;
    intros H; destruct (IH H) as ((H1 & H2) & H3);
    cbn [Calls.positionsAnswer Calls.execution calledEvent];
    fold (omap Calls.execution tr);
    rewrite ?H1, ?H2, ?H3; repeat split; reflexivity.
Qed.

Ltac norm_trace :=
  repeat rewrite app_nil_r; repeat rewrite <- app_assoc; cbn [app].

Ltac idle :=
  repeat rewrite app_nil_r;
  repeat first [ apply unrecorded_app | apply executesOnly_app ];
  try (split; reflexivity);
  try (unfold Props.executesOnly;
       cbn [Calls.executions Calls.execution omap list_omap];
       repeat constructor; cbn; try apply list_elem_of_here).

Section Service.

Variable tradingConfig : TradingConfig.
Variable toFixed : Js.number -> nat -> string.
Variable strategyActive : bool.
Variable newsConfig : News.NewsConfig.
Variable Json : Type.
Variable eventPrompt : list Article.t -> string.
Variable marketPrompt : list ConfirmedEvent.t -> list Market.t -> string.
Variable matchBrackets : string -> option string.
Variable JSON_parse : string -> Js.Res (option (list Json)).
Variable asEvent : Json -> option ConfirmedEvent.t.
Variable asRawMatch : Json -> option Strategy.RawMatch.
Variable parsePrice : string -> Outcome -> option Js.number.
Variable envMaxPositionSize : Js.number.

Local Abbreviation evaluate := (Evaluator.evaluate tradingConfig toFixed).
Local Abbreviation canTrade := (canTrade tradingConfig).
Local Abbreviation evaluationLoop := (evaluationLoop tradingConfig toFixed).
Local Abbreviation scanAndTrade :=
  (scanAndTrade tradingConfig toFixed strategyActive newsConfig Json eventPrompt
                marketPrompt matchBrackets JSON_parse asEvent asRawMatch parsePrice
                envMaxPositionSize).

(** [canTrade] returns, changes no field and issues no execution. *)
Lemma canTrade_frame {W : Type} (env : Prog.Env W) (s : State) (w : W) :
  runs env canTrade s w
    (fun o s1 tr _ =>
       (exists b, o = Js.Returned b) /\ s1 = s
       /\ Props.unrecorded tr /\ Calls.executions tr = []).
Proof.
  unfold Trading.canTrade. Hoare.mauto.
  all: repeat split; eauto.
Qed.

(** [handleTrade] keeps the news service and executes only its decision. *)
Lemma handleTrade_frame {W : Type} (env : Prog.Env W) (s : State) (w : W)
      (d : Decision.t) :
  runs env (handleTrade d) s w
    (fun o s1 tr _ =>
       newsService s1 = newsService s
       /\ Props.unrecorded tr /\ Props.executesOnly [d] tr).
Proof.
  unfold handleTrade, tradeDone. Hoare.mauto.
  all: split; [reflexivity |]; split; idle.
Qed.

Lemma executesOnly_idle (ds : list Decision.t) (tr : Trace) :
  Calls.executions tr = [] -> Props.executesOnly ds tr.
Proof. unfold Props.executesOnly. intros ->. constructor. Qed.

(** The loop evaluates a prefix of the opportunities, in order: its
    decisions are those of that prefix, and it executes nothing else. *)
Lemma evaluationLoop_spec {W : Type} (env : Prog.Env W)
      (opportunities : list Opportunity.t) (decisions : list Decision.t)
      (s : State) (w : W) :
  runs env (evaluationLoop opportunities decisions) s w
    (fun o s1 tr _ =>
       newsService s1 = newsService s
       /\ Props.unrecorded tr
       /\ exists n,
           (n <= length opportunities)%nat
           /\ Props.executesOnly (map evaluate (take n opportunities)) tr
           /\ forall ds, o = Js.Returned ds ->
                         ds = decisions ++ map evaluate (take n opportunities)).
Proof.
  revert decisions s w.
  induction opportunities as [| opp rest IH]; intros decisions s w;
    cbn [Trading.evaluationLoop].
  - Hoare.msteps. split; [reflexivity |]. split; [apply unrecorded_nil |].
    exists 0%nat. split; [reflexivity |]. split; [constructor |].
    intros ds E. injection E as <-. cbn. rewrite app_nil_r. reflexivity.
  - apply Hoare.runs_bind.
    eapply Hoare.runs_mono; [apply canTrade_frame |].
    intros o1 s1 tr1 w1 ((b & ->) & -> & Hu1 & He1).
    destruct b; cbn [negb].
    2: { Hoare.msteps. rewrite app_nil_r. split; [reflexivity |]. split; [exact Hu1 |].
         exists 0%nat. split; [cbn; lia |]. split; [apply executesOnly_idle, He1 |].
         intros ds E. injection E as <-. cbn. rewrite app_nil_r. reflexivity. }
    apply Hoare.runs_bind.
    set (d := evaluate opp).
    assert (Hstep :
      forall s2 tr2 w2,
        newsService s2 = newsService s ->
        Props.unrecorded tr2 ->
        Props.executesOnly [d] tr2 ->
        runs env (evaluationLoop rest (decisions ++ [d])) s2 w2
          (fun o3 s3 tr3 _ =>
             newsService s3 = newsService s
             /\ Props.unrecorded (tr1 ++ tr2 ++ tr3)
             /\ exists n,
                 (n <= length (opp :: rest))%nat
                 /\ Props.executesOnly (map evaluate (take n (opp :: rest)))
                                        (tr1 ++ tr2 ++ tr3)
                 /\ forall ds, o3 = Js.Returned ds ->
                               ds = decisions ++ map evaluate (take n (opp :: rest)))).
    { intros s2 tr2 w2 Hn2 Hu2 He2.
      eapply Hoare.runs_mono; [apply IH |].
      intros o3 s3 tr3 w3 (Hn3 & Hu3 & n & Hle & He3 & Hds).
      split; [congruence |].
      split; [repeat apply unrecorded_app; assumption |].
      exists (S n). split; [cbn; lia |]. cbn [take map]. fold d.
      split.
      - repeat apply executesOnly_app.
        + apply executesOnly_idle, He1.
        + eapply executesOnly_mono; [| exact He2].
          intros x Hx. apply list_elem_of_singleton in Hx as ->. apply list_elem_of_here.
        + eapply executesOnly_mono; [| exact He3].
          intros x Hx. apply list_elem_of_further, Hx.
      - intros ds E. rewrite (Hds ds E), <- app_assoc. reflexivity. }
    destruct (Decision.shouldTrade d && unsupervisedMode tradingConfig).
    + eapply Hoare.runs_mono; [apply handleTrade_frame |].
      intros o2 s2 tr2 w2 (Hn2 & Hu2 & He2).
      destruct o2 as [e | []].
      * split; [exact Hn2 |].
        split; [apply unrecorded_app; assumption |].
        exists 1%nat. split; [cbn; lia |]. cbn [take map]. fold d.
        split; [| intros ds E; discriminate E].
        apply executesOnly_app; [apply executesOnly_idle, He1 | exact He2].
      * apply Hstep; assumption.
    + Hoare.msteps. apply Hstep; [reflexivity | apply unrecorded_nil |].
      apply executesOnly_idle. reflexivity.
Qed.

Lemma scans_app (tr1 tr2 : Trace) :
  Calls.scans (tr1 ++ tr2) = Calls.scans tr1 ++ Calls.scans tr2.
Proof. apply omap_app. Qed.

Lemma positionsRead_app (tr1 tr2 : Trace) :
  Calls.positionsRead (tr1 ++ tr2) = Calls.positionsRead tr1 ++ Calls.positionsRead tr2.
Proof. apply omap_app. Qed.

Lemma executions_app (tr1 tr2 : Trace) :
  Calls.executions (tr1 ++ tr2) = Calls.executions tr1 ++ Calls.executions tr2.
Proof. apply omap_app. Qed.

Lemma evaluate_marketId (o : Opportunity.t) :
  Decision.marketId (evaluate o) = Opportunity.marketId o.
Proof. reflexivity. Qed.

(** Decisions of admissible opportunities are for markets without an
    open position. *)
Lemma decisions_not_open (maxPrice : Q) (positions : gmap string unit)
      (opps : list Opportunity.t) (n : nat) (tr : Trace) :
  Forall (Props.admissible maxPrice positions) opps ->
  Props.executesOnly (map evaluate (take n opps)) tr ->
  Forall (fun x => positions !! Decision.marketId x.1 = None) (Calls.executions tr).
Proof.
  intros Hadm Hex. eapply Forall_impl; [exact Hex |].
  intros [d r] Hd. cbn in *.
  apply list_elem_of_fmap in Hd as (o & -> & Ho).
  apply (fun H => elem_of_sublist _ _ o H (sublist_take _ _)) in Ho.
  rewrite Forall_forall in Hadm. destruct (Hadm o Ho) as [_ Hnone].
  rewrite evaluate_marketId. exact Hnone.
Qed.

(** One cycle, in full. *)
Lemma scanAndTrade_spec {W : Type} (env : Prog.Env W) (s : State) (w : W) :
  runs env scanAndTrade s w
    (fun o s1 tr _ =>
       o = Js.Returned tt
       /\ News.searchesThisCycle (newsService s1) = News.searchesThisCycle (newsService s)
       /\ (forall opps ds,
             (opps, ds) ∈ Calls.scans tr ->
             exists positions n,
               head (Calls.positionsRead tr) = Some positions
               /\ Forall (Props.admissible (Strategy.maxPrice Strategy.defaultConfig)
                                           positions) opps
               /\ ds = map evaluate (take n opps)
               /\ Props.executesOnly ds tr)
       /\ (forall positions,
             head (Calls.positionsRead tr) = Some positions ->
             Forall (fun x => positions !! Decision.marketId x.1 = None)
                    (Calls.executions tr))).
Proof.
  unfold Trading.scanAndTrade, Trading.checkDailyReset, Trading.findOpportunities.
  apply Hoare.runs_tryCatch, Hoare.runs_bind.
  apply Hoare.runs_bind. Hoare.msteps.
  set (now := (env NewDate w).1). set (w0 := (env NewDate w).2).
  set (s0 := if negb (Calendar.getDate now =? Calendar.getDate (lastResetDate s))%nat
             then set_lastResetDate now (set_dailyTradeCount 0 s) else s).
  assert (Hs0 : newsService s0 = newsService s) by (unfold s0; destruct (negb _); reflexivity).
  assert (Hcheck :
    forall Q : Js.Res unit -> State -> Trace -> W -> Prop,
      Q (Js.Returned tt) s0 [] w0 ->
      runs env
        (if negb (Calendar.getDate now =? Calendar.getDate (lastResetDate s))%nat
         then Method.put (set_lastResetDate now (set_dailyTradeCount 0 s))
         else mret tt) s w0 Q).
  { intros Q HQ. unfold s0 in HQ. destruct (negb _); Hoare.msteps; exact HQ. }
  apply Hcheck. cbv beta iota. clear Hcheck.
  apply Hoare.runs_bind.
  eapply Hoare.runs_mono; [apply canTrade_frame |].
  intros o1 s1 tr1 w1 ((b & ->) & -> & [Hsc1 Hpr1] & He1).
  assert (Hidle :
    forall tr, tr = entry NewDate now :: tr1 ->
      (forall opps ds,
          (opps, ds) ∈ Calls.scans tr ->
          exists positions n,
            head (Calls.positionsRead tr) = Some positions
            /\ Forall (Props.admissible (Strategy.maxPrice Strategy.defaultConfig)
                                        positions) opps
            /\ ds = map evaluate (take n opps)
            /\ Props.executesOnly ds tr)
      /\ (forall positions,
            head (Calls.positionsRead tr) = Some positions ->
            Forall (fun x => positions !! Decision.marketId x.1 = None)
                   (Calls.executions tr))).
  { intros tr ->.
    change (entry NewDate now :: tr1) with ([entry NewDate now] ++ tr1).
    rewrite scans_app, positionsRead_app, executions_app, Hsc1, Hpr1, He1. cbn.
    split; [intros opps ds Hin; inversion Hin | intros p Hp; discriminate Hp]. }
  destruct b; cbn [negb].
  2: { Hoare.msteps. split; [reflexivity |]. split; [congruence |].
       apply Hidle. norm_trace. reflexivity. }
  destruct strategyActive; cbn [negb].
  2: { Hoare.msteps. split; [reflexivity |]. split; [congruence |].
       apply Hidle. norm_trace. reflexivity. }
  clear Hidle.
  Hoare.msteps.
  set (positions := (env GetOpenPositions w1).1). set (w2 := (env GetOpenPositions w1).2).
  eapply Hoare.runs_mono; [apply StrategyFacts.findOpportunities_spec |].
  intros o3 n3 tr3 w3 ([Hcycle Hq3] & Hout & _).
  destruct (backend_none tr3 Hq3) as ([Hsc3 Hpr3] & He3).
  destruct o3 as [e3 | opps].
  { (* the strategy threw: the cycle ends without a scan *)
    Hoare.msteps. norm_trace.
    change (entry NewDate now :: tr1 ++ entry GetOpenPositions positions :: tr3)
      with ([entry NewDate now] ++ tr1 ++ [entry GetOpenPositions positions] ++ tr3).
    rewrite !scans_app, !executions_app, Hsc1, Hsc3, He1, He3.
    split; [reflexivity |].
    split; [cbn [newsService set_newsService]; rewrite Hcycle; congruence |].
    split; [intros opps ds Hin; cbn in Hin; inversion Hin | intros p _; constructor]. }
  destruct Hout as [Hadm _].
  apply Hoare.runs_bind.
  eapply Hoare.runs_mono; [apply evaluationLoop_spec |].
  intros o4 s4 tr4 w4 (Hn4 & [Hsc4 Hpr4] & n & Hle & He4 & Hds).
  set (cycle := fun tail : Trace =>
                  entry NewDate now :: tr1 ++ entry GetOpenPositions positions
                    :: tr3 ++ tail).
  assert (Hcyc : forall tail, cycle tail
            = [entry NewDate now] ++ tr1 ++ [entry GetOpenPositions positions]
                ++ tr3 ++ tail) by reflexivity.
  assert (Hpos : forall tail, Calls.positionsRead tail = [] ->
                              Calls.positionsRead (cycle tail) = [positions]).
  { intros tail Htail.
    rewrite Hcyc, !positionsRead_app, Hpr1, Hpr3, Htail. reflexivity. }
  assert (Hexe : forall tail, Calls.executions (cycle tail) = Calls.executions tail).
  { intros tail. rewrite Hcyc, !executions_app, He1, He3. reflexivity. }
  assert (Hscn : forall tail, Calls.scans (cycle tail) = Calls.scans tail).
  { intros tail. rewrite Hcyc, !scans_app, Hsc1, Hsc3. reflexivity. }
  assert (Hnews : News.searchesThisCycle (newsService s4)
                  = News.searchesThisCycle (newsService s)).
  { rewrite Hn4. cbn. rewrite Hcycle. cbn. congruence. }
  destruct o4 as [e | ds].
  - (* the loop threw: no scan is recorded *)
    Hoare.msteps. norm_trace. fold (cycle tr4).
    split; [reflexivity |]. split; [exact Hnews |].
    split.
    + intros opps' ds' Hin. rewrite Hscn, Hsc4 in Hin. inversion Hin.
    + intros p Hp. rewrite Hpos in Hp by exact Hpr4. injection Hp as <-.
      rewrite Hexe.
      eapply decisions_not_open; eassumption.
  - specialize (Hds ds eq_refl). cbn [app] in Hds. subst ds.
    Hoare.msteps.
    set (ans := (env (RecordScan 100 opps (map evaluate (take n opps))) w4).1).
    set (rec := entry (RecordScan 100 opps (map evaluate (take n opps))) ans).
    assert (Hfinal :
      let tr := cycle (tr4 ++ [rec]) in
        (forall opps' ds',
            (opps', ds') ∈ Calls.scans tr ->
            exists positions n,
              head (Calls.positionsRead tr) = Some positions
              /\ Forall (Props.admissible (Strategy.maxPrice Strategy.defaultConfig)
                                          positions) opps'
              /\ ds' = map evaluate (take n opps')
              /\ Props.executesOnly ds' tr)
        /\ (forall p,
              head (Calls.positionsRead tr) = Some p ->
              Forall (fun x => p !! Decision.marketId x.1 = None)
                     (Calls.executions tr))).
    { assert (Hpr : Calls.positionsRead (tr4 ++ [rec]) = [])
        by (rewrite positionsRead_app, Hpr4; reflexivity).
      assert (Hex : Calls.executions (tr4 ++ [rec]) = Calls.executions tr4)
        by (rewrite executions_app; cbn; apply app_nil_r).
      cbv zeta. split.
      - intros opps' ds' Hin. rewrite Hscn, scans_app, Hsc4 in Hin. cbn in Hin.
        apply list_elem_of_singleton in Hin. injection Hin as -> ->.
        exists positions, n. rewrite (Hpos _ Hpr).
        split; [reflexivity |]. split; [exact Hadm |]. split; [reflexivity |].
        unfold Props.executesOnly. rewrite Hexe, Hex. exact He4.
      - intros p Hp. rewrite (Hpos _ Hpr) in Hp. injection Hp as <-.
        rewrite Hexe, Hex.
        eapply decisions_not_open; eassumption. }
    destruct ans as [e | []] eqn:Eans; Hoare.msteps.
    all: split; [reflexivity |]; split; [exact Hnews |].
    all: norm_trace; exact Hfinal.
Qed.

End Service.

End TradingFacts.

(** ** C3: the daily-trade guard inside a cycle *)

Module GuardMidCycle.

Import Trading.

(** C3 as stated fails: one trade a day is allowed and two opportunities
    are found; the first is traded, the guard then trips, and the second
    opportunity gets no decision: the scan recorded holds both
    opportunities and the single decision of the first. *)
Lemma second_opportunity_not_recorded :
  let r := exec Script.play Script.scanAndTrade (Script.trading Script.jan15 0)
                Script.tradingDay in
  map Script.marketsOfScan (Calls.scans (trace r))
    = [(["0xfed50"; "0xfed25"], ["0xfed50"])]%string
  /\ map (fun x => Decision.marketId x.1) (Calls.executions (trace r)) = ["0xfed50"%string]
  /\ dailyTradeCount (fields r) = 1
  /\ concat (map (fun scan => map Report.marketId
                                  (Report.recordedDecisions scan.1 scan.2))
                 (Calls.scans (trace r)))
     = ["0xfed50"%string].
Proof. vm_compute. repeat split; reflexivity. Qed.

Section Service.

Variable tradingConfig : TradingConfig.
Variable toFixed : Js.number -> nat -> string.
Variable strategyActive : bool.
Variable newsConfig : News.NewsConfig.
Variable Json : Type.
Variable eventPrompt : list Article.t -> string.
Variable marketPrompt : list ConfirmedEvent.t -> list Market.t -> string.
Variable matchBrackets : string -> option string.
Variable JSON_parse : string -> Js.Res (option (list Json)).
Variable asEvent : Json -> option ConfirmedEvent.t.
Variable asRawMatch : Json -> option Strategy.RawMatch.
Variable parsePrice : string -> Outcome -> option Js.number.
Variable envMaxPositionSize : Js.number.

Local Abbreviation evaluate := (Evaluator.evaluate tradingConfig toFixed).
Local Abbreviation canTrade := (canTrade tradingConfig).
Local Abbreviation evaluationLoop := (evaluationLoop tradingConfig toFixed).
Local Abbreviation scanAndTrade :=
  (scanAndTrade tradingConfig toFixed strategyActive newsConfig Json eventPrompt
                marketPrompt matchBrackets JSON_parse asEvent asRawMatch parsePrice
                envMaxPositionSize).

(** C3, amended.  When [canTrade] answers false at the head of an
    iteration, the loop ends there: it returns the decisions made so far
    and issues no execution, for that opportunity or any later one.  The
    decisions a cycle hands to the report service are those of the
    opportunities evaluated before that point, a prefix of the list, and
    every execution of the cycle is for one of them; the remaining
    opportunities are in the opportunity list of the scan, without a
    decision. *)
Theorem evaluation_stops_at_guard {W : Type} (env : Prog.Env W) (w : W) (s : State) :
  (forall opp rest decisions,
      outcome (exec env canTrade s w) = Js.Returned false ->
      let r := exec env (evaluationLoop (opp :: rest) decisions) s w in
      outcome r = Js.Returned decisions
      /\ trace r = trace (exec env canTrade s w)
      /\ Calls.executions (trace r) = [])
  /\ (let r := exec env scanAndTrade s w in
      forall opps ds,
        (opps, ds) ∈ Calls.scans (trace r) ->
        exists n,
          ds = map evaluate (take n opps)
          /\ Props.executesOnly ds (trace r)
          /\ Report.recordedDecisions opps ds
             = map (Report.entryOf opps) (map evaluate (take n opps))).
Proof.
  split.
  - intros opp rest decisions Hguard r. subst r.
    cbn [Trading.evaluationLoop]. rewrite Hoare.exec_bind. cbv zeta.
    pose proof (TradingFacts.canTrade_frame tradingConfig env s w) as Hframe.
    unfold runs in Hframe. destruct Hframe as (_ & _ & _ & Hex).
    rewrite Hguard. cbn [negb outcome trace].
    change (exec env (mret decisions) ?s1 ?w1)
      with (mkRun State _ W (Js.Returned decisions) s1 [] w1).
    cbn [outcome trace]. rewrite app_nil_r. auto.
  - intros r opps ds Hin.
    destruct (TradingFacts.scanAndTrade_spec tradingConfig toFixed strategyActive
                newsConfig Json eventPrompt marketPrompt matchBrackets JSON_parse
                asEvent asRawMatch parsePrice envMaxPositionSize env s w)
      as (_ & _ & Hscans & _).
    destruct (Hscans opps ds Hin) as (positions & n & _ & _ & -> & Hex).
    exists n. repeat split. exact Hex.
Qed.

End Service.

(** The theorem at work: with the day's only trade made, the guard trips on
    the first of two opportunities; and in the cycle of the example the
    recorded decisions are those of the first opportunity alone. *)
Lemma evaluation_stops_at_guard_witness :
  (let r := exec Script.play
                 (evaluationLoop Script.tradingConfig Script.toFixed
                    (Strategy.evaluateMatches Strategy.defaultConfig Js.NaN ∅
                       [MarketMatch.mk "0xfed50" "q" YES "r" (Js.Num (72 # 100));
                        MarketMatch.mk "0xfed25" "q" NO "r" (Js.Num (28 # 100))]) [])
                 (Script.trading Script.jan15 1) Script.tradingDay in
   outcome r = Js.Returned [] /\ Calls.executions (trace r) = [])
  /\ (let r := exec Script.play Script.scanAndTrade (Script.trading Script.jan15 0)
                    Script.tradingDay in
      exists opps ds n,
        Calls.scans (trace r) = [(opps, ds)]
        /\ length opps = 2%nat
        /\ ds = map (Evaluator.evaluate Script.tradingConfig Script.toFixed) (take n opps)
        /\ n = 1%nat).
Proof.
  split.
  - destruct (proj1 (evaluation_stops_at_guard Script.tradingConfig Script.toFixed true
                       Script.newsConfig Script.Json Script.eventPrompt Script.marketPrompt
                       Script.matchBrackets Script.JSON_parse Script.asEvent
                       Script.asRawMatch Script.parsePrice Js.NaN
                       Script.play Script.tradingDay (Script.trading Script.jan15 1))
                    (Strategy.opportunityOf Js.NaN
                       (MarketMatch.mk "0xfed50" "q" YES "r" (Js.Num (72 # 100))))
                    [Strategy.opportunityOf Js.NaN
                       (MarketMatch.mk "0xfed25" "q" NO "r" (Js.Num (28 # 100)))]
                    [] eq_refl) as (Ho & _ & He).
    split; [exact Ho | exact He].
  - set (r := exec Script.play Script.scanAndTrade (Script.trading Script.jan15 0)
                   Script.tradingDay).
    assert (Hs : exists opps ds, Calls.scans (trace r) = [(opps, ds)]
                                 /\ length opps = 2%nat /\ length ds = 1%nat).
    { vm_compute. eexists _, _. repeat split. }
    destruct Hs as (opps & ds & Hs & Hlo & Hld).
    destruct (proj2 (evaluation_stops_at_guard Script.tradingConfig Script.toFixed true
                       Script.newsConfig Script.Json Script.eventPrompt Script.marketPrompt
                       Script.matchBrackets Script.JSON_parse Script.asEvent
                       Script.asRawMatch Script.parsePrice Js.NaN
                       Script.play Script.tradingDay (Script.trading Script.jan15 0))
                    opps ds) as (n & Hds & _).
    { change ((opps, ds) ∈ Calls.scans (trace r)). rewrite Hs. apply list_elem_of_here. }
    exists opps, ds, n. split; [exact Hs |]. split; [exact Hlo |]. split; [exact Hds |].
    rewrite Hds, length_map, length_take in Hld. lia.
Defined.

End GuardMidCycle.

(** ** C4: what [findOpportunities] returns *)

Module OpportunityInvariant.

Section Service.

Variable tradingConfig : TradingConfig.
Variable toFixed : Js.number -> nat -> string.
Variable strategyActive : bool.
Variable cfg : Strategy.NewsArbConfig.
Variable newsConfig : News.NewsConfig.
Variable Json : Type.
Variable eventPrompt : list Article.t -> string.
Variable marketPrompt : list ConfirmedEvent.t -> list Market.t -> string.
Variable matchBrackets : string -> option string.
Variable JSON_parse : string -> Js.Res (option (list Json)).
Variable asEvent : Json -> option ConfirmedEvent.t.
Variable asRawMatch : Json -> option Strategy.RawMatch.
Variable parsePrice : string -> Outcome -> option Js.number.
Variable envMaxPositionSize : Js.number.

Local Abbreviation findOpportunities :=
  (Strategy.findOpportunities cfg newsConfig Json eventPrompt marketPrompt matchBrackets
                              JSON_parse asEvent asRawMatch parsePrice envMaxPositionSize).
Local Abbreviation scanAndTrade :=
  (Trading.scanAndTrade tradingConfig toFixed strategyActive newsConfig Json eventPrompt
                        marketPrompt matchBrackets JSON_parse asEvent asRawMatch
                        parsePrice envMaxPositionSize).

(** C4.  Every opportunity [findOpportunities] returns is priced below
    the configured ceiling and is for a market that is not a key of the
    open positions it was given.  It returns unless it throws, which it
    does in two cases only: a [RangeError] exactly when the news fetch
    brought an article without a valid date among the first 40, and a
    [TypeError] exactly when the markets endpoint answered with a body
    that cannot be mapped.  A match whose market is among the open
    positions yields no opportunity; and in a cycle of the orchestrator
    no decision is executed or recorded for a market that was among the
    open positions read for that cycle. *)
Theorem opportunities_admissible {W : Type} (env : Prog.Env W) (w : W) :
  (forall (s : News.State) (runtime : bool) (openPositions : gmap string unit),
      let r := exec env (findOpportunities runtime openPositions) s w in
      match outcome r with
      | Js.Returned opps =>
          Forall (Props.admissible (Strategy.maxPrice cfg) openPositions) opps
      | Js.Threw e => e = Strategy.rangeError \/ e = Strategy.typeError
      end
      /\ (outcome r = Js.Threw Strategy.rangeError
          <-> runtime = true
              /\ exists articles,
                  outcome (exec env (Strategy.fetchBreakingNews newsConfig) s w)
                  = Js.Returned articles
                  /\ Props.undated articles)
      /\ (outcome r = Js.Threw Strategy.typeError <-> Props.unmappable (trace r)))
  /\ (forall (openPositions : gmap string unit) (matches : list MarketMatch.t)
             (m : MarketMatch.t) (o : Opportunity.t),
         is_Some (openPositions !! MarketMatch.conditionId m) ->
         o ∈ Strategy.evaluateMatches cfg envMaxPositionSize openPositions matches ->
         Opportunity.marketId o <> MarketMatch.conditionId m)
  /\ (forall (s : Trading.State) (positions : gmap string unit),
         let r := exec env scanAndTrade s w in
         head (Calls.positionsRead (trace r)) = Some positions ->
         Forall (fun x => positions !! Decision.marketId x.1 = None)
                (Calls.executions (trace r))
         /\ Forall (fun scan =>
                      Forall (fun d => positions !! Decision.marketId d = None) scan.2)
                   (Calls.scans (trace r))).
Proof.
  split; [| split].
  - intros s runtime openPositions. cbv zeta.
    destruct (StrategyFacts.findOpportunities_spec cfg newsConfig Json eventPrompt
                marketPrompt matchBrackets JSON_parse asEvent asRawMatch parsePrice
                envMaxPositionSize env s w runtime openPositions) as (_ & Hout & Hrange).
    split; [| split; [exact Hrange |]].
    + destruct (outcome (exec env (findOpportunities runtime openPositions) s w))
        as [e | opps]; [| exact (proj1 Hout)].
      destruct Hout as [[-> _] | [-> _]]; [left | right]; reflexivity.
    + destruct (outcome (exec env (findOpportunities runtime openPositions) s w))
        as [e | opps].
      * destruct Hout as [[-> Hno] | [-> Hyes]].
        -- split; [discriminate | intros H; contradiction].
        -- split; [intros _; exact Hyes | reflexivity].
      * destruct Hout as [_ Hno]. split; [discriminate | intros H; contradiction].
  - intros openPositions matches m o Hopen Ho Heq.
    pose proof (StrategyFacts.evaluateMatches_admissible cfg envMaxPositionSize
                  openPositions matches) as Hadm.
    rewrite Forall_forall in Hadm. destruct (Hadm o Ho) as [_ Hnone].
    rewrite Heq in Hnone. destruct Hopen as [x Hx]. congruence.
  - intros s positions r Hpos.
    destruct (TradingFacts.scanAndTrade_spec tradingConfig toFixed strategyActive
                newsConfig Json eventPrompt marketPrompt matchBrackets JSON_parse
                asEvent asRawMatch parsePrice envMaxPositionSize env s w)
      as (_ & _ & Hscans & Hexec).
    split; [apply Hexec, Hpos |].
    apply Forall_forall. intros [opps ds] Hin. cbn.
    destruct (Hscans opps ds Hin) as (positions' & n & Hpos' & Hadm & -> & _).
    fold r in Hpos'. rewrite Hpos in Hpos'. injection Hpos' as <-.
    apply Forall_forall. intros d Hd.
    apply list_elem_of_fmap in Hd as (o & -> & Ho).
    apply (fun H => elem_of_sublist _ _ o H (sublist_take _ _)) in Ho.
    rewrite Forall_forall in Hadm. destruct (Hadm o Ho) as [_ Hnone].
    exact Hnone.
Qed.

End Service.

(** The pipeline of the example returns the two matched markets when no
    position is open ... *)
Example findOpportunities_fed :
  let r := exec Script.play (Script.findOpportunities ∅) (Script.news Script.jan15 0)
                Script.tradingDay in
  option_map (map (fun o => (Opportunity.marketId o, Opportunity.outcome o,
                             Opportunity.currentPrice o)))
             (match outcome r with Js.Returned l => Some l | Js.Threw _ => None end)
  = Some [("0xfed50"%string, YES, Js.Num (72 # 100));
          ("0xfed25"%string, NO, Js.Num (28 # 100))].
Proof. vm_compute. reflexivity. Qed.

(** An article without a valid date stops the pipeline before the model is
    called: the prompt cannot be built, and the cycle of the orchestrator
    ends without order and without scan.  So does an answer of the markets
    endpoint that is no array. *)
Example findOpportunities_undated :
  outcome (exec Script.play (Script.findOpportunities ∅) (Script.news Script.jan15 0)
                Scene.undatedDay) = Js.Threw Strategy.rangeError
  /\ outcome (exec Script.play (Script.findOpportunities ∅) (Script.news Script.jan15 0)
                   Scene.unmappableDay) = Js.Threw Strategy.typeError
  /\ (let r := exec Script.play Script.scanAndTrade (Script.trading Script.jan15 0)
                    Scene.undatedDay in
      outcome r = Js.Returned tt
      /\ Calls.completions (trace r) = []
      /\ Calls.scans (trace r) = []
      /\ Calls.executions (trace r) = []).
Proof. vm_compute. repeat split; reflexivity. Qed.

(** ... and the theorem at work with a position open on the first market:
    the cycle reads the open positions, and what it executes is not for
    that market. *)
Lemma opportunities_admissible_witness :
  let r := exec Script.play Script.scanAndTrade (Script.trading Script.jan15 0)
                Script.tradingDayHolding in
  head (Calls.positionsRead (trace r)) = Some {[ "0xfed50"%string := tt ]}
  /\ Forall (fun x => ({[ "0xfed50"%string := tt ]} : gmap string unit)
                        !! Decision.marketId x.1 = None)
            (Calls.executions (trace r))
  /\ map (fun x => Decision.marketId x.1) (Calls.executions (trace r)) = ["0xfed25"%string].
Proof.
  assert (Hpos : head (Calls.positionsRead
                         (trace (exec Script.play Script.scanAndTrade
                                      (Script.trading Script.jan15 0)
                                      Script.tradingDayHolding)))
                 = Some {[ "0xfed50"%string := tt ]}).
  { vm_compute. reflexivity. }
  split; [exact Hpos |]. split.
  - exact (proj1 (proj2 (proj2 (opportunities_admissible Script.tradingConfig Script.toFixed
                     true Strategy.defaultConfig Script.newsConfig Script.Json
                     Script.eventPrompt Script.marketPrompt Script.matchBrackets
                     Script.JSON_parse Script.asEvent Script.asRawMatch Script.parsePrice
                     Js.NaN Script.play Script.tradingDayHolding))
                   (Script.trading Script.jan15 0) _ Hpos)).
  - vm_compute. reflexivity.
Defined.

End OpportunityInvariant.

(** ** C5: the per-cycle search counter at the start of a cycle *)

Module CycleCounter.

Section Service.

Variable tradingConfig : TradingConfig.
Variable toFixed : Js.number -> nat -> string.
Variable strategyActive : bool.
Variable newsConfig : News.NewsConfig.
Variable Json : Type.
Variable eventPrompt : list Article.t -> string.
Variable marketPrompt : list ConfirmedEvent.t -> list Market.t -> string.
Variable matchBrackets : string -> option string.
Variable JSON_parse : string -> Js.Res (option (list Json)).
Variable asEvent : Json -> option ConfirmedEvent.t.
Variable asRawMatch : Json -> option Strategy.RawMatch.
Variable parsePrice : string -> Outcome -> option Js.number.
Variable envMaxPositionSize : Js.number.

Local Abbreviation scanAndTrade :=
  (Trading.scanAndTrade tradingConfig toFixed strategyActive newsConfig Json eventPrompt
                        marketPrompt matchBrackets JSON_parse asEvent asRawMatch
                        parsePrice envMaxPositionSize).

(** C5 (the code departs from the claim).  [resetCycleCounter] sets the
    counter to 0, but a cycle never invokes it: [scanAndTrade] leaves
    [searchesThisCycle] as it finds it, in every environment; in the
    example the counter is 8, the per-cycle cap, before the cycle and
    still 8 after it. *)
Theorem cycle_counter_not_reset {W : Type} (env : Prog.Env W) (w : W)
        (s : Trading.State) :
  News.searchesThisCycle (Trading.newsService (fields (exec env scanAndTrade s w)))
    = News.searchesThisCycle (Trading.newsService s)
  /\ News.searchesThisCycle
       (fields (exec env News.resetCycleCounter (Trading.newsService s) w)) = 0
  /\ News.searchesThisCycle
       (Trading.newsService
          (fields (exec Script.play Script.scanAndTrade Script.afterBusyCycle
                        Script.tradingDay))) = News.MAX_SEARCHES_PER_CYCLE.
Proof.
  split; [| split].
  - destruct (TradingFacts.scanAndTrade_spec tradingConfig toFixed strategyActive
                newsConfig Json eventPrompt marketPrompt matchBrackets JSON_parse
                asEvent asRawMatch parsePrice envMaxPositionSize env s w)
      as (_ & H & _).
    exact H.
  - reflexivity.
  - vm_compute. reflexivity.
Qed.

End Service.

End CycleCounter.

